(** * A shallow embedding of the library-administration console

  The development follows [app/database.py] and [app/crud.py]: the
  [Database] connection helpers and the [CRUD] operations built on them.
  Everything the program does to the outside (the PostgreSQL driver, the
  file system, the external [psql] / [pg_dump] / [pg_restore] processes,
  pandas) goes through one interface, [Driver]; the operations are
  written in a small exception-and-trace monad over it, so that what an
  operation returns and which external calls it makes, in which order, are
  both values one can compute and reason about. *)

From Stdlib Require Import ZArith Ascii String List Lia.
From stdpp Require Import base option list strings pretty.

Import ListNotations.
Local Open Scope string_scope.
Local Open Scope list_scope.

(** ** Python strings

  Text is modelled as byte strings ([string]); the helpers below are the
  [str] methods the source uses, on ASCII text. *)

Module Py.

(** [str.lower] on ASCII letters. *)
Definition lower_ascii (c : ascii) : ascii :=
  let n := nat_of_ascii c in
  if (65 <=? n)%nat && (n <=? 90)%nat then ascii_of_nat (n + 32) else c.

Fixpoint lower (s : string) : string :=
  match s with
  | EmptyString => EmptyString
  | String c s' => String (lower_ascii c) (lower s')
  end.

(** [str.isspace] on one ASCII character: TAB, LF, VT, FF, CR, the four
    separators FS GS RS US, and the blank. *)
Definition isspace (c : ascii) : bool :=
  let n := nat_of_ascii c in
  ((9 <=? n)%nat && (n <=? 13)%nat) || ((28 <=? n)%nat && (n <=? 32)%nat).

Fixpoint lstrip (s : string) : string :=
  match s with
  | EmptyString => EmptyString
  | String c s' => if isspace c then lstrip s' else s
  end.

Definition rstrip (s : string) : string :=
  String.rev (lstrip (String.rev s)).

(** [s.strip()] *)
Definition strip (s : string) : string := rstrip (lstrip s).

(** [s.startswith(p)] *)
Definition startswith (s p : string) : bool := String.prefix p s.

(** [s.endswith(p)] *)
Definition endswith (s p : string) : bool :=
  String.prefix (String.rev p) (String.rev s).

(** [p in s] *)
Fixpoint contains (p s : string) : bool :=
  String.prefix p s ||
  match s with
  | EmptyString => false
  | String _ s' => contains p s'
  end.

(** [s.split(c)] for a one-character separator [c]: always at least one
    piece. *)
Fixpoint split_go (c : ascii) (cur : string) (s : string) : list string :=
  match s with
  | EmptyString => [String.rev cur]
  | String d s' =>
      if Ascii.eqb d c then String.rev cur :: split_go c EmptyString s'
      else split_go c (String d cur) s'
  end.

Definition split (c : ascii) (s : string) : list string :=
  split_go c EmptyString s.

(** [sep.join(parts)] *)
Definition join (sep : string) (parts : list string) : string :=
  String.concat sep parts.

(** Truthiness of a [str]: the empty string is false. *)
Definition truthy (s : string) : bool :=
  match s with EmptyString => false | _ => true end.

(** [a or b] on strings. *)
Definition or_else (a b : string) : string := if truthy a then a else b.

(** The line feed and the double quote, which string literals here do
    not spell. *)
Definition LF : ascii := ascii_of_nat 10.
Definition nl : string := String LF EmptyString.
Definition dq : string := String (ascii_of_nat 34) EmptyString.

(** [posixpath.join(a, b)] *)
Definition path_join (a b : string) : string :=
  if startswith b "/" then b
  else if negb (truthy a) || endswith a "/" then a +:+ b
  else a +:+ "/" +:+ b.

End Py.

(** ** Values, rows and exceptions *)

(** What a driver hands back in a row, or takes as a statement parameter.
    A [date] or [datetime] object is represented by its ISO 8601 rendering,
    so [isoformat()] is the projection of [VDate] / [VDateTime]; a float is
    represented by its [repr]. *)
Inductive value :=
| VNone
| VBool (b : bool)
| VInt (n : Z)
| VStr (s : string)
| VFloat (repr : string)
| VDate (iso : string)
| VDateTime (iso : string).

#[global] Instance value_eq_dec : EqDecision value.
Proof. solve_decision. Defined.

Definition row := list value.

(** Exceptions, all of them below [Exception] in Python's hierarchy (the
    interrupts that sit directly under [BaseException] are outside the
    model). [OtherException cls msg] stands for any class not named by a
    handler of the source, with [msg] its [str]. *)
Inductive exn :=
| CalledProcessError (cmd : list string) (returncode : Z) (stderr : option string)
| FileNotFoundError (msg : string)
| OtherException (cls : string) (msg : string).

(** [repr] of a list of plain strings, as in a [CalledProcessError]
    message. *)
Definition repr_cmd (cmd : list string) : string :=
  "[" +:+ Py.join ", " (map (fun a => "'" +:+ a +:+ "'") cmd) +:+ "]".

(** [str(e)] *)
Definition str_exn (e : exn) : string :=
  match e with
  | CalledProcessError cmd rc _ =>
      "Command '" +:+ repr_cmd cmd +:+ "' returned non-zero exit status "
      +:+ pretty rc +:+ "."
  | FileNotFoundError msg => msg
  | OtherException _ msg => msg
  end.

Definition IndexError : exn := OtherException "IndexError" "tuple index out of range".
Definition TypeError_None : exn :=
  OtherException "TypeError" "'NoneType' object is not subscriptable".

Inductive outcome (A : Type) :=
| Ret (a : A)
| Raise (e : exn).
Arguments Ret {A} a.
Arguments Raise {A} e.

Definition raised {A} (o : outcome A) : bool :=
  match o with Ret _ => false | Raise _ => true end.

(** ** The outside world

  One connection handle per successful [psycopg2.connect]; the cursor an
  operation opens on it with [conn.cursor()] is the only one it ever has,
  so cursor calls are addressed by the connection. Creating and closing a
  cursor touch nothing outside the client and are not recorded. *)

Definition conn := nat.

Record conn_params := {
  cp_host : string;
  cp_database : string;
  cp_user : string;
  cp_password : string;
  cp_port : string
}.

(** The second argument of [cursor.execute]. *)
Inductive sql_params :=
| NoParams
| Positional (vs : list value)
| Named (kvs : list (string * value)).

(** [subprocess.CompletedProcess] *)
Record completed := {
  returncode : Z;
  stdout : string;
  stderr : string
}.

(** A pandas [DataFrame], as far as the program looks at it: its rows. *)
Definition dataframe := list row.

(** One entry of the [tables] list of an archive report: the success
    entry or the error entry. *)
Inductive table_entry :=
| Archived (name : string) (rows_archived : nat)
           (excel_path json_path backup_path : string)
| NotArchived (name : string) (error : string).

Record archive_report := {
  ar_timestamp : string;
  ar_tables : list table_entry;
  ar_reason : string;
  ar_total_rows_archived : nat;
  ar_report_path : option string
}.

(** Every call that leaves the program. A trace pairs each call with
    whether it completed ([true]) or raised ([false]). *)
Inductive call :=
| Connect (p : conn_params)
| Execute (c : conn) (q : string) (p : sql_params)
| Fetchone (c : conn)
| Fetchall (c : conn)
| Commit (c : conn)
| Rollback (c : conn)
| Close (c : conn)
| ConnExit (c : conn) (exc : bool)
| Spawn (cmd : list string) (pgpassword : string)
| ReadSql (c : conn) (q : string)
| ToExcel (path : string)
| ToJson (path : string)
| Makedirs (path : string)
| Getsize (path : string)
| WriteReport (path : string)
| Print (msg : string).

Definition trace := list (call * bool).

(** The interface to everything outside the program. [W] is the state of
    the world (server, file system, clock); each call may change it and
    may raise.

    - [db_conn_exit c exc] is what leaving [with conn:] does for a driver
      connection used as a context manager (in psycopg2: commit, or
      rollback when [exc], and the connection stays open);
    - [db_description] lists the column names of [cursor.description]
      ([None] when the last statement produced no result set);
    - [clock] is [datetime.now()] in microseconds. *)
Class Driver (W : Type) := {
  db_connect : conn_params -> W -> outcome conn * W;
  db_execute : conn -> string -> sql_params -> W -> outcome unit * W;
  db_fetchone : conn -> W -> outcome (option row) * W;
  db_fetchall : conn -> W -> outcome (list row) * W;
  db_description : conn -> W -> option (list string);
  db_rowcount : conn -> W -> Z;
  db_commit : conn -> W -> outcome unit * W;
  db_rollback : conn -> W -> outcome unit * W;
  db_close : conn -> W -> outcome unit * W;
  db_conn_exit : conn -> bool -> W -> W;
  os_getenv : string -> W -> option string;
  os_path_exists : string -> W -> bool;
  os_makedirs : string -> W -> outcome unit * W;
  os_path_getsize : string -> W -> outcome Z * W;
  proc_spawn : list string -> string -> W -> outcome completed * W;
  clock : W -> Z;
  now_stamp : W -> string;
  now_iso : W -> string;
  pd_read_sql_query : conn -> string -> W -> outcome dataframe * W;
  df_to_excel : dataframe -> string -> W -> outcome unit * W;
  df_to_json : dataframe -> string -> W -> outcome unit * W;
  fs_write_report : string -> archive_report -> W -> outcome unit * W
}.

(** ** The monad of operations: world passing, exceptions, and the trace
    of external calls. *)

Section Monad.
Context {W : Type}.

Definition M (A : Type) : Type := W -> outcome A * W * trace.

Definition ret {A} (a : A) : M A := fun w => (Ret a, w, []).

Definition raise {A} (e : exn) : M A := fun w => (Raise e, w, []).

Definition bind {A B} (m : M A) (f : A -> M B) : M B :=
  fun w =>
    match m w with
    | (Ret a, w1, t1) =>
        match f a w1 with
        | (r, w2, t2) => (r, w2, t1 ++ t2)
        end
    | (Raise e, w1, t1) => (Raise e, w1, t1)
    end.

(** [try: m  except Exception as e: h e] *)
Definition try_except {A} (m : M A) (h : exn -> M A) : M A :=
  fun w =>
    match m w with
    | (Ret a, w1, t1) => (Ret a, w1, t1)
    | (Raise e, w1, t1) =>
        match h e w1 with
        | (r, w2, t2) => (r, w2, t1 ++ t2)
        end
    end.

(** [try: m  finally: f]: [f] always runs; what it raises replaces the
    outcome of [m]. *)
Definition finally {A} (m : M A) (f : M unit) : M A :=
  fun w =>
    match m w with
    | (r, w1, t1) =>
        match f w1 with
        | (Ret _, w2, t2) => (r, w2, t1 ++ t2)
        | (Raise e, w2, t2) => (Raise e, w2, t1 ++ t2)
        end
    end.

(** An external call, recorded in the trace with its success. *)
Definition ext {A} (c : call) (f : W -> outcome A * W) : M A :=
  fun w =>
    match f w with
    | (r, w1) => (r, w1, [(c, negb (raised r))])
    end.

(** Reading the world without changing it. *)
Definition ask {A} (f : W -> A) : M A := fun w => (Ret (f w), w, []).

(** [l[i]] *)
Definition item {A} (l : list A) (i : nat) : M A :=
  match l !! i with
  | Some x => ret x
  | None => raise IndexError
  end.

(** [[f x for x in l]] when [f] may raise. *)
Fixpoint for_each {A B} (f : A -> M B) (l : list A) : M (list B) :=
  match l with
  | [] => ret []
  | x :: l' => bind (f x) (fun y => bind (for_each f l') (fun ys => ret (y :: ys)))
  end.

End Monad.
Arguments M W A : clear implicits.

Notation "'let!' x ':=' m 'in' k" := (bind m (fun x => k))
  (at level 10, x name, m at level 100, k at level 200).
Notation "m ';;' k" := (bind m (fun _ => k))
  (at level 100, k at level 200, right associativity).

(** ** Python dictionaries

  Insertion-ordered association lists: assigning to a key that is present
  replaces its value in place, a new key goes to the end. *)

Section Dict.
Context {K V : Type} `{EqDecision K}.

Definition dict : Type := list (K * V).

(** [d[k] = v] *)
Fixpoint dict_set (k : K) (v : V) (d : dict) : dict :=
  match d with
  | [] => [(k, v)]
  | (k', v') :: d' =>
      if decide (k = k') then (k, v) :: d' else (k', v') :: dict_set k v d'
  end.

(** [d.get(k)] *)
Fixpoint dict_get (k : K) (d : dict) : option V :=
  match d with
  | [] => None
  | (k', v') :: d' => if decide (k = k') then Some v' else dict_get k d'
  end.

(** [dict(pairs)] *)
Definition dict_of (pairs : list (K * V)) : dict :=
  fold_left (fun d kv => dict_set (fst kv) (snd kv) d) pairs [].

End Dict.
Arguments dict K V : clear implicits.

(** ** Formatting and truth of values *)

(** [str(v)], as an f-string renders it. The [str] of a [datetime] is its
    ISO form with a blank for the [T]. *)
Fixpoint blank_T (s : string) : string :=
  match s with
  | EmptyString => EmptyString
  | String c s' => if Ascii.eqb c "T"%char then String " "%char s' else String c (blank_T s')
  end.

Definition str_value (v : value) : string :=
  match v with
  | VNone => "None"
  | VBool true => "True"
  | VBool false => "False"
  | VInt n => pretty n
  | VStr s => s
  | VFloat r => r
  | VDate iso => iso
  | VDateTime iso => blank_T iso
  end.

Definition str_opt (o : option string) : string :=
  match o with Some s => s | None => "None" end.

(** [value != "" and value is not None] *)
Definition has_content (v : value) : bool :=
  match v with
  | VNone => false
  | VStr EmptyString => false
  | _ => true
  end.

(** [v == s] for a string literal [s]. *)
Definition eq_str (v : value) (s : string) : bool :=
  match v with
  | VStr s' => String.eqb s' s
  | _ => false
  end.

(** Truthiness of a list. *)
Definition nonempty {A} (l : list A) : bool :=
  match l with [] => false | _ :: _ => true end.

(** A triple-quoted SQL literal of the source: a line feed, the lines at
    their indentation, and the indentation of the closing quotes. *)
Definition spaces (n : nat) : string := string_of_list_ascii (repeat " "%char n).

Definition sql_block (indent : nat) (body : list string) (closing : nat) : string :=
  Py.nl +:+ String.concat "" (map (fun l => spaces indent +:+ l +:+ Py.nl) body)
  +:+ spaces closing.

(** ** [app/database.py] *)

Module Database.
Section Database.
Context {W : Type} `{Driver W}.

(** [os.getenv(key, default)] *)
Definition getenv (key default : string) : M W string :=
  ask (fun w => match os_getenv key w with Some v => v | None => default end).

(** [print(msg)] *)
Definition print (msg : string) : M W unit :=
  ext (Print msg) (fun w => (Ret tt, w)).

(** [Database.get_connection]: connect with the settings of the
    environment; a failure is printed and raised again. *)
Definition get_connection : M W conn :=
  let! host := getenv "DB_HOST" "localhost" in
  let! database := getenv "DB_NAME" "library_management" in
  let! user := getenv "DB_USER" "admin" in
  let! password := getenv "DB_PASSWORD" "123" in
  let! port := getenv "DB_PORT" "5432" in
  let p := {| cp_host := host; cp_database := database; cp_user := user;
              cp_password := password; cp_port := port |} in
  try_except (ext (Connect p) (db_connect p))
    (fun e =>
       print ("❌ Ошибка подключения к базе данных: " +:+ str_exn e);;
       raise e).

(** [with Database.get_connection_context() as conn: body]. When the
    connection cannot be opened the exception goes through ([conn] is
    still [None]: nothing to roll back or close). Otherwise an exception
    of the body is followed by [conn.rollback()] and raised again, and in
    every case [conn.close()] runs last. *)
Definition get_connection_context {A} (body : conn -> M W A) : M W A :=
  let! c := get_connection in
  finally
    (try_except (body c)
       (fun e => ext (Rollback c) (db_rollback c);; raise e))
    (ext (Close c) (db_close c)).

(** [with Database.get_connection() as conn: body]: the driver's
    connection is its own context manager; leaving the block hands
    control to the driver ([db_conn_exit]) and an exception of the body
    goes on. *)
Definition with_connection {A} (body : conn -> M W A) : M W A :=
  let! c := get_connection in
  fun w =>
    match body c w with
    | (r, w1, t1) =>
        (r, db_conn_exit c (raised r) w1, t1 ++ [(ConnExit c (raised r), true)])
    end.

(** The cursor calls. *)
Definition execute (c : conn) (q : string) (p : sql_params) : M W unit :=
  ext (Execute c q p) (db_execute c q p).
Definition fetchone (c : conn) : M W (option row) :=
  ext (Fetchone c) (db_fetchone c).
Definition fetchall (c : conn) : M W (list row) :=
  ext (Fetchall c) (db_fetchall c).
Definition commit (c : conn) : M W unit :=
  ext (Commit c) (db_commit c).
Definition rollback (c : conn) : M W unit :=
  ext (Rollback c) (db_rollback c).

(** [cur.fetchone()[0]] *)
Definition fetchone_0 (c : conn) : M W value :=
  let! r := fetchone c in
  match r with
  | None => raise TypeError_None
  | Some r => item r 0
  end.

End Database.
End Database.

(** ** [app/crud.py] *)

Module CRUD.
Import Database.

(** The catalog queries, as the source spells them. *)
Definition tables_query : string :=
  sql_block 20
    [ "SELECT table_name ";
      "FROM information_schema.tables ";
      "WHERE table_schema = 'public' ";
      "AND table_type = 'BASE TABLE'";
      "AND table_name NOT LIKE 'pg_%'";
      "AND table_name NOT LIKE 'sql_%'";
      "ORDER BY table_name;" ] 16.

Definition columns_query : string :=
  sql_block 20
    [ "SELECT column_name, data_type, is_nullable, column_default";
      "FROM information_schema.columns";
      "WHERE table_schema = 'public'";
      "AND table_name = %s";
      "ORDER BY ordinal_position;" ] 16.

Definition primary_key_query : string :=
  sql_block 24
    [ "SELECT column_name ";
      "FROM information_schema.table_constraints tc";
      "JOIN information_schema.key_column_usage kcu ";
      "ON tc.constraint_name = kcu.constraint_name";
      "WHERE tc.table_name = %s AND tc.constraint_type = 'PRIMARY KEY'" ] 20.

Definition column_names_query : string :=
  sql_block 20
    [ "SELECT column_name ";
      "FROM information_schema.columns";
      "WHERE table_schema = 'public'";
      "AND table_name = %s";
      "ORDER BY ordinal_position;" ] 16.

(** One element of what [get_table_columns] returns. *)
Record column := {
  col_name : value;
  col_type : value;
  col_nullable : bool;
  col_default : value
}.

(** What the record operations return: [{"success": True, "message": m}]
    or [{"success": False, "error": e}]. *)
Inductive status_result :=
| Success (message : string)
| Failure (error : string).

(** What [get_record_by_id] returns: the record as a dictionary, [None],
    or the failure dictionary. *)
Inductive record_result :=
| Record_found (fields : dict value value)
| Record_none
| Record_failed (error : string).

(** What [get_table_data] returns. *)
Record table_page := {
  tp_total_count : value;
  tp_page : Z;
  tp_page_size : Z;
  tp_total_pages : Z;
  tp_data : list (dict value value);
  tp_columns : list value
}.

(** What [execute_sql] returns: the dictionary of a statement with a result
    set, of one without, and of a failed one. [execution_time] is in
    microseconds. *)
Inductive sql_result :=
| Sql_rows (data : list (dict string value)) (columns : list string)
           (rowcount : Z) (execution_time : Z)
| Sql_done (message : string) (rowcount : Z) (execution_time : Z)
| Sql_failed (error : string) (execution_time : Z).

(** What [insert_data], [update_data] and [delete_data] return. The
    failure dictionary of [delete_data] may carry [dependencies]. *)
Inductive change_result :=
| Inserted (data : dict string value)
| Updated (updated_count : Z) (data : list (dict string value))
| Deleted (deleted_count : Z) (data : list (dict string value))
| Change_failed (error : string) (dependencies : option (dict string value)).

(** What [restore_backup] returns. A key that a dictionary does not have
    is [None] here; [rf_error] is [None] for Python's [None]. *)
Inductive restore_result :=
| Restore_failed (rf_error : option string) (rf_command : option string)
                 (rf_warnings : option (list string))
| Restored (message backup_path timestamp : string) (warnings : list string).

(** What [create_backup] returns. [tables] is [None] for ["all"]. *)
Inductive backup_result :=
| Backup_created (backup_path : string) (file_size : Z)
                 (tables : option (list string)) (timestamp : string)
| Backup_failed (bf_error : option string) (bf_command : option string).

Section Operations.
Context {W : Type} `{Driver W}.

Definition get_tables : M W (list value) :=
  get_connection_context (fun conn =>
    execute conn tables_query NoParams;;
    let! rows := fetchall conn in
    for_each (fun r : row => item r 0) rows).

Definition column_of_row (col : row) : M W column :=
  let! name := item col 0 in
  let! type := item col 1 in
  let! nullable := item col 2 in
  let! default := item col 3 in
  ret {| col_name := name; col_type := type;
         col_nullable := eq_str nullable "YES"; col_default := default |}.

Definition get_table_columns (table_name : string) : M W (list column) :=
  with_connection (fun conn =>
    execute conn columns_query (Positional [VStr table_name]);;
    let! columns := fetchall conn in
    for_each column_of_row columns).

(** [result[0] if result else 'id'] *)
Definition first_or_id (result : option row) : M W value :=
  match result with
  | Some (v :: _) => ret v
  | _ => ret (VStr "id")
  end.

Definition get_primary_key (table_name : string) : M W value :=
  try_except
    (with_connection (fun conn =>
       execute conn primary_key_query (Positional [VStr table_name]);;
       let! result := fetchone conn in
       first_or_id result))
    (fun _ => ret (VStr "id")).

Definition get_record_by_id (table_name : string) (record_id : value)
  : M W record_result :=
  try_except
    (with_connection (fun conn =>
       execute conn primary_key_query (Positional [VStr table_name]);;
       let! pk_result := fetchone conn in
       let! pk_column := first_or_id pk_result in
       execute conn
         ("SELECT * FROM " +:+ table_name +:+ " WHERE " +:+ str_value pk_column
          +:+ " = %s")
         (Positional [record_id]);;
       let! record := fetchone conn in
       match record with
       | Some ((_ :: _) as record) =>
           let! columns := get_table_columns table_name in
           ret (Record_found (dict_of (zip (map col_name columns) record)))
       | _ => ret Record_none
       end))
    (fun e => ret (Record_failed (str_exn e))).

(** The loop of [update_record] over [data.items()]: the [SET] parts and
    their values, in step. *)
Fixpoint set_clause (pk_column : value) (data : list (string * value))
    (set_parts : list string) (values : list value)
  : list string * list value :=
  match data with
  | [] => (set_parts, values)
  | (key, value) :: rest =>
      if negb (eq_str pk_column key) && has_content value
      then set_clause pk_column rest
             (set_parts ++ [key +:+ " = %s"]) (values ++ [value])
      else set_clause pk_column rest set_parts values
  end.

Definition update_record (table_name : string) (record_id : value)
    (data : dict string value) : M W status_result :=
  try_except
    (get_connection_context (fun conn =>
       execute conn primary_key_query (Positional [VStr table_name]);;
       let! pk_result := fetchone conn in
       let! pk_column := first_or_id pk_result in
       let '(set_parts, values) := set_clause pk_column data [] [] in
       match set_parts with
       | [] => ret (Failure "Нет данных для обновления")
       | _ =>
           let values := values ++ [record_id] in
           let query :=
             "UPDATE " +:+ table_name +:+ " SET " +:+ Py.join ", " set_parts
             +:+ " WHERE " +:+ str_value pk_column +:+ " = %s" in
           execute conn query (Positional values);;
           commit conn;;
           ret (Success "Запись успешно обновлена")
       end))
    (fun e => ret (Failure (str_exn e))).

Definition delete_record (table_name : string) (record_id : value)
  : M W status_result :=
  try_except
    (get_connection_context (fun conn =>
       execute conn primary_key_query (Positional [VStr table_name]);;
       let! pk_result := fetchone conn in
       let! pk_column := first_or_id pk_result in
       let query :=
         "DELETE FROM " +:+ table_name +:+ " WHERE " +:+ str_value pk_column
         +:+ " = %s" in
       execute conn query (Positional [record_id]);;
       commit conn;;
       ret (Success "Запись успешно удалена")))
    (fun e => ret (Failure (str_exn e))).

(** The search of [get_table_data] for a column whose name ends in
    [_id]: the loop with its [break]. *)
Fixpoint find_id_column (columns : list value) : M W (option value) :=
  match columns with
  | [] => ret None
  | col :: rest =>
      match col with
      | VStr name =>
          if Py.endswith name "_id" then ret (Some col) else find_id_column rest
      | _ => raise (OtherException "AttributeError" "object has no attribute 'endswith'")
      end
  end.

Definition choose_sort_column (columns : list value) : M W value :=
  let sort_column := VStr "ctid" in
  let! found := find_id_column columns in
  let sort_column := match found with Some col => col | None => sort_column end in
  match columns with
  | first :: _ => if eq_str sort_column "ctid" then ret first else ret sort_column
  | [] => ret sort_column
  end.

(** [value.isoformat()] for the two date classes, the value itself
    otherwise. *)
Definition iso_value (v : value) : value :=
  match v with
  | VDateTime iso => VStr iso
  | VDate iso => VStr iso
  | _ => v
  end.

(** [for i, value in enumerate(row): row_dict[columns[i]] = ...] *)
Fixpoint row_to_dict {K} `{EqDecision K} (columns : list K) (i : nat)
    (r : row) (row_dict : dict K value) : M W (dict K value) :=
  match r with
  | [] => ret row_dict
  | value :: rest =>
      let! key := item columns i in
      row_to_dict columns (S i) rest (dict_set key (iso_value value) row_dict)
  end.

(** Integer arithmetic on a value: anything but an [int] is a
    [TypeError]. *)
Definition int_of (v : value) : M W Z :=
  match v with
  | VInt n => ret n
  | VBool b => ret (Z.b2z b)
  | _ => raise (OtherException "TypeError" "unsupported operand type(s)")
  end.

Definition floordiv (a b : Z) : M W Z :=
  if (b =? 0)%Z
  then raise (OtherException "ZeroDivisionError" "integer division or modulo by zero")
  else ret (a / b)%Z.

Definition data_query (table_name : string) (sort_column : value) : string :=
  Py.nl +:+ spaces 20 +:+ "SELECT * FROM " +:+ table_name +:+
  Py.nl +:+ spaces 20 +:+ "ORDER BY " +:+ str_value sort_column +:+
  Py.nl +:+ spaces 20 +:+ "LIMIT %s OFFSET %s;" +:+ Py.nl +:+ spaces 16.

Definition get_table_data (table_name : string) (page page_size : Z)
  : M W table_page :=
  let offset := ((page - 1) * page_size)%Z in
  get_connection_context (fun conn =>
    execute conn ("SELECT COUNT(*) FROM " +:+ table_name +:+ ";") NoParams;;
    let! total_count := fetchone_0 conn in
    execute conn column_names_query (Positional [VStr table_name]);;
    let! name_rows := fetchall conn in
    let! columns := for_each (fun r : row => item r 0) name_rows in
    let! sort_column := choose_sort_column columns in
    execute conn (data_query table_name sort_column)
      (Positional [VInt page_size; VInt offset]);;
    let! rows := fetchall conn in
    let! data := for_each (fun r => row_to_dict columns 0 r []) rows in
    let! count := int_of total_count in
    let! total_pages := floordiv (count + page_size - 1) page_size in
    ret {| tp_total_count := total_count; tp_page := page;
           tp_page_size := page_size; tp_total_pages := total_pages;
           tp_data := data; tp_columns := columns |}).

(** [if params:] *)
Definition params_truthy (p : sql_params) : bool :=
  match p with
  | NoParams | Positional [] | Named [] => false
  | _ => true
  end.

(** [[desc[0] for desc in cur.description]] *)
Definition description_names (conn : conn) : M W (list string) :=
  let! description := ask (db_description conn) in
  match description with
  | Some names => ret names
  | None => raise (OtherException "TypeError" "'NoneType' object is not iterable")
  end.

Definition execute_sql (query : string) (params : sql_params) : M W sql_result :=
  with_connection (fun conn =>
    let! start_time := ask clock in
    try_except
      ((if params_truthy params then execute conn query params
        else execute conn query NoParams);;
       let! description := ask (db_description conn) in
       match description with
       | Some (_ :: _) =>
           let! rows := fetchall conn in
           let! column_names := description_names conn in
           let! data := for_each (fun r => row_to_dict column_names 0 r []) rows in
           let! now := ask clock in
           let! rowcount := ask (db_rowcount conn) in
           ret (Sql_rows data column_names rowcount (now - start_time))
       | _ =>
           commit conn;;
           let! now := ask clock in
           let! rowcount := ask (db_rowcount conn) in
           ret (Sql_done
                  ("Запрос успешно выполнен" +:+ "." +:+ " Затронуто строк: "
                   +:+ pretty rowcount)
                  rowcount (now - start_time))
       end)
      (fun e =>
         rollback conn;;
         print ("Ошибка выполнения SQL: " +:+ str_exn e);;
         let! now := ask clock in
         ret (Sql_failed (str_exn e) (now - start_time)))).

(** The loops of [insert_data] and [update_data] that skip empty
    values. *)
Definition filled (data : dict string value) : dict string value :=
  filter (fun kv => has_content (snd kv) = true) data.

(** [dict(zip(column_names, result))] where either may be [None]. *)
Definition zip_description (description : option (list string)) (result : option row)
  : M W (dict string value) :=
  match description, result with
  | Some names, Some r => ret (dict_of (zip names r))
  | _, _ => raise (OtherException "TypeError" "'NoneType' object is not iterable")
  end.

Definition insert_data (table_name : string) (data : dict string value)
  : M W change_result :=
  with_connection (fun conn =>
    try_except
      (let columns := map fst (filled data) in
       let values := map snd (filled data) in
       match columns with
       | [] => ret (Change_failed "Нет данных для вставки" None)
       | _ =>
           let placeholders := repeat "%s" (length columns) in
           let query :=
             Py.nl +:+ spaces 24 +:+ "INSERT INTO " +:+ table_name +:+ " ("
             +:+ Py.join ", " columns +:+ ")" +:+
             Py.nl +:+ spaces 24 +:+ "VALUES (" +:+ Py.join ", " placeholders +:+ ")" +:+
             Py.nl +:+ spaces 24 +:+ "RETURNING *;" +:+ Py.nl +:+ spaces 20 in
           execute conn query (Positional values);;
           let! result := fetchone conn in
           commit conn;;
           let! description := ask (db_description conn) in
           let! d := zip_description description result in
           ret (Inserted d)
       end)
      (fun e =>
         rollback conn;;
         print ("Ошибка вставки данных: " +:+ str_exn e);;
         ret (Change_failed (str_exn e) None))).

(** [[dict(zip(column_names, row)) for row in result]] *)
Definition rows_to_dicts (description : option (list string)) (result : list row)
  : M W (list (dict string value)) :=
  match description with
  | Some names => ret (map (fun r => dict_of (zip names r)) result)
  | None => raise (OtherException "TypeError" "'NoneType' object is not iterable")
  end.

Definition update_data (table_name : string) (data condition : dict string value)
  : M W change_result :=
  with_connection (fun conn =>
    try_except
      (let set_parts := map (fun kv => fst kv +:+ " = %s") (filled data) in
       let values := map snd (filled data) in
       match set_parts with
       | [] => ret (Change_failed "Нет данных для обновления" None)
       | _ =>
           let where_clause := map (fun kv => fst kv +:+ " = %s") condition in
           let values := values ++ map snd condition in
           match where_clause with
           | [] => ret (Change_failed "Не указаны условия для обновления" None)
           | _ =>
               let query :=
                 Py.nl +:+ spaces 24 +:+ "UPDATE " +:+ table_name +:+
                 Py.nl +:+ spaces 24 +:+ "SET " +:+ Py.join ", " set_parts +:+
                 Py.nl +:+ spaces 24 +:+ "WHERE " +:+ Py.join " AND " where_clause +:+
                 Py.nl +:+ spaces 24 +:+ "RETURNING *;" +:+ Py.nl +:+ spaces 20 in
               execute conn query (Positional values);;
               let! result := fetchall conn in
               commit conn;;
               let! description := ask (db_description conn) in
               let! updated_data := rows_to_dicts description result in
               let! rowcount := ask (db_rowcount conn) in
               ret (Updated rowcount updated_data)
           end
       end)
      (fun e =>
         rollback conn;;
         print ("Ошибка обновления данных: " +:+ str_exn e);;
         ret (Change_failed (str_exn e) None))).

(** [count > 0] on what the driver returned. *)
Definition positive (count : value) : M W bool :=
  match count with
  | VInt n => ret (0 <? n)%Z
  | VBool b => ret b
  | _ => raise (OtherException "TypeError" "'>' not supported between instances")
  end.

(** [any(count > 0 for count in dependencies.values())] *)
Fixpoint any_positive (counts : list value) : M W bool :=
  match counts with
  | [] => ret false
  | count :: rest =>
      let! p := positive count in
      if p then ret true else any_positive rest
  end.

(** [condition.get(key)] as a statement parameter. *)
Definition condition_get (condition : dict string value) (key : string) : value :=
  match dict_get key condition with Some v => v | None => VNone end.

Definition books_of_author_query : string :=
  sql_block 32
    [ "SELECT COUNT(*) FROM book_authors ba";
      "JOIN books b ON ba.book_id = b.book_id";
      "WHERE ba.author_id = %s;" ] 28.

Definition books_of_genre_query : string :=
  sql_block 32
    [ "SELECT COUNT(*) FROM book_genres bg";
      "JOIN books b ON bg.book_id = b.book_id";
      "WHERE bg.genre_id = %s;" ] 28.

Definition books_of_publisher_query : string :=
  sql_block 32
    [ "SELECT COUNT(*) FROM books";
      "WHERE publisher_id = %s;" ] 28.

Definition loans_of_reader_query : string :=
  sql_block 32
    [ "SELECT COUNT(*) FROM book_loans";
      "WHERE reader_id = %s AND is_returned = false;" ] 28.

(** The dependency check of [delete_data]: the [dependencies] dictionary
    of a guarded table. *)
Definition count_dependencies (conn : conn) (table_name : string)
    (condition : dict string value) : M W (dict string value) :=
  let dependencies : dict string value := [] in
  if String.eqb table_name "authors" then
    execute conn books_of_author_query
      (Positional [condition_get condition "author_id"]);;
    let! count := fetchone_0 conn in
    ret (dict_set "books" count dependencies)
  else if String.eqb table_name "genres" then
    execute conn books_of_genre_query
      (Positional [condition_get condition "genre_id"]);;
    let! count := fetchone_0 conn in
    ret (dict_set "books" count dependencies)
  else if String.eqb table_name "publishers" then
    execute conn books_of_publisher_query
      (Positional [condition_get condition "publisher_id"]);;
    let! count := fetchone_0 conn in
    ret (dict_set "books" count dependencies)
  else if String.eqb table_name "readers" then
    execute conn loans_of_reader_query
      (Positional [condition_get condition "reader_id"]);;
    let! count := fetchone_0 conn in
    ret (dict_set "active_loans" count dependencies)
  else ret dependencies.

Definition guarded_tables : list string :=
  ["authors"; "genres"; "publishers"; "readers"].

Definition delete_where (conn : conn) (table_name : string)
    (condition : dict string value) : M W change_result :=
  let where_clause := map (fun kv => fst kv +:+ " = %s") condition in
  let values := map snd condition in
  match where_clause with
  | [] => ret (Change_failed "Не указаны условия для удаления" None)
  | _ =>
      let query :=
        Py.nl +:+ spaces 24 +:+ "DELETE FROM " +:+ table_name +:+
        Py.nl +:+ spaces 24 +:+ "WHERE " +:+ Py.join " AND " where_clause +:+
        Py.nl +:+ spaces 24 +:+ "RETURNING *;" +:+ Py.nl +:+ spaces 20 in
      execute conn query (Positional values);;
      let! result := fetchall conn in
      commit conn;;
      let! description := ask (db_description conn) in
      let! deleted_data := rows_to_dicts description result in
      let! rowcount := ask (db_rowcount conn) in
      ret (Deleted rowcount deleted_data)
  end.

Definition delete_data (table_name : string) (condition : dict string value)
  : M W change_result :=
  with_connection (fun conn =>
    try_except
      (if bool_decide (table_name ∈ guarded_tables) then
         let! dependencies := count_dependencies conn table_name condition in
         let! has_dependencies := any_positive (map snd dependencies) in
         if has_dependencies then
           ret (Change_failed
                  "Невозможно удалить запись из-за наличия зависимых данных"
                  (Some dependencies))
         else delete_where conn table_name condition
       else delete_where conn table_name condition)
      (fun e =>
         rollback conn;;
         print ("Ошибка удаления данных: " +:+ str_exn e);;
         ret (Change_failed (str_exn e) None))).

(** [subprocess.run(cmd, env=env, ...)] with [PGPASSWORD] set in [env]:
    one external call. With [check], a nonzero return code makes the call
    raise [CalledProcessError]; its [stderr] is that of the process when
    the output was captured. *)
Definition subprocess_run (cmd : list string) (pgpassword : string)
    (capture check : bool) : M W completed :=
  ext (Spawn cmd pgpassword)
    (fun w =>
       match proc_spawn cmd pgpassword w with
       | (Ret r, w1) =>
           if check && negb (returncode r =? 0)%Z
           then (Raise (CalledProcessError cmd (returncode r)
                          (if capture then Some (stderr r) else None)), w1)
           else (Ret r, w1)
       | (Raise e, w1) => (Raise e, w1)
       end).

(** The [pg_dump] command line of [create_backup]: the whole database, or
    one [-t] per table. *)
Definition backup_command (db_host db_port db_user db_name backup_path : string)
    (tables : option (list string)) : list string :=
  [ "pg_dump"; "-h"; db_host; "-p"; db_port; "-U"; db_user; "-d"; db_name;
    "-F"; "c"; "-f"; backup_path ]
  ++ match tables with
     | Some tables => flat_map (fun table => ["-t"; table]) tables
     | None => []
     end.

(** The two [except] clauses of [create_backup]. *)
Definition backup_handlers (pg_dump_cmd : list string) (e : exn)
  : M W backup_result :=
  match e with
  | CalledProcessError _ _ err =>
      print ("Ошибка создания бэкапа: " +:+ str_opt err);;
      ret (Backup_failed err (Some (Py.join " " pg_dump_cmd)))
  | _ =>
      print ("Ошибка создания бэкапа: " +:+ str_exn e);;
      ret (Backup_failed (Some (str_exn e)) None)
  end.

Definition create_backup (backup_name : option string) (tables : option (list string))
  : M W backup_result :=
  let! backup_dir := getenv "BACKUP_DIR" "backups" in
  ext (Makedirs backup_dir) (os_makedirs backup_dir);;
  let! backup_name :=
    match backup_name with
    | Some (String _ _ as name) =>
        if Py.endswith name ".backup" then ret name else ret (name +:+ ".backup")
    | _ =>
        let! timestamp := ask now_stamp in
        ret ("library_backup_" +:+ timestamp +:+ ".backup")
    end in
  let backup_path := Py.path_join backup_dir backup_name in
  let! db_host := getenv "DB_HOST" "localhost" in
  let! db_port := getenv "DB_PORT" "5432" in
  let! db_user := getenv "DB_USER" "admin" in
  let! db_name := getenv "DB_NAME" "library_management" in
  let tables := match tables with Some (_ :: _) => tables | _ => None end in
  let pg_dump_cmd := backup_command db_host db_port db_user db_name backup_path tables in
  let! password := getenv "DB_PASSWORD" "123" in
  try_except
    (subprocess_run pg_dump_cmd password true true;;
     let! file_size := ext (Getsize backup_path) (os_path_getsize backup_path) in
     let! timestamp := ask now_iso in
     ret (Backup_created backup_path file_size tables timestamp))
    (backup_handlers pg_dump_cmd).

(** The lines of [pg_restore]'s stderr that [restore_backup] looks at:
    stripped, empty ones dropped. *)
Definition stderr_lines (err : string) : list string :=
  filter (fun l => Py.truthy l = true) (map Py.strip (Py.split Py.LF err)).

(** The class a line falls in, by the chain of tests of the loop. *)
Inductive line_class := Warning | Error | Ignored.

Definition classify (line : string) : line_class :=
  let lower := Py.lower line in
  if Py.contains "transaction_timeout" lower
     && Py.contains "unrecognized configuration parameter" lower
  then Warning
  else if Py.startswith lower "command was:"
          && Py.contains "transaction_timeout" lower
  then Warning
  else if Py.contains "warning:" lower then Warning
  else if Py.contains "error:" lower then Error
  else Ignored.

(** The loop over the lines, filling [warnings] and [errors]. *)
Fixpoint sort_lines (lines warnings errors : list string)
  : list string * list string :=
  match lines with
  | [] => (warnings, errors)
  | line :: rest =>
      match classify line with
      | Warning => sort_lines rest (warnings ++ [line]) errors
      | Error => sort_lines rest warnings (errors ++ [line])
      | Ignored => sort_lines rest warnings errors
      end
  end.

Definition psql_command (db_host db_port db_user db_name : string) : list string :=
  [ "psql"; "-h"; db_host; "-p"; db_port; "-U"; db_user; "-d"; db_name;
    "-v"; "ON_ERROR_STOP=1"; "-c";
    "DROP SCHEMA IF EXISTS public CASCADE; CREATE SCHEMA public; GRANT ALL ON SCHEMA public TO "
    +:+ Py.dq +:+ db_user +:+ Py.dq +:+ "; GRANT ALL ON SCHEMA public TO public;" ].

Definition restore_command (db_host db_port db_user db_name backup_path : string)
  : list string :=
  [ "pg_restore"; "-h"; db_host; "-p"; db_port; "-U"; db_user; "-d"; db_name;
    "-v"; "--no-owner"; "--no-privileges"; backup_path ].

(** The three [except] clauses of [restore_backup]. [restore_cmd] is
    [None] while the local variable of that name is not yet bound. *)
Definition restore_handlers (restore_cmd : option (list string)) (e : exn)
  : M W restore_result :=
  match e with
  | CalledProcessError _ _ err =>
      print ("Ошибка восстановления бэкапа: " +:+ str_opt err);;
      ret (Restore_failed err
             (Some (match restore_cmd with
                    | Some cmd => Py.join " " cmd
                    | None => "Unknown"
                    end))
             None)
  | FileNotFoundError _ =>
      ret (Restore_failed
             (Some ("Не найдена утилита для восстановления: " +:+ str_exn e
                    +:+ "." +:+ " Убедитесь, что установлен postgresql-client (psql/pg_restore)"))
             None None)
  | OtherException _ _ =>
      print ("Ошибка восстановления бэкапа: " +:+ str_exn e);;
      ret (Restore_failed (Some (str_exn e)) None None)
  end.

Definition restore_backup (backup_path : string) : M W restore_result :=
  let! file_exists := ask (os_path_exists backup_path) in
  if negb file_exists then
    ret (Restore_failed (Some ("Файл бэкапа не существует: " +:+ backup_path))
           None None)
  else
    let! password := getenv "DB_PASSWORD" "123" in
    try_except
      (let! db_host := getenv "DB_HOST" "localhost" in
       let! db_port := getenv "DB_PORT" "5432" in
       let! db_user := getenv "DB_USER" "admin" in
       let! db_name := getenv "DB_NAME" "library_management" in
       let psql_cmd := psql_command db_host db_port db_user db_name in
       let! psql_result := subprocess_run psql_cmd password true false in
       if negb (returncode psql_result =? 0)%Z then
         let error_text :=
           Py.or_else (Py.strip (stderr psql_result))
             (Py.or_else (Py.strip (stdout psql_result))
                "Неизвестная ошибка очистки схемы") in
         ret (Restore_failed
                (Some ("Ошибка подготовки БД (очистка схемы public): " +:+ error_text))
                (Some (Py.join " " psql_cmd)) None)
       else
         let restore_cmd :=
           restore_command db_host db_port db_user db_name backup_path in
         try_except
           (let! result := subprocess_run restore_cmd password true false in
            let '(warnings, errors) := sort_lines (stderr_lines (stderr result)) [] [] in
            if negb (returncode result =? 0)%Z && nonempty errors then
              ret (Restore_failed (Some (Py.join Py.nl errors))
                     (Some (Py.join " " restore_cmd)) (Some warnings))
            else
              let! timestamp := ask now_iso in
              ret (Restored "База данных успешно восстановлена" backup_path
                     timestamp warnings))
           (restore_handlers (Some restore_cmd)))
      (restore_handlers None).

Definition main_tables : list string :=
  ["books"; "readers"; "authors"; "genres"; "publishers"].

Definition dump_command (db_host db_port db_user db_name table backup_path : string)
  : list string :=
  [ "pg_dump"; "-h"; db_host; "-p"; db_port; "-U"; db_user; "-d"; db_name;
    "-t"; table; "-F"; "c"; "-f"; backup_path ].

(** The purge of one table: the statements run on the second connection
    of an iteration of [archive_tables]. *)
Definition purge (conn : conn) (table : string) : M W unit :=
  (if bool_decide (table ∈ main_tables) then
     (if String.eqb table "books" then
        execute conn
          "DELETE FROM book_loans WHERE book_id IN (SELECT book_id FROM books)"
          NoParams;;
        execute conn "DELETE FROM book_authors" NoParams;;
        execute conn "DELETE FROM book_genres" NoParams
      else if String.eqb table "readers" then
        execute conn
          "DELETE FROM book_loans WHERE reader_id IN (SELECT reader_id FROM readers)"
          NoParams
      else ret tt);;
     execute conn ("DELETE FROM " +:+ table) NoParams;;
     let! rowcount := ask (db_rowcount conn) in
     ret tt
   else
     execute conn ("DELETE FROM " +:+ table) NoParams;;
     let! rowcount := ask (db_rowcount conn) in
     ret tt);;
  commit conn.

(** The body of the [try] of one iteration: read, export to Excel and
    JSON, dump with [pg_dump], purge; the value is the entry the
    iteration appends to the report. *)
Definition archive_table (archive_subdir table : string) : M W table_entry :=
  let! data :=
    with_connection (fun conn =>
      ext (ReadSql conn ("SELECT * FROM " +:+ table))
          (pd_read_sql_query conn ("SELECT * FROM " +:+ table))) in
  let excel_path := Py.path_join archive_subdir (table +:+ ".xlsx") in
  ext (ToExcel excel_path) (df_to_excel data excel_path);;
  let json_path := Py.path_join archive_subdir (table +:+ ".json") in
  ext (ToJson json_path) (df_to_json data json_path);;
  let backup_path := Py.path_join archive_subdir (table +:+ ".backup") in
  let! db_host := getenv "DB_HOST" "localhost" in
  let! db_port := getenv "DB_PORT" "5432" in
  let! db_user := getenv "DB_USER" "lib_admin" in
  let! db_name := getenv "DB_NAME" "library_management" in
  let pg_dump_cmd := dump_command db_host db_port db_user db_name table backup_path in
  let! password := getenv "DB_PASSWORD" "securepass123" in
  subprocess_run pg_dump_cmd password false true;;
  with_connection (fun conn => purge conn table);;
  ret (Archived table (length data) excel_path json_path backup_path).

Definition rows_of_entry (e : table_entry) : nat :=
  match e with
  | Archived _ n _ _ _ => n
  | NotArchived _ _ => 0
  end.

(** [archive_report["tables"].append(entry)] and the running total. *)
Definition add_entry (report : archive_report) (e : table_entry) : archive_report :=
  {| ar_timestamp := ar_timestamp report;
     ar_tables := ar_tables report ++ [e];
     ar_reason := ar_reason report;
     ar_total_rows_archived := ar_total_rows_archived report + rows_of_entry e;
     ar_report_path := ar_report_path report |}.

(** One iteration of the loop: the [try] and its [except]. *)
Definition archive_step (archive_subdir table : string) : M W table_entry :=
  try_except (archive_table archive_subdir table)
    (fun e =>
       print ("Ошибка архивации таблицы " +:+ table +:+ ": " +:+ str_exn e);;
       ret (NotArchived table (str_exn e))).

(** [for table in tables: ...] *)
Fixpoint archive_loop (archive_subdir : string) (tables : list string)
    (report : archive_report) : M W archive_report :=
  match tables with
  | [] => ret report
  | table :: rest =>
      let! e := archive_step archive_subdir table in
      archive_loop archive_subdir rest (add_entry report e)
  end.

Definition archive_tables (tables : list string) (reason : string)
  : M W archive_report :=
  let! archive_dir := getenv "ARCHIVE_DIR" "archives" in
  let! timestamp := ask now_stamp in
  let archive_subdir := Py.path_join archive_dir timestamp in
  ext (Makedirs archive_subdir) (os_makedirs archive_subdir);;
  let archive_report :=
    {| ar_timestamp := timestamp; ar_tables := []; ar_reason := reason;
       ar_total_rows_archived := 0; ar_report_path := None |} in
  let! archive_report := archive_loop archive_subdir tables archive_report in
  let report_path := Py.path_join archive_subdir "archive_report.json" in
  ext (WriteReport report_path) (fs_write_report report_path archive_report);;
  ret {| ar_timestamp := ar_timestamp archive_report;
         ar_tables := ar_tables archive_report;
         ar_reason := ar_reason archive_report;
         ar_total_rows_archived := ar_total_rows_archived archive_report;
         ar_report_path := Some report_path |}.

End Operations.
End CRUD.

(** ** [app/main.py]: endpoints over [CRUD]

  The endpoints that answer with JSON hand the result of a [CRUD]
  operation through, inside a [try] whose handler logs the exception and
  answers with its text; [view_table] and the three handlers of submitted
  forms answer with a rendered template or a redirect. The request bodies
  are the models of [app/models.py]. What an endpoint does besides calling
  [CRUD] (logging, rendering a template) goes through a second interface,
  [Host], and changes the world without being recorded in the trace. *)

Module Main.
Import Database.

(** [SQLQuery], [BackupRequest] and [ArchiveRequest] of [app/models.py]:
    the fields, an [Optional] one as an option. *)
Record SQLQuery := {
  sq_query : string;
  sq_params : option (dict string value)
}.

Record BackupRequest := {
  br_backup_name : option string;
  br_tables : option (list string)
}.

Record ArchiveRequest := {
  aq_tables : list string;
  aq_reason : string
}.

(** What a JSON endpoint answers when the result type of the operation
    has no place for the dictionary of its handler: the result handed
    through, or [{"error": ...}] ([{"success": False, "error": ...}] for
    [execute_sql] and [archive_tables]). *)
Inductive answer (A : Type) :=
| Answered (result : A)
| Refused (error : string).
Arguments Answered {A} result.
Arguments Refused {A} error.

(** The templates rendered here, with the context handed to each (the
    request apart). *)
Inductive page :=
| Table_view (table_name : string) (columns : list CRUD.column)
             (data : list (dict value value)) (total_count : value)
             (current_page total_pages page_size : Z) (all_tables : list value)
| Delete_record_page (table_name : string) (columns : list CRUD.column)
                     (all_tables : list value) (error : string)
                     (where_condition : dict string value)
| Error_page (error : string).

(** What the other endpoints answer with: a rendered template or a
    redirect. *)
Inductive response :=
| Page (body : string)
| RedirectResponse (url : string) (status_code : Z).

(** The host of the application:
    - [log_error] is [logger.error];
    - [http_exception_str] is [str] of an [HTTPException] with the given
      status code and detail (it depends on the version of the framework);
    - [template_response] is [templates.TemplateResponse], which renders
      the template and may raise;
    - [py_int] and [py_float] are [int(value)] and [float(value)] on a
      string, [None] when they raise, a float given by its [repr]. *)
Class Host (W : Type) := {
  log_error : string -> W -> W;
  http_exception_str : Z -> string -> string;
  template_response : page -> W -> outcome string * W;
  py_int : string -> option Z;
  py_float : string -> option string
}.

Section Endpoints.
Context {W : Type} `{Driver W} `{Host W}.

Definition logger_error (msg : string) : M W unit :=
  fun w => (Ret tt, log_error msg w, []).

Definition TemplateResponse (p : page) : M W response :=
  fun w =>
    match template_response p w with
    | (Ret body, w1) => (Ret (Page body), w1, [])
    | (Raise e, w1) => (Raise e, w1, [])
    end.

Definition HTTPException (status_code : Z) (detail : string) : exn :=
  OtherException "HTTPException" (http_exception_str status_code detail).

(** The [except] clause of the handlers that render pages: the error is
    logged, with [what] before its text, and the error page rendered. *)
Definition error_page (what : string) (e : exn) : M W response :=
  logger_error (what +:+ str_exn e);;
  TemplateResponse (Error_page (str_exn e)).

Definition view_table (table_name : string) (page : Z) : M W response :=
  try_except
    (let! tables := CRUD.get_tables in
     if negb (bool_decide (VStr table_name ∈ tables)) then
       raise (HTTPException 404 "Таблица не найдена")
     else
       let! result := CRUD.get_table_data table_name page 200 in
       let! columns := CRUD.get_table_columns table_name in
       TemplateResponse
         (Table_view table_name columns (CRUD.tp_data result)
            (CRUD.tp_total_count result) page (CRUD.tp_total_pages result)
            (CRUD.tp_page_size result) tables))
    (error_page ("Ошибка просмотра таблицы " +:+ table_name +:+ ": ")).

Definition get_tables_api : M W (answer (list value)) :=
  try_except
    (let! tables := CRUD.get_tables in
     ret (Answered tables))
    (fun e =>
       logger_error ("Ошибка получения таблиц: " +:+ str_exn e);;
       ret (Refused (str_exn e))).

Definition get_table_columns_api (table_name : string)
  : M W (answer (list CRUD.column)) :=
  try_except
    (let! columns := CRUD.get_table_columns table_name in
     ret (Answered columns))
    (fun e =>
       logger_error ("Ошибка получения колонок таблицы " +:+ table_name +:+ ": "
                     +:+ str_exn e);;
       ret (Refused (str_exn e))).

(** [query.params], as the second argument of [cursor.execute]. *)
Definition params_of (query : SQLQuery) : sql_params :=
  match sq_params query with
  | Some kvs => Named kvs
  | None => NoParams
  end.

Definition execute_sql (query : SQLQuery) : M W (answer CRUD.sql_result) :=
  try_except
    (let! result := CRUD.execute_sql (sq_query query) (params_of query) in
     ret (Answered result))
    (fun e =>
       logger_error ("Ошибка выполнения SQL запроса: " +:+ str_exn e);;
       ret (Refused (str_exn e))).

Definition create_backup (request : BackupRequest) : M W CRUD.backup_result :=
  try_except
    (let! result := CRUD.create_backup (br_backup_name request) (br_tables request) in
     ret result)
    (fun e =>
       logger_error ("Ошибка создания бэкапа: " +:+ str_exn e);;
       ret (CRUD.Backup_failed (Some (str_exn e)) None)).

Definition restore_backup (backup_path : string) : M W CRUD.restore_result :=
  try_except
    (let! backup_dir := getenv "BACKUP_DIR" "backups" in
     let full_path := Py.path_join backup_dir backup_path in
     let! found := ask (os_path_exists full_path) in
     if negb found then
       ret (CRUD.Restore_failed (Some ("Файл бэкапа не найден: " +:+ backup_path))
              None None)
     else
       let! result := CRUD.restore_backup full_path in
       ret result)
    (fun e =>
       logger_error ("Ошибка восстановления бэкапа: " +:+ str_exn e);;
       ret (CRUD.Restore_failed (Some (str_exn e)) None None)).

Definition archive_tables (request : ArchiveRequest) : M W (answer archive_report) :=
  try_except
    (let! result := CRUD.archive_tables (aq_tables request) (aq_reason request) in
     ret (Answered result))
    (fun e =>
       logger_error ("Ошибка архивации таблиц: " +:+ str_exn e);;
       ret (Refused (str_exn e))).

(** *** Submitted forms

  The handlers below start from the items of the submitted form, each a
  field name with the text entered. *)

(** [value and value.strip() != ""] on the text of a field. *)
Definition filled_in (text : string) : bool :=
  Py.truthy text && negb (String.eqb (Py.strip text) "").

(** [key[6:]] *)
Fixpoint str_from (n : nat) (s : string) : string :=
  match n, s with
  | S n', String _ s' => str_from n' s'
  | _, _ => s
  end.

Definition int_fields : list string := ["publication_year"; "page_count"].
Definition float_fields : list string := ["price"; "fine_amount"].
Definition date_fields : list string :=
  ["birth_date"; "due_date"; "return_date"; "paid_date"].
Definition bool_fields : list string := ["is_active"; "is_returned"; "is_paid"].

(** [try: int(value)  except: value], with [text] for the [value] of the
    source. *)
Definition int_or_text (text : string) : value :=
  match py_int text with
  | Some n => VInt n
  | None => VStr text
  end.

(** [try: float(value)  except: value] *)
Definition float_or_text (text : string) : value :=
  match py_float text with
  | Some r => VFloat r
  | None => VStr text
  end.

(** What [add_record] and [update_record] store for a field that is
    filled in: the chain of tests on the field name. [None] when nothing
    is stored. *)
Definition typed_field (key text : string) : option value :=
  if Py.contains "_id" key || bool_decide (key ∈ int_fields) then
    Some (int_or_text text)
  else if bool_decide (key ∈ float_fields) then Some (float_or_text text)
  else if bool_decide (key ∈ date_fields) then
    if Py.truthy text then Some (VStr text) else None
  else if bool_decide (key ∈ bool_fields) then Some (VBool (String.eqb text "on"))
  else Some (VStr text).

(** [d[key] = v] when there is something to store. *)
Definition store (key : string) (v : option value) (d : dict string value)
  : dict string value :=
  match v with
  | Some v => dict_set key v d
  | None => d
  end.

(** The loop of [add_record] over the items of the form. *)
Fixpoint add_fields (items : list (string * string)) (data : dict string value)
  : dict string value :=
  match items with
  | [] => data
  | (key, text) :: rest =>
      if filled_in text
      then add_fields rest (store key (typed_field key text) data)
      else add_fields rest data
  end.

(** The loop of [update_record]: the fields to write and the condition. *)
Fixpoint update_fields (items : list (string * string))
    (update_data where_condition : dict string value)
  : dict string value * dict string value :=
  match items with
  | [] => (update_data, where_condition)
  | (key, text) :: rest =>
      if Py.startswith key "where_" && filled_in text then
        let field_name := str_from 6 key in
        update_fields rest update_data (dict_set field_name (VStr text) where_condition)
      else if filled_in text then
        update_fields rest (store key (typed_field key text) update_data) where_condition
      else update_fields rest update_data where_condition
  end.

(** The loop of [delete_record]. *)
Fixpoint delete_fields (items : list (string * string))
    (where_condition : dict string value) : dict string value :=
  match items with
  | [] => where_condition
  | (key, text) :: rest =>
      if filled_in text then
        if Py.contains "_id" key || bool_decide (key ∈ int_fields)
        then delete_fields rest (dict_set key (int_or_text text) where_condition)
        else delete_fields rest (dict_set key (VStr text) where_condition)
      else delete_fields rest where_condition
  end.

Definition KeyError (key : string) : exn :=
  OtherException "KeyError" ("'" +:+ key +:+ "'").

Definition add_record (table_name : string) (form_data : list (string * string))
  : M W response :=
  try_except
    (let data := add_fields form_data [] in
     let! result := CRUD.insert_data table_name data in
     match result with
     | CRUD.Change_failed error _ => raise (HTTPException 400 error)
     | _ =>
         ret (RedirectResponse
                ("/table/" +:+ table_name +:+ "?success=Запись успешно добавлена") 303)
     end)
    (error_page ("Ошибка добавления записи в таблицу " +:+ table_name +:+ ": ")).

Definition update_record (table_name : string) (form_data : list (string * string))
  : M W response :=
  try_except
    (let '(update_data, where_condition) := update_fields form_data [] [] in
     match where_condition with
     | [] => raise (HTTPException 400 "Не указаны условия для обновления")
     | _ =>
         let! result := CRUD.update_data table_name update_data where_condition in
         match result with
         | CRUD.Change_failed error _ => raise (HTTPException 400 error)
         | CRUD.Updated updated_count _ =>
             let message := "Успешно обновлено записей: " +:+ pretty updated_count in
             ret (RedirectResponse
                    ("/table/" +:+ table_name +:+ "?success=" +:+ message) 303)
         | _ => raise (KeyError "updated_count")
         end
     end)
    (error_page ("Ошибка обновления записей в таблице " +:+ table_name +:+ ": ")).

(** [[f"{k}: {v}" for k, v in dependencies.items() if v > 0]] *)
Fixpoint positive_counts (dependencies : list (string * value)) : M W (list string) :=
  match dependencies with
  | [] => ret []
  | (k, v) :: rest =>
      let! p := CRUD.positive v in
      let! more := positive_counts rest in
      if p then ret ((k +:+ ": " +:+ str_value v) :: more) else ret more
  end.

Definition delete_record (table_name : string) (form_data : list (string * string))
  : M W response :=
  try_except
    (let where_condition := delete_fields form_data [] in
     match where_condition with
     | [] => raise (HTTPException 400 "Не указаны условия для удаления")
     | _ =>
         let! result := CRUD.delete_data table_name where_condition in
         match result with
         | CRUD.Change_failed error dependencies =>
             let! error_msg :=
               match dependencies with
               | Some dependencies =>
                   let! counts := positive_counts dependencies in
                   let deps_info := Py.join ", " counts in
                   ret (error +:+ ". Зависимые данные: " +:+ deps_info)
               | None => ret error
               end in
             let! columns := CRUD.get_table_columns table_name in
             let! all_tables := CRUD.get_tables in
             TemplateResponse
               (Delete_record_page table_name columns all_tables error_msg
                  where_condition)
         | CRUD.Deleted deleted_count _ =>
             let message := "Успешно удалено записей: " +:+ pretty deleted_count in
             ret (RedirectResponse
                    ("/table/" +:+ table_name +:+ "?success=" +:+ message) 303)
         | _ => raise (KeyError "deleted_count")
         end
     end)
    (error_page ("Ошибка удаления записей из таблицы " +:+ table_name +:+ ": ")).

End Endpoints.
End Main.

(** ** A scripted world

  A concrete [Driver]: the world answers each fallible call with the
  next reply of a script. A reply of the wrong kind, or a call after the
  script has ended, is an exception of the world. The environment, the
  existing files, the clock and the cursor attributes are fixed. *)

Module Script.

Inductive reply :=
| Ok
| Raises (e : exn)
| Opened (c : conn)
| Row (r : option row)
| Rows (rs : list row)
| Exited (p : completed)
| Frame (df : dataframe)
| Size (n : Z).

Record world := {
  replies : list reply;
  environ : dict string string;
  files : list string;
  time : Z;
  stamp : string;
  description : option (list string);
  rowcount : Z
}.

Definition off_script : exn := OtherException "RuntimeError" "off script".

(** Take the next reply and read it with [read]. *)
Definition answer {A} (read : reply -> option A) (w : world) : outcome A * world :=
  match replies w with
  | [] => (Raise off_script, w)
  | r :: rest =>
      let w' := {| replies := rest; environ := environ w; files := files w;
                   time := time w; stamp := stamp w;
                   description := description w; rowcount := rowcount w |} in
      match r with
      | Raises e => (Raise e, w')
      | _ => match read r with
             | Some a => (Ret a, w')
             | None => (Raise off_script, w')
             end
      end
  end.

Definition as_ok (r : reply) : option unit :=
  match r with Ok => Some tt | _ => None end.
Definition as_conn (r : reply) : option conn :=
  match r with Opened c => Some c | _ => None end.
Definition as_row (r : reply) : option (option row) :=
  match r with Row x => Some x | _ => None end.
Definition as_rows (r : reply) : option (list row) :=
  match r with Rows x => Some x | _ => None end.
Definition as_exit (r : reply) : option completed :=
  match r with Exited p => Some p | _ => None end.
Definition as_frame (r : reply) : option dataframe :=
  match r with Frame df => Some df | _ => None end.
Definition as_size (r : reply) : option Z :=
  match r with Size n => Some n | _ => None end.

#[global] Instance driver : Driver world := {|
  db_connect := fun _ => answer as_conn;
  db_execute := fun _ _ _ => answer as_ok;
  db_fetchone := fun _ => answer as_row;
  db_fetchall := fun _ => answer as_rows;
  db_description := fun _ w => description w;
  db_rowcount := fun _ w => rowcount w;
  db_commit := fun _ => answer as_ok;
  db_rollback := fun _ => answer as_ok;
  db_close := fun _ => answer as_ok;
  db_conn_exit := fun _ _ w => w;
  os_getenv := fun key w => dict_get key (environ w);
  os_path_exists := fun path w => bool_decide (path ∈ files w);
  os_makedirs := fun _ => answer as_ok;
  os_path_getsize := fun _ => answer as_size;
  proc_spawn := fun _ _ => answer as_exit;
  clock := time;
  now_stamp := stamp;
  now_iso := stamp;
  pd_read_sql_query := fun _ _ => answer as_frame;
  df_to_excel := fun _ _ => answer as_ok;
  df_to_json := fun _ _ => answer as_ok;
  fs_write_report := fun _ _ => answer as_ok
|}.

(** A world with the given script, no environment variables, and the
    given files. *)
Definition play (script : list reply) (existing : list string)
    (columns : option (list string)) : world :=
  {| replies := script; environ := []; files := existing; time := 0;
     stamp := "20240101_000000"; description := columns; rowcount := 0 |}.

End Script.

(** ** What the statements below speak about *)

Module Spec.
Import Database CRUD.

(** *** Readings of a trace *)

Definition is_connect_call (e : call * bool) : bool :=
  match e with (Connect _, _) => true | _ => false end.

Definition is_opened (e : call * bool) : bool :=
  match e with (Connect _, true) => true | _ => false end.

Definition is_close_call (e : call * bool) : bool :=
  match e with (Close _, _) => true | _ => false end.

Definition is_closed (e : call * bool) : bool :=
  match e with (Close _, true) => true | _ => false end.

Definition is_execute (e : call * bool) : bool :=
  match e with (Execute _ _ _, _) => true | _ => false end.

(** How many times [psycopg2.connect] was called, how many connections it
    opened, how many times [close] was called, how many it closed. *)
Definition connect_calls (t : trace) : nat := length (List.filter is_connect_call t).
Definition opened (t : trace) : nat := length (List.filter is_opened t).
Definition close_calls (t : trace) : nat := length (List.filter is_close_call t).
Definition closed (t : trace) : nat := length (List.filter is_closed t).

(** The statements sent to the server, in order. *)
Fixpoint statements (t : trace) : list string :=
  match t with
  | [] => []
  | (Execute _ q _, _) :: t' => q :: statements t'
  | _ :: t' => statements t'
  end.

(** The programs started, in order: the first word of each command. *)
Fixpoint programs (t : trace) : list string :=
  match t with
  | [] => []
  | (Spawn (prog :: _) _, _) :: t' => prog :: programs t'
  | _ :: t' => programs t'
  end.

(** A call that neither opens nor closes a connection. *)
Definition quiet_call (e : call * bool) : Prop :=
  is_connect_call e = false /\ is_close_call e = false.

(** An operation that opens exactly one connection and closes it. *)
Definition one_connection_closed (t : trace) : Prop :=
  opened t = 1 /\ closed t = 1.

Section World.
Context {W : Type} `{Driver W}.

(** An operation never raises. *)
Definition never_raises {A} (m : M W A) : Prop :=
  forall w, exists a w' t, m w = (Ret a, w', t).

(** Every external call of an operation satisfies [P]. *)
Definition emits {A} (P : call * bool -> Prop) (m : M W A) : Prop :=
  forall w, Forall P (snd (m w)).

(** A computation that makes no external call and leaves the world as it
    is. *)
Definition silent {A} (m : M W A) : Prop :=
  forall w, exists r, m w = (r, w, []).

(** An operation that calls [connect] at most [n] times and never calls
    [close]. *)
Definition connects_at_most {A} (n : nat) (m : M W A) : Prop :=
  forall w, connect_calls (snd (m w)) <= n /\ close_calls (snd (m w)) = 0.

Definition env_or (key fallback : string) (w : W) : string :=
  match os_getenv key w with Some v => v | None => fallback end.

(** The connection settings [Database.get_connection] reads. *)
Definition env_params (w : W) : conn_params :=
  {| cp_host := env_or "DB_HOST" "localhost" w;
     cp_database := env_or "DB_NAME" "library_management" w;
     cp_user := env_or "DB_USER" "admin" w;
     cp_password := env_or "DB_PASSWORD" "123" w;
     cp_port := env_or "DB_PORT" "5432" w |}.

(** The trace of a connection attempt that failed with [e]. *)
Definition connect_failed (w : W) (e : exn) : trace :=
  [(Connect (env_params w), false);
   (Print ("❌ Ошибка подключения к базе данных: " +:+ str_exn e), true)].


End World.

(** *** The relational catalog *)

(** A row of [information_schema.columns], in the four fields the program
    selects. *)
Record catalog_column := {
  column_name : value;
  data_type : value;
  is_nullable : value;
  column_default : value
}.

Definition catalog_row (cc : catalog_column) : row :=
  [column_name cc; data_type cc; is_nullable cc; column_default cc].

(** The mirrored fields: the same four, nullability as the comparison of
    [is_nullable] with ['YES']. *)
Definition mirror (cc : catalog_column) : column :=
  {| col_name := column_name cc;
     col_type := data_type cc;
     col_nullable := bool_decide (is_nullable cc = VStr "YES");
     col_default := column_default cc |}.

(** The sort column of a table with the given column names, in ordinal
    position: the first that ends in [_id], else the first, else
    [ctid]. *)
Definition sort_column (names : list string) : string :=
  match List.find (fun n => Py.endswith n "_id") names with
  | Some n => n
  | None =>
      match names with
      | n :: _ => n
      | [] => "ctid"
      end
  end.

(** *** Records *)

(** The primary-key column the record operations work with: the first
    field of the row the catalog answered with, ['id'] without one. *)
Definition pk_column_of (pk_result : option row) : value :=
  match pk_result with
  | Some (v :: _) => v
  | _ => VStr "id"
  end.

(** The entries of [data] an update may write: the key is not the
    primary-key column and the value is neither the empty string nor
    [None]. *)
Definition updatable (pk : value) (data : dict string value) : dict string value :=
  List.filter
    (fun kv => negb (bool_decide (pk = VStr (fst kv)))
               && negb (bool_decide (snd kv = VStr ""))
               && negb (bool_decide (snd kv = VNone)))
    data.

(** The [UPDATE] statement that sets the given keys. *)
Definition update_statement (table : string) (pk : value) (keys : list string) : string :=
  "UPDATE " +:+ table +:+ " SET "
  +:+ Py.join ", " (map (fun k => k +:+ " = %s") keys)
  +:+ " WHERE " +:+ str_value pk +:+ " = %s".

(** The dependency check of a guarded table: the counting query, the key
    of the condition it is asked for, and the name the count is reported
    under. *)
Record dependency := {
  dep_query : string;
  dep_key : string;
  dep_name : string
}.

Definition dependency_of (table : string) : option dependency :=
  if String.eqb table "authors" then
    Some {| dep_query := books_of_author_query; dep_key := "author_id";
            dep_name := "books" |}
  else if String.eqb table "genres" then
    Some {| dep_query := books_of_genre_query; dep_key := "genre_id";
            dep_name := "books" |}
  else if String.eqb table "publishers" then
    Some {| dep_query := books_of_publisher_query; dep_key := "publisher_id";
            dep_name := "books" |}
  else if String.eqb table "readers" then
    Some {| dep_query := loans_of_reader_query; dep_key := "reader_id";
            dep_name := "active_loans" |}
  else None.

(** *** Connections *)

Section Families.
Context {W : Type} `{Driver W}.

(** The traces of the operations that obtain their connection from
    [Database.get_connection_context], run in the world [w]. *)
Inductive context_trace (w : W) : trace -> Prop :=
| trace_get_tables :
    context_trace w (snd (get_tables w))
| trace_update_record table record_id data :
    context_trace w (snd (update_record table record_id data w))
| trace_delete_record table record_id :
    context_trace w (snd (delete_record table record_id w))
| trace_get_table_data table page page_size :
    context_trace w (snd (get_table_data table page page_size w)).

(** The traces of the operations that use the driver's connection itself
    as the context manager ([with Database.get_connection() as conn]) and
    call no other operation. *)
Inductive driver_trace (w : W) : trace -> Prop :=
| trace_get_table_columns table :
    driver_trace w (snd (get_table_columns table w))
| trace_get_primary_key table :
    driver_trace w (snd (get_primary_key table w))
| trace_execute_sql query params :
    driver_trace w (snd (execute_sql query params w))
| trace_insert_data table data :
    driver_trace w (snd (insert_data table data w))
| trace_update_data table data condition :
    driver_trace w (snd (update_data table data condition w))
| trace_delete_data table condition :
    driver_trace w (snd (delete_data table condition w)).

End Families.

(** *** Ad-hoc statements *)




(** *** Backup and restore *)

Section Restore.
Context {W : Type} `{Driver W}.

(** The password and the two command lines [restore_backup] works
    with. *)
Definition pg_password (w : W) : string := env_or "DB_PASSWORD" "123" w.

Definition psql_cmd (w : W) : list string :=
  psql_command (env_or "DB_HOST" "localhost" w) (env_or "DB_PORT" "5432" w)
    (env_or "DB_USER" "admin" w) (env_or "DB_NAME" "library_management" w).

Definition restore_cmd (w : W) (backup_path : string) : list string :=
  restore_command (env_or "DB_HOST" "localhost" w) (env_or "DB_PORT" "5432" w)
    (env_or "DB_USER" "admin" w) (env_or "DB_NAME" "library_management" w)
    backup_path.

End Restore.

(** The error text of a failed clean step: what [psql] wrote to stderr,
    else to stdout, else a fixed text. *)
Definition clean_error (psql_result : completed) : string :=
  Py.or_else (Py.strip (stderr psql_result))
    (Py.or_else (Py.strip (stdout psql_result)) "Неизвестная ошибка очистки схемы").







(** *** Archiving *)

Definition entry_name (e : table_entry) : string :=
  match e with
  | Archived name _ _ _ _ => name
  | NotArchived name _ => name
  end.


(** A [pg_dump] command line for [table]. *)
Definition is_dump_of (table : string) (cmd : list string) : Prop :=
  exists db_host db_port db_user db_name backup_path,
    cmd = dump_command db_host db_port db_user db_name table backup_path.



Section Iteration.
Context {W : Type} `{Driver W}.

(** The first six calls of an iteration whose exports all completed. *)
Definition export_prefix (archive_subdir table : string) (w : W) (c : conn)
    (cmd : list string) (pgpassword : string) : trace :=
  [(Connect (env_params w), true);
   (ReadSql c ("SELECT * FROM " +:+ table), true);
   (ConnExit c false, true);
   (ToExcel (Py.path_join archive_subdir (table +:+ ".xlsx")), true);
   (ToJson (Py.path_join archive_subdir (table +:+ ".json")), true);
   (Spawn cmd pgpassword, true)].

End Iteration.

(** The steps of an iteration that come before the purge: reading the
    table, the two exports and the dump. *)
Definition is_export_step (e : call * bool) : bool :=
  match e with
  | (ReadSql _ _, _) | (ToExcel _, _) | (ToJson _, _) | (Spawn _ _, _) => true
  | _ => false
  end.

(** *** Inputs of the examples *)

(** Archiving [books] and then [book_loans] with every step succeeding:
    the directory, then for each table the read, the two exports, the dump
    and the purge, then the report. *)
Definition archive_world : Script.world :=
  Script.play
    [Script.Ok;
     Script.Opened 0; Script.Frame [[VInt 1; VStr "Dune"]]; Script.Ok; Script.Ok;
     Script.Exited {| returncode := 0; stdout := ""; stderr := "" |};
     Script.Opened 1; Script.Ok; Script.Ok; Script.Ok; Script.Ok; Script.Ok;
     Script.Opened 2; Script.Frame []; Script.Ok; Script.Ok;
     Script.Exited {| returncode := 0; stdout := ""; stderr := "" |};
     Script.Opened 3; Script.Ok; Script.Ok;
     Script.Ok]
    [] None.

(** What [pg_restore] of a newer major version prints when the server does
    not know [transaction_timeout]. *)
Definition timeout_line : string :=
  "pg_restore: error: could not execute query: ERROR:  unrecognized configuration parameter "
  +:+ Py.dq +:+ "transaction_timeout" +:+ Py.dq.

Definition timeout_exit : completed :=
  {| returncode := 1; stdout := ""; stderr := timeout_line +:+ Py.nl |}.

Definition timeout_world : Script.world :=
  Script.play
    [Script.Exited {| returncode := 0; stdout := ""; stderr := "" |};
     Script.Exited timeout_exit]
    ["backups/library.backup"] None.




(** Listing the tables: two of them, and the connection closes. *)
Definition tables_world : Script.world :=
  Script.play
    [Script.Opened 0; Script.Ok; Script.Rows [[VStr "authors"]; [VStr "books"]];
     Script.Ok]
    [] None.

(** The book with key 1 is found: the catalog names the key column, the
    record is fetched, and [get_table_columns] reads the two columns. *)
Definition found_world : Script.world :=
  Script.play
    [Script.Opened 0; Script.Ok; Script.Row (Some [VStr "book_id"]);
     Script.Ok; Script.Row (Some [VInt 1; VStr "Dune"]);
     Script.Opened 1; Script.Ok;
     Script.Rows [[VStr "book_id"; VStr "integer"; VStr "NO"; VNone];
                  [VStr "title"; VStr "text"; VStr "NO"; VNone]]]
    [] None.

(** Archiving one table, [fines]: every step succeeds. *)
Definition fines_world : Script.world :=
  Script.play
    [Script.Opened 0; Script.Frame [[VInt 7; VInt 50]]; Script.Ok; Script.Ok;
     Script.Exited {| returncode := 0; stdout := ""; stderr := "" |};
     Script.Opened 1; Script.Ok; Script.Ok]
    [] None.

(** Archiving [fines] on a full disk: the Excel export raises. *)
Definition disk_full_world : Script.world :=
  Script.play
    [Script.Opened 0; Script.Frame [[VInt 7; VInt 50]];
     Script.Raises (OtherException "OSError" "No space left on device")]
    [] None.

(** A server that cannot be reached. *)
Definition unreachable : Script.world :=
  Script.play [Script.Raises (OtherException "OperationalError" "connection refused")]
    [] None.

End Spec.

(** ** What the further statements speak about *)

Module Notions.
Import Database CRUD Spec.

(** *** Statements of the change operations *)

(** The [DELETE] statement of [delete_record]. *)
Definition delete_statement (table : string) (pk : value) : string :=
  "DELETE FROM " +:+ table +:+ " WHERE " +:+ str_value pk +:+ " = %s".

(** [key = %s] for every key of a dictionary, joined by [sep]. *)
Definition assignments (sep : string) (d : dict string value) : string :=
  Py.join sep (map (fun kv => fst kv +:+ " = %s") d).

(** The [INSERT] statement for the given entries: their keys, and one
    placeholder for each. *)
Definition insert_statement (table : string) (entries : dict string value) : string :=
  Py.nl +:+ spaces 24 +:+ "INSERT INTO " +:+ table +:+ " ("
  +:+ Py.join ", " (map fst entries) +:+ ")" +:+
  Py.nl +:+ spaces 24 +:+ "VALUES (" +:+ Py.join ", " (repeat "%s" (length entries))
  +:+ ")" +:+
  Py.nl +:+ spaces 24 +:+ "RETURNING *;" +:+ Py.nl +:+ spaces 20.

(** The [UPDATE] statement of [update_data]. *)
Definition update_where_statement (table : string) (entries condition : dict string value)
  : string :=
  Py.nl +:+ spaces 24 +:+ "UPDATE " +:+ table +:+
  Py.nl +:+ spaces 24 +:+ "SET " +:+ assignments ", " entries +:+
  Py.nl +:+ spaces 24 +:+ "WHERE " +:+ assignments " AND " condition +:+
  Py.nl +:+ spaces 24 +:+ "RETURNING *;" +:+ Py.nl +:+ spaces 20.

(** The [DELETE] statement of [delete_data]. *)
Definition delete_where_statement (table : string) (condition : dict string value)
  : string :=
  Py.nl +:+ spaces 24 +:+ "DELETE FROM " +:+ table +:+
  Py.nl +:+ spaces 24 +:+ "WHERE " +:+ assignments " AND " condition +:+
  Py.nl +:+ spaces 24 +:+ "RETURNING *;" +:+ Py.nl +:+ spaces 20.

(** A fetched row as the change operations return it: the dictionary from
    the column names to the values as they are. *)
Definition plain_dict (names : list string) (r : row) : dict string value :=
  dict_of (zip names r).

(** A call that sends no [DELETE]. *)
Definition no_delete (e : call * bool) : bool :=
  match e with
  | (Execute _ q _, _) => negb (Py.contains "DELETE" q)
  | _ => true
  end.

(** *** Pages of a table *)

(** A row of a page of [get_table_data]: the dictionary from the column
    names to the values, dates and datetimes as ISO strings. *)
Definition page_dict (names : list string) (r : row) : dict value value :=
  dict_of (zip (map VStr names) (map iso_value r)).



(** *** Backups *)

Section Backups.
Context {W : Type} `{Driver W}.

(** The directory [create_backup] writes to. *)
Definition backup_dir (w : W) : string := env_or "BACKUP_DIR" "backups" w.

(** The [pg_dump] command line of [create_backup] for a dump file, in the
    world the command is assembled in. *)
Definition backup_cmd (w : W) (backup_path : string) (tables : option (list string))
  : list string :=
  backup_command (env_or "DB_HOST" "localhost" w) (env_or "DB_PORT" "5432" w)
    (env_or "DB_USER" "admin" w) (env_or "DB_NAME" "library_management" w)
    backup_path tables.

(** The name of the dump file: the given name, with [.backup] added
    unless it ends with it; a name made of the time stamp when none (or
    the empty one) is given. *)
Definition backup_file (backup_name : option string) (w : W) : string :=
  match backup_name with
  | Some (String _ _ as name) =>
      if Py.endswith name ".backup" then name else name +:+ ".backup"
  | _ => "library_backup_" +:+ now_stamp w +:+ ".backup"
  end.

(** The directory of one run of [archive_tables], and its report. *)
Definition archive_subdir (w : W) : string :=
  Py.path_join (env_or "ARCHIVE_DIR" "archives" w) (now_stamp w).

Definition report_path (w : W) : string :=
  Py.path_join (archive_subdir w) "archive_report.json".

(** The [pg_dump] command line of one table of [archive_tables], and the
    password it runs with, in the world they are assembled in. *)
Definition archive_dump_cmd (w : W) (subdir table : string) : list string :=
  dump_command (env_or "DB_HOST" "localhost" w) (env_or "DB_PORT" "5432" w)
    (env_or "DB_USER" "lib_admin" w) (env_or "DB_NAME" "library_management" w)
    table (Py.path_join subdir (table +:+ ".backup")).

Definition archive_password (w : W) : string :=
  env_or "DB_PASSWORD" "securepass123" w.

End Backups.

(** The tables a backup is restricted to: none for the whole database,
    which is also what an empty list asks for. *)
Definition dumped_tables (tables : option (list string)) : option (list string) :=
  match tables with
  | Some (_ :: _) => tables
  | _ => None
  end.

(** The programs [restore_backup] may start, in order. *)
Definition restore_programs : list string := ["psql"; "pg_restore"].

(** The message of [restore_backup] when a program cannot be started. *)
Definition missing_tool (msg : string) : string :=
  "Не найдена утилита для восстановления: " +:+ msg
  +:+ "." +:+ " Убедитесь, что установлен postgresql-client (psql/pg_restore)".

(** *** Archive reports *)

(** The report [archive_tables] starts from, and the one it returns. *)
Definition empty_report (timestamp reason : string) : archive_report :=
  {| ar_timestamp := timestamp; ar_tables := []; ar_reason := reason;
     ar_total_rows_archived := 0; ar_report_path := None |}.

Definition with_report_path (report : archive_report) (path : string) : archive_report :=
  {| ar_timestamp := ar_timestamp report;
     ar_tables := ar_tables report;
     ar_reason := ar_reason report;
     ar_total_rows_archived := ar_total_rows_archived report;
     ar_report_path := Some path |}.

(** The rows archived according to the entries of a report. *)
Definition rows_archived_in (entries : list table_entry) : nat :=
  list_sum (map rows_of_entry entries).

(** *** Endpoints *)

Section Answers.
Context {W : Type} `{Driver W} `{Main.Host W}.

(** What the [except] clause of a handler that renders pages does in the
    world [w] with the exception [e]: the error is logged with the text
    [what] before it, and the error page rendered. *)
Definition error_answer (what : string) (e : exn) (w : W)
  : outcome Main.response * W :=
  match
    Main.template_response (Main.Error_page (str_exn e))
      (Main.log_error (what +:+ str_exn e) w)
  with
  | (Ret body, w1) => (Ret (Main.Page body), w1)
  | (Raise e', w1) => (Raise e', w1)
  end.

End Answers.

(** Decimal digits as a number. *)
Fixpoint digits (s : string) (acc : Z) : option Z :=
  match s with
  | EmptyString => Some acc
  | String c s' =>
      match Ascii.is_nat c with
      | Some d => digits s' (10 * acc + Z.of_nat d)%Z
      | None => None
      end
  end.

(** A host for the scripted world: it keeps no log, renders a page as the
    name of its template, words an [HTTPException] as the status code and
    the detail, reads plain decimal numbers and knows no floats. *)
#[global] Instance scripted_host : Main.Host Script.world := {|
  Main.log_error := fun _ w => w;
  Main.http_exception_str := fun status_code detail =>
    pretty status_code +:+ ": " +:+ detail;
  Main.template_response := fun p w =>
    (Ret match p with
         | Main.Table_view _ _ _ _ _ _ _ _ => "table_view.html"
         | Main.Delete_record_page _ _ _ _ _ => "delete_record.html"
         | Main.Error_page _ => "error.html"
         end, w);
  Main.py_int := fun s => match s with EmptyString => None | _ => digits s 0 end;
  Main.py_float := fun _ => None
|}.

(** *** Inputs of the examples *)

(** The scripted world after [k] more replies have been consumed. *)
Definition later (k : nat) (w : Script.world) : Script.world :=
  {| Script.replies := drop k (Script.replies w);
     Script.environ := Script.environ w;
     Script.files := Script.files w;
     Script.time := Script.time w;
     Script.stamp := Script.stamp w;
     Script.description := Script.description w;
     Script.rowcount := Script.rowcount w |}.

(** A statement the server rejects, on a connection that then rolls back
    and closes. *)
Definition rejecting_world : Script.world :=
  Script.play
    [Script.Opened 0;
     Script.Raises (OtherException "UndefinedTable" "relation does not exist");
     Script.Ok; Script.Ok]
    [] None.

(** Deleting the loan with key 12: the catalog names the key column, the
    row is deleted, the transaction committed and the connection closed. *)
Definition loan_world : Script.world :=
  Script.play
    [Script.Opened 0; Script.Ok; Script.Row (Some [VStr "loan_id"]);
     Script.Ok; Script.Ok; Script.Ok]
    [] None.

(** The delete of that loan is rejected by the server. *)
Definition referenced_world : Script.world :=
  Script.play
    [Script.Opened 0; Script.Ok; Script.Row (Some [VStr "loan_id"]);
     Script.Raises (OtherException "ForeignKeyViolation"
                      "update or delete on table book_loans violates foreign key constraint");
     Script.Ok; Script.Ok]
    [] None.

(** Inserting an author: of the three fields submitted, one has a
    value. *)
Definition author_form : dict string value :=
  [("last_name", VStr "Le Guin"); ("biography", VStr ""); ("birth_date", VNone)].

Definition author_world : Script.world :=
  Script.play
    [Script.Opened 0; Script.Ok; Script.Row (Some [VInt 5; VStr "Le Guin"]); Script.Ok]
    [] (Some ["author_id"; "last_name"]).

Definition unnamed_author_world : Script.world :=
  Script.play
    [Script.Opened 0;
     Script.Raises (OtherException "NotNullViolation"
                      "null value in column first_name violates not-null constraint");
     Script.Ok]
    [] None.

(** Renaming the author with key 5. *)
Definition renamed_world : Script.world :=
  Script.play
    [Script.Opened 0; Script.Ok; Script.Rows [[VInt 5; VStr "Ursula"]]; Script.Ok]
    [] (Some ["author_id"; "first_name"]).

(** Deleting the fine with key 3. *)
Definition fine_world : Script.world :=
  Script.play
    [Script.Opened 0; Script.Ok; Script.Rows [[VInt 3]]; Script.Ok]
    [] (Some ["fine_id"]).

(** A backup of one table: the directory is there, [pg_dump] exits with
    code 0 and the dump has 2048 bytes. *)
Definition friday_world : Script.world :=
  Script.play
    [Script.Ok; Script.Exited {| returncode := 0; stdout := ""; stderr := "" |};
     Script.Size 2048]
    [] None.

(** The backup file is there but [psql] is not installed. *)
Definition no_client_world : Script.world :=
  Script.play
    [Script.Raises (FileNotFoundError "[Errno 2] No such file or directory: 'psql'")]
    ["backups/library.backup"] None.

(** No loan with the key asked for. *)
Definition missing_loan_world : Script.world :=
  Script.play
    [Script.Opened 0; Script.Ok; Script.Row (Some [VStr "loan_id"]);
     Script.Ok; Script.Row None]
    [] None.

(** A page of size zero of the three loans. *)
Definition empty_page_world : Script.world :=
  Script.play
    [Script.Opened 0; Script.Ok; Script.Row (Some [VInt 3]); Script.Ok;
     Script.Rows [[VStr "loan_id"]; [VStr "due_date"]]; Script.Ok;
     Script.Rows []; Script.Ok; Script.Ok]
    [] None.


(** Deleting the author with key 4, who has two books: the count of the
    books, then the columns of [authors] and the tables of the catalog,
    each on a connection of its own. *)
Definition author_delete_form : list (string * string) :=
  [("author_id", "4"); ("last_name", "")].

Definition refused_world : Script.world :=
  Script.play
    [Script.Opened 0; Script.Ok; Script.Row (Some [VInt 2]);
     Script.Opened 1; Script.Ok;
     Script.Rows [[VStr "author_id"; VStr "integer"; VStr "NO"; VNone]];
     Script.Opened 2; Script.Ok; Script.Rows [[VStr "authors"]; [VStr "books"]];
     Script.Ok]
    [] None.


End Notions.

(** * Properties *)

Module Runs.
Import Database CRUD Spec.

Section Runs.
Context {W : Type} `{Driver W}.

Lemma eq_str_decide (v : value) (s : string) :
  eq_str v s = bool_decide (v = VStr s).
Proof.
  destruct v; cbn; try (symmetry; apply bool_decide_eq_false; congruence).
  destruct (String.eqb_spec s0 s) as [->|Hne].
  - symmetry. apply bool_decide_eq_true. reflexivity.
  - symmetry. apply bool_decide_eq_false. congruence.
Qed.

Lemma get_connection_run (w : W) :
  get_connection w =
    match db_connect (env_params w) w with
    | (Ret c, w1) => (Ret c, w1, [(Connect (env_params w), true)])
    | (Raise e, w1) => (Raise e, w1, connect_failed w e)
    end.
Proof.
  unfold get_connection, getenv, ask, bind, try_except, ext, print, raise,
    env_params, env_or, connect_failed.
  cbn. destruct (db_connect _ w) as [[c|e] w1]; reflexivity.
Qed.

Lemma with_connection_run {A} (body : conn -> M W A) (w : W) :
  with_connection body w =
    match db_connect (env_params w) w with
    | (Ret c, w1) =>
        match body c w1 with
        | (r, w2, t) =>
            (r, db_conn_exit c (raised r) w2,
             (Connect (env_params w), true) :: t ++ [(ConnExit c (raised r), true)])
        end
    | (Raise e, w1) => (Raise e, w1, connect_failed w e)
    end.
Proof.
  unfold with_connection, bind. rewrite get_connection_run.
  destruct (db_connect _ w) as [[c|e] w1]; [|reflexivity].
  destruct (body c w1) as [[r w2] t]. reflexivity.
Qed.

Lemma get_connection_context_run {A} (body : conn -> M W A) (w : W) :
  get_connection_context body w =
    match db_connect (env_params w) w with
    | (Ret c, w1) =>
        match finally
                (try_except (body c)
                   (fun e => ext (Rollback c) (db_rollback c);; raise e))
                (ext (Close c) (db_close c)) w1 with
        | (r, w2, t) => (r, w2, (Connect (env_params w), true) :: t)
        end
    | (Raise e, w1) => (Raise e, w1, connect_failed w e)
    end.
Proof.
  unfold get_connection_context, bind. rewrite get_connection_run.
  destruct (db_connect _ w) as [[c|e] w1]; [|reflexivity].
  destruct (finally _ _ w1) as [[r w2] t]. reflexivity.
Qed.

Lemma for_each_column_of_row (ccs : list catalog_column) (w : W) :
  for_each column_of_row (map catalog_row ccs) w = (Ret (map mirror ccs), w, []).
Proof.
  induction ccs as [|cc ccs IH]; [reflexivity|].
  cbn [map for_each]. unfold bind at 1.
  unfold column_of_row at 1. cbn. unfold bind at 1. rewrite IH.
  unfold mirror. rewrite eq_str_decide. reflexivity.
Qed.

(** *** Running the combinators *)

Lemma ext_ok {A} (c : call) (f : W -> outcome A * W) (w w1 : W) (a : A) :
  f w = (Ret a, w1) -> ext c f w = (Ret a, w1, [(c, true)]).
Proof. intros E. unfold ext. rewrite E. reflexivity. Qed.

Lemma ext_fail {A} (c : call) (f : W -> outcome A * W) (w w1 : W) (e : exn) :
  f w = (Raise e, w1) -> ext c f w = (Raise e, w1, [(c, false)]).
Proof. intros E. unfold ext. rewrite E. reflexivity. Qed.

Lemma bind_ok {A B} (m : M W A) (f : A -> M W B) (w w1 : W) (a : A) (t1 : trace) :
  m w = (Ret a, w1, t1) ->
  bind m f w = match f a w1 with (r, w2, t2) => (r, w2, t1 ++ t2) end.
Proof. intros E. unfold bind. rewrite E. reflexivity. Qed.

Lemma bind_fail {A B} (m : M W A) (f : A -> M W B) (w w1 : W) (e : exn) (t1 : trace) :
  m w = (Raise e, w1, t1) -> bind m f w = (Raise e, w1, t1).
Proof. intros E. unfold bind. rewrite E. reflexivity. Qed.

Lemma bind_silent {A B} (m : M W A) (f : A -> M W B) (w : W) (a : A) :
  m w = (Ret a, w, []) -> bind m f w = f a w.
Proof.
  intros E. rewrite (bind_ok _ _ _ _ _ _ E).
  destruct (f a w) as [[r w2] t2]. reflexivity.
Qed.

(** *** Silent computations *)

Lemma silent_ret {A} (a : A) : silent (ret a : M W A).
Proof. intros w. eexists. reflexivity. Qed.

Lemma silent_raise {A} (e : exn) : silent (raise e : M W A).
Proof. intros w. eexists. reflexivity. Qed.

Lemma silent_ask {A} (f : W -> A) : silent (ask f : M W A).
Proof. intros w. eexists. reflexivity. Qed.

Lemma silent_bind {A B} (m : M W A) (f : A -> M W B) :
  silent m -> (forall a, silent (f a)) -> silent (bind m f).
Proof.
  intros Hm Hf w. unfold bind. destruct (Hm w) as [[a|e] ->]; [|eauto].
  destruct (Hf a w) as [r ->]. eauto.
Qed.

Lemma silent_item {A} (l : list A) (i : nat) : silent (item l i : M W A).
Proof. unfold item. destruct (l !! i); [apply silent_ret|apply silent_raise]. Qed.


Lemma silent_row_to_dict {K} `{EqDecision K} (columns : list K) (r : row) :
  forall i d, silent (row_to_dict columns i r d : M W _).
Proof.
  induction r as [|v r IH]; intros i d; cbn; [apply silent_ret|].
  apply silent_bind; [apply silent_item|]. intros k. apply IH.
Qed.

Lemma silent_int_of (v : value) : silent (int_of v : M W _).
Proof. destruct v; cbn; try apply silent_raise; apply silent_ret. Qed.

Lemma silent_floordiv (a b : Z) : silent (floordiv a b : M W _).
Proof.
  unfold floordiv. destruct (b =? 0)%Z; [apply silent_raise|apply silent_ret].
Qed.

Lemma silent_positive (v : value) : silent (positive v : M W _).
Proof. destruct v; cbn; try apply silent_raise; apply silent_ret. Qed.

Lemma silent_any_positive (vs : list value) : silent (any_positive vs : M W _).
Proof.
  induction vs as [|v vs IH]; cbn; [apply silent_ret|].
  apply silent_bind; [apply silent_positive|].
  intros [|]; [apply silent_ret|apply IH].
Qed.

Lemma silent_getenv (key fallback : string) : silent (getenv key fallback).
Proof. apply silent_ask. Qed.

(** *** What a whole run emits *)

Lemma emits_ret {A} P (a : A) : emits P (ret a : M W A).
Proof. intros w. constructor. Qed.

Lemma emits_raise {A} P (e : exn) : emits P (raise e : M W A).
Proof. intros w. constructor. Qed.

Lemma emits_silent {A} P (m : M W A) : silent m -> emits P m.
Proof. intros Hs w. destruct (Hs w) as [r ->]. constructor. Qed.

Lemma emits_ext {A} (P : call * bool -> Prop) (c : call) (f : W -> outcome A * W) :
  P (c, true) -> P (c, false) -> emits P (ext c f).
Proof.
  intros Ht Hf w. unfold ext. destruct (f w) as [[a|e] w1]; cbn; repeat constructor; assumption.
Qed.

Lemma emits_bind {A B} P (m : M W A) (f : A -> M W B) :
  emits P m -> (forall a, emits P (f a)) -> emits P (bind m f).
Proof.
  intros Hm Hf w. unfold bind. specialize (Hm w).
  destruct (m w) as [[[a|e] w1] t1]; cbn in *; [|assumption].
  specialize (Hf a w1). destruct (f a w1) as [[r w2] t2]; cbn in *.
  apply Forall_app. split; assumption.
Qed.

Lemma emits_try_except {A} P (m : M W A) (h : exn -> M W A) :
  emits P m -> (forall e, emits P (h e)) -> emits P (try_except m h).
Proof.
  intros Hm Hh w. unfold try_except. specialize (Hm w).
  destruct (m w) as [[[a|e] w1] t1]; cbn in *; [assumption|].
  specialize (Hh e w1). destruct (h e w1) as [[r w2] t2]; cbn in *.
  apply Forall_app. split; assumption.
Qed.

Lemma emits_finally {A} P (m : M W A) (f : M W unit) :
  emits P m -> emits P f -> emits P (finally m f).
Proof.
  intros Hm Hf w. unfold finally. specialize (Hm w).
  destruct (m w) as [[r w1] t1]; cbn in *.
  specialize (Hf w1). destruct (f w1) as [[[u|e] w2] t2]; cbn in *;
    apply Forall_app; split; assumption.
Qed.

Lemma emits_for_each {A B} P (f : A -> M W B) (l : list A) :
  (forall a, emits P (f a)) -> emits P (for_each f l).
Proof.
  intros Hf. induction l as [|a l IH]; cbn; [apply emits_ret|].
  apply emits_bind; [apply Hf|]. intros b.
  apply emits_bind; [apply IH|]. intros bs. apply emits_ret.
Qed.

Lemma emits_get_connection P :
  (forall p ok, P (Connect p, ok)) -> (forall msg, P (Print msg, true)) ->
  emits P get_connection.
Proof.
  intros Hc Hp w. rewrite get_connection_run.
  destruct (db_connect _ w) as [[c|e] w1]; cbn; repeat constructor; auto.
Qed.

Lemma emits_with_connection {A} P (body : conn -> M W A) :
  (forall p ok, P (Connect p, ok)) -> (forall msg, P (Print msg, true)) ->
  (forall c b, P (ConnExit c b, true)) ->
  (forall c, emits P (body c)) -> emits P (with_connection body).
Proof.
  intros Hc Hp Hx Hb w. rewrite with_connection_run.
  destruct (db_connect _ w) as [[c|e] w1]; cbn; [|repeat constructor; auto].
  specialize (Hb c w1). destruct (body c w1) as [[r w2] t]; cbn in *.
  constructor; [auto|]. apply Forall_app. split; [assumption|].
  repeat constructor; auto.
Qed.

(** *** Readings of traces *)

Lemma statements_app (t1 t2 : trace) :
  statements (t1 ++ t2) = statements t1 ++ statements t2.
Proof.
  induction t1 as [|[[] ok] t1 IH]; cbn; try apply IH; try reflexivity.
  f_equal. apply IH.
Qed.

Lemma statements_none (t : trace) :
  Forall (fun e => is_execute e = false) t -> statements t = [].
Proof.
  induction 1 as [|[[] ok] t Hx _ IH]; cbn in *; try assumption;
    try reflexivity; discriminate.
Qed.


Lemma statements_bind_quiet {A B} (m : M W A) (f : A -> M W B) (w : W) :
  (forall a, emits (fun e => is_execute e = false) (f a)) ->
  statements (snd (bind m f w)) = statements (snd (m w)).
Proof.
  intros Hf. unfold bind. destruct (m w) as [[[a|e] w1] t1]; [|reflexivity].
  specialize (Hf a w1). destruct (f a w1) as [[r w2] t2]; cbn in *.
  rewrite statements_app, (statements_none _ Hf). apply app_nil_r.
Qed.

Lemma statements_execute (c : conn) (q : string) (p : sql_params) (w : W) :
  statements (snd (execute c q p w)) = [q].
Proof.
  unfold execute, ext. destruct (db_execute c q p w) as [[u|e] w1]; reflexivity.
Qed.

Lemma statements_get_connection_context {A} (body : conn -> M W A)
    (w w1 : W) (c : conn) :
  db_connect (env_params w) w = (Ret c, w1) ->
  statements (snd (get_connection_context body w)) = statements (snd (body c w1)).
Proof.
  intros Hc. rewrite get_connection_context_run, Hc.
  unfold finally, try_except, bind, ext, raise.
  destruct (body c w1) as [[[a|e] w2] t]; cbn.
  - destruct (db_close c w2) as [[u|e] w3]; cbn;
      rewrite statements_app; cbn; apply app_nil_r.
  - destruct (db_rollback c w2) as [[u|e'] w3]; cbn;
      destruct (db_close c w3) as [[u'|e''] w4]; cbn;
      rewrite !statements_app; cbn; rewrite !app_nil_r; reflexivity.
Qed.

Lemma execute_ok (c : conn) (q : string) (p : sql_params) (w w1 : W) :
  db_execute c q p w = (Ret tt, w1) ->
  execute c q p w = (Ret tt, w1, [(Execute c q p, true)]).
Proof. apply ext_ok. Qed.

Lemma fetchone_ok (c : conn) (w w1 : W) (r : option row) :
  db_fetchone c w = (Ret r, w1) ->
  fetchone c w = (Ret r, w1, [(Fetchone c, true)]).
Proof. apply ext_ok. Qed.

Lemma fetchall_ok (c : conn) (w w1 : W) (rs : list row) :
  db_fetchall c w = (Ret rs, w1) ->
  fetchall c w = (Ret rs, w1, [(Fetchall c, true)]).
Proof. apply ext_ok. Qed.

Lemma fetchone_0_ok (c : conn) (w w1 : W) (v : value) (more : row) :
  db_fetchone c w = (Ret (Some (v :: more)), w1) ->
  fetchone_0 c w = (Ret v, w1, [(Fetchone c, true)]).
Proof.
  intros E. unfold fetchone_0. rewrite (bind_ok _ _ _ _ _ _ (fetchone_ok _ _ _ _ E)).
  reflexivity.
Qed.

(** *** The sort column *)

Lemma for_each_first_field (names : list string) (w : W) :
  for_each (fun r : row => item r 0) (map (fun n => [VStr n]) names) w
  = (Ret (map VStr names), w, []).
Proof.
  induction names as [|n names IH]; [reflexivity|].
  cbn [map for_each]. unfold bind at 1. cbn. unfold bind at 1. rewrite IH.
  reflexivity.
Qed.

Lemma find_id_column_names (names : list string) (w : W) :
  find_id_column (map VStr names) w
  = (Ret (VStr <$> List.find (fun n => Py.endswith n "_id") names), w, []).
Proof.
  induction names as [|n names IH]; [reflexivity|].
  cbn. destruct (Py.endswith n "_id"); [reflexivity|apply IH].
Qed.

Lemma choose_sort_column_names (names : list string) (w : W) :
  choose_sort_column (map VStr names) w = (Ret (VStr (sort_column names)), w, []).
Proof.
  unfold choose_sort_column, sort_column, bind. rewrite find_id_column_names.
  destruct (List.find _ names) as [n|] eqn:Hfind; cbn.
  - destruct names as [|first names]; [discriminate|]. cbn.
    destruct (String.eqb_spec n "ctid") as [->|_]; [|reflexivity].
    apply List.find_some in Hfind as [_ Hend]. vm_compute in Hend. discriminate.
  - destruct names; reflexivity.
Qed.

Lemma append_assoc (a b c : string) : (a +:+ b) +:+ c = a +:+ (b +:+ c).
Proof.
  induction a as [|x a IH]; [reflexivity|].
  change (String x ((a +:+ b) +:+ c) = String x (a +:+ (b +:+ c))).
  rewrite IH. reflexivity.
Qed.

Lemma prefix_app (p b : string) : String.prefix p (p +:+ b) = true.
Proof.
  induction p as [|x p IH]; [destruct b; reflexivity|].
  change (String x p +:+ b) with (String x (p +:+ b)). cbn [String.prefix].
  destruct (ascii_dec x x); [exact IH|congruence].
Qed.



Lemma silent_find_id_column (columns : list value) :
  silent (find_id_column columns : M W _).
Proof.
  induction columns as [|col columns IH]; cbn; [apply silent_ret|].
  destruct col; try apply silent_raise.
  destruct (Py.endswith _ _); [apply silent_ret|apply IH].
Qed.

End Runs.

Create HintDb operations.
#[export] Hint Unfold execute fetchone fetchall commit rollback print fetchone_0
  first_or_id description_names zip_description rows_to_dicts delete_where
  count_dependencies subprocess_run column_of_row restore_handlers
  backup_handlers purge choose_sort_column : operations.

(** Every call of the computation at hand satisfies the predicate at hand:
    walk down the binds, handlers and case distinctions to the external
    calls. *)
Ltac quiet :=
  repeat
    (autounfold with operations;
     match goal with
     | |- emits _ (bind _ _) => apply emits_bind; [|intros ?]
     | |- emits _ (try_except _ _) => apply emits_try_except; [|intros ?]
     | |- emits _ (ret _) => apply emits_ret
     | |- emits _ (raise _) => apply emits_raise
     | |- emits _ (ask _) => apply emits_silent, silent_ask
     | |- emits _ (getenv _ _) => apply emits_silent, silent_getenv
     | |- emits _ (ext _ _) => apply emits_ext; first [reflexivity | split; reflexivity]
     | |- emits _ (item _ _) => apply emits_silent, silent_item
     | |- emits _ (for_each _ _) => apply emits_for_each; intros ?
     | |- emits _ (row_to_dict _ _ _ _) => apply emits_silent, silent_row_to_dict
     | |- emits _ (int_of _) => apply emits_silent, silent_int_of
     | |- emits _ (floordiv _ _) => apply emits_silent, silent_floordiv
     | |- emits _ (any_positive _) => apply emits_silent, silent_any_positive
     | |- emits _ (find_id_column _) => apply emits_silent, silent_find_id_column
     | |- emits _ (match ?x with _ => _ end) => destruct x
     end).

End Runs.

(** ** The catalog operations *)

Module Catalog.
Import Database CRUD Spec Runs.

Section Catalog.
Context {W : Type} `{Driver W}.




End Catalog.


(** Three runs of [get_primary_key] in the scripted world: a key in the
    catalog, no key, and a server that cannot be reached. *)
Example get_primary_key_found :
  fst (fst (get_primary_key "books"
              (Script.play [Script.Opened 0; Script.Ok;
                            Script.Row (Some [VStr "book_id"])] [] None)))
  = Ret (VStr "book_id").
Proof. reflexivity. Qed.

Example get_primary_key_missing :
  fst (fst (get_primary_key "notes"
              (Script.play [Script.Opened 0; Script.Ok; Script.Row None] [] None)))
  = Ret (VStr "id").
Proof. reflexivity. Qed.

Example get_primary_key_unreachable :
  fst (fst (get_primary_key "books"
              (Script.play [Script.Raises (OtherException "OperationalError"
                                             "connection refused")] [] None)))
  = Ret (VStr "id").
Proof. reflexivity. Qed.

Example sort_column_cases :
  sort_column ["title"; "publisher_id"; "book_id"] = "publisher_id"
  /\ sort_column ["name"; "email"] = "name"
  /\ sort_column [] = "ctid".
Proof. repeat split. Qed.


End Catalog.

(** ** The record operations *)

Module Records.
Import Database CRUD Spec Runs.

Section Records.
Context {W : Type} `{Driver W}.

Lemma has_content_decide (v : value) :
  has_content v = negb (bool_decide (v = VStr "")) && negb (bool_decide (v = VNone)).
Proof. destruct v as [| | |[|]| | |]; reflexivity. Qed.

Lemma set_clause_updatable (pk : value) (data : dict string value) :
  forall set_parts values,
    set_clause pk data set_parts values =
      (set_parts ++ map (fun kv => fst kv +:+ " = %s") (updatable pk data),
       values ++ map snd (updatable pk data)).
Proof.
  induction data as [|[key value] data IH]; intros set_parts values; cbn.
  - rewrite !app_nil_r. reflexivity.
  - rewrite eq_str_decide, has_content_decide, <- andb_assoc.
    destruct (negb _ && _); cbn; rewrite IH, <- ?app_assoc; reflexivity.
Qed.

Lemma first_or_id_run (pk_result : option row) (w : W) :
  first_or_id pk_result w = (Ret (pk_column_of pk_result), w, []).
Proof. destruct pk_result as [[|v r]|]; reflexivity. Qed.





Lemma guarded_dependency (table : string) (d : dependency) :
  dependency_of table = Some d -> table ∈ guarded_tables.
Proof.
  unfold dependency_of, guarded_tables.
  destruct (String.eqb_spec table "authors") as [->|_]; [intros _; apply list_elem_of_In; cbn; tauto|].
  destruct (String.eqb_spec table "genres") as [->|_]; [intros _; apply list_elem_of_In; cbn; tauto|].
  destruct (String.eqb_spec table "publishers") as [->|_]; [intros _; apply list_elem_of_In; cbn; tauto|].
  destruct (String.eqb_spec table "readers") as [->|_]; [intros _; apply list_elem_of_In; cbn; tauto|].
  discriminate.
Qed.

Lemma count_dependencies_run
    (table : string) (condition : dict string value) (d : dependency)
    (c : conn) (w1 w2 w3 : W) (count : value) (more : row) :
  dependency_of table = Some d ->
  db_execute c (dep_query d) (Positional [condition_get condition (dep_key d)]) w1
    = (Ret tt, w2) ->
  db_fetchone c w2 = (Ret (Some (count :: more)), w3) ->
  count_dependencies c table condition w1 =
    (Ret [(dep_name d, count)], w3,
     [(Execute c (dep_query d) (Positional [condition_get condition (dep_key d)]), true);
      (Fetchone c, true)]).
Proof.
  unfold dependency_of, count_dependencies.
  destruct (String.eqb table "authors");
    [|destruct (String.eqb table "genres");
      [|destruct (String.eqb table "publishers");
        [|destruct (String.eqb table "readers"); [|discriminate]]]];
    intros [= <-] He Hf; cbn [dep_query dep_key dep_name] in *;
    rewrite (bind_ok _ _ _ _ _ _ (execute_ok _ _ _ _ _ He));
    rewrite (bind_ok _ _ _ _ _ _ (fetchone_0_ok _ _ _ _ _ Hf));
    reflexivity.
Qed.


End Records.


(** Nothing to update: only the key and empty values were submitted. *)
Example update_record_nothing_to_update :
  let data := [("book_id", VInt 9); ("isbn", VStr ""); ("page_count", VNone)] in
  let w := Script.play
             [Script.Opened 0; Script.Ok; Script.Row (Some [VStr "book_id"]);
              Script.Ok] [] None in
  update_record "books" (VInt 9) data w =
    (Ret (Failure "Нет данных для обновления"), Script.play [] [] None,
     [(Connect (env_params w), true);
      (Execute 0 primary_key_query (Positional [VStr "books"]), true);
      (Fetchone 0, true);
      (Close 0, true)]).
Proof. reflexivity. Qed.


End Records.

(** ** Restoring a backup *)

Module Backup.
Import Database CRUD Spec Runs.

Section Backup.
Context {W : Type} `{Driver W}.





Lemma try_except_at {A} (m m' : M W A) (h : exn -> M W A) (w : W) :
  m w = m' w -> try_except m h w = try_except m' h w.
Proof. intros E. unfold try_except. rewrite E. reflexivity. Qed.

Lemma restore_prelude (backup_path : string) (w : W) :
  os_path_exists backup_path w = true ->
  restore_backup backup_path w =
    try_except
      (let! psql_result := subprocess_run (psql_cmd w) (pg_password w) true false in
       if negb (returncode psql_result =? 0)%Z then
         ret (Restore_failed
                (Some ("Ошибка подготовки БД (очистка схемы public): "
                       +:+ clean_error psql_result))
                (Some (Py.join " " (psql_cmd w))) None)
       else
         try_except
           (let! result := subprocess_run (restore_cmd w backup_path) (pg_password w) true false in
            let '(warnings, errors) := sort_lines (stderr_lines (stderr result)) [] [] in
            if negb (returncode result =? 0)%Z && nonempty errors then
              ret (Restore_failed (Some (Py.join Py.nl errors))
                     (Some (Py.join " " (restore_cmd w backup_path))) (Some warnings))
            else
              let! timestamp := ask now_iso in
              ret (Restored "База данных успешно восстановлена" backup_path
                     timestamp warnings))
           (restore_handlers (Some (restore_cmd w backup_path))))
      (restore_handlers None) w.
Proof.
  intros Hex. unfold restore_backup.
  rewrite (bind_silent _ _ w true) by (unfold ask; rewrite Hex; reflexivity).
  cbn [negb].
  rewrite (bind_silent (getenv "DB_PASSWORD" "123") _ w _ eq_refl).
  apply try_except_at.
  rewrite (bind_silent (getenv "DB_HOST" "localhost") _ w _ eq_refl).
  rewrite (bind_silent (getenv "DB_PORT" "5432") _ w _ eq_refl).
  rewrite (bind_silent (getenv "DB_USER" "admin") _ w _ eq_refl).
  rewrite (bind_silent (getenv "DB_NAME" "library_management") _ w _ eq_refl).
  reflexivity.
Qed.




End Backup.




End Backup.

(** ** Ad-hoc statements *)

Module Sql.
Import Database CRUD Spec Runs.

Section Sql.
Context {W : Type} `{Driver W}.





Lemma execute_fail (c : conn) (q : string) (p : sql_params) (w w1 : W) (e : exn) :
  db_execute c q p w = (Raise e, w1) ->
  execute c q p w = (Raise e, w1, [(Execute c q p, false)]).
Proof. apply ext_fail. Qed.



End Sql.



End Sql.

(** ** Connections *)

Module Connections.
Import Database CRUD Spec Runs.

Section Connections.
Context {W : Type} `{Driver W}.

Lemma connect_calls_app (t1 t2 : trace) :
  connect_calls (t1 ++ t2) = connect_calls t1 + connect_calls t2.
Proof. unfold connect_calls. rewrite List.filter_app, length_app. reflexivity. Qed.

Lemma opened_app (t1 t2 : trace) : opened (t1 ++ t2) = opened t1 + opened t2.
Proof. unfold opened. rewrite List.filter_app, length_app. reflexivity. Qed.

Lemma close_calls_app (t1 t2 : trace) :
  close_calls (t1 ++ t2) = close_calls t1 + close_calls t2.
Proof. unfold close_calls. rewrite List.filter_app, length_app. reflexivity. Qed.

Lemma quiet_counts (t : trace) :
  Forall quiet_call t -> connect_calls t = 0 /\ opened t = 0 /\ close_calls t = 0.
Proof.
  induction 1 as [|[c ok] t [Hc Hx] _ (IH1 & IH2 & IH3)]; [repeat split|].
  unfold connect_calls, opened, close_calls in *. cbn [List.filter].
  change (is_connect_call (c, ok) = false) in Hc.
  change (is_close_call (c, ok) = false) in Hx.
  rewrite Hc, Hx.
  assert (is_opened (c, ok) = false) as ->
    by (destruct c, ok; try reflexivity; discriminate Hc).
  auto.
Qed.


Lemma connect_calls_cons (x : call * bool) (t : trace) :
  connect_calls (x :: t) = (if is_connect_call x then 1 else 0) + connect_calls t.
Proof. unfold connect_calls. cbn. destruct (is_connect_call x); reflexivity. Qed.

Lemma opened_cons (x : call * bool) (t : trace) :
  opened (x :: t) = (if is_opened x then 1 else 0) + opened t.
Proof. unfold opened. cbn. destruct (is_opened x); reflexivity. Qed.

Lemma close_calls_cons (x : call * bool) (t : trace) :
  close_calls (x :: t) = (if is_close_call x then 1 else 0) + close_calls t.
Proof. unfold close_calls. cbn. destruct (is_close_call x); reflexivity. Qed.

(** Count the calls of a trace assembled from known pieces. *)
Ltac count_calls :=
  unfold connect_failed;
  cbn -[connect_calls opened close_calls];
  rewrite ?connect_calls_cons, ?connect_calls_app, ?connect_calls_cons,
    ?opened_cons, ?opened_app, ?opened_cons,
    ?close_calls_cons, ?close_calls_app, ?close_calls_cons;
  cbn [is_connect_call is_opened is_close_call];
  change (connect_calls []) with 0; change (opened []) with 0;
  change (close_calls []) with 0.

Lemma try_except_counts {A} (m : M W A) (h : exn -> M W A) (w : W) :
  (forall e, emits quiet_call (h e)) ->
  connect_calls (snd (try_except m h w)) = connect_calls (snd (m w))
  /\ opened (snd (try_except m h w)) = opened (snd (m w))
  /\ close_calls (snd (try_except m h w)) = close_calls (snd (m w)).
Proof.
  intros Hh. unfold try_except. destruct (m w) as [[[a|e] w1] t1]; [auto|].
  specialize (Hh e w1). destruct (h e w1) as [[r w2] t2].
  destruct (quiet_counts _ Hh) as (E1 & E2 & E3). cbn [snd] in *.
  count_calls. lia.
Qed.

Lemma context_counts {A} (body : conn -> M W A) (w : W) :
  (forall c, emits quiet_call (body c)) ->
  connect_calls (snd (get_connection_context body w)) = 1
  /\ close_calls (snd (get_connection_context body w))
     = opened (snd (get_connection_context body w)).
Proof.
  intros Hb. rewrite get_connection_context_run.
  destruct (db_connect _ w) as [[c|e] w1]; [|split; reflexivity].
  unfold finally, try_except, bind, ext, raise.
  specialize (Hb c w1). destruct (body c w1) as [[[a|e] w2] t];
    destruct (quiet_counts _ Hb) as (E1 & E2 & E3); cbn [snd] in *.
  - destruct (db_close c w2) as [[u|e] w3]; count_calls; lia.
  - destruct (db_rollback c w2) as [[u|e'] w3];
      destruct (db_close c w3) as [[u'|e''] w4]; count_calls; lia.
Qed.

Lemma with_connection_counts {A} (body : conn -> M W A) (n : nat) (w : W) :
  (forall c, connects_at_most n (body c)) ->
  1 <= connect_calls (snd (with_connection body w)) <= S n
  /\ close_calls (snd (with_connection body w)) = 0.
Proof.
  intros Hb. rewrite with_connection_run.
  destruct (db_connect _ w) as [[c|e] w1]; [|count_calls; lia].
  destruct (Hb c w1) as [Hle Hcl]. destruct (body c w1) as [[r w2] t]; cbn [snd] in *.
  count_calls. lia.
Qed.

Lemma quiet_at_most {A} (m : M W A) :
  emits quiet_call m -> connects_at_most 0 m.
Proof.
  intros Hq w. destruct (quiet_counts _ (Hq w)) as (E1 & _ & E3).
  rewrite E1, E3. split; [lia|reflexivity].
Qed.

Lemma at_most_bind {A B} (m : M W A) (f : A -> M W B) (a b : nat) :
  connects_at_most a m -> (forall x, connects_at_most b (f x)) ->
  connects_at_most (a + b) (bind m f).
Proof.
  intros Hm Hf w. unfold bind. destruct (Hm w) as [Hle Hcl].
  destruct (m w) as [[[x|e] w1] t1]; cbn [fst snd] in *; [|split; [lia|assumption]].
  destruct (Hf x w1) as [Hle' Hcl']. destruct (f x w1) as [[r w2] t2]; cbn [fst snd] in *.
  rewrite connect_calls_app, close_calls_app. lia.
Qed.

Lemma at_most_try_except {A} (m : M W A) (h : exn -> M W A) (n : nat) :
  connects_at_most n m -> (forall e, emits quiet_call (h e)) ->
  connects_at_most n (try_except m h).
Proof.
  intros Hm Hh w. destruct (try_except_counts m h w Hh) as (-> & _ & ->). apply Hm.
Qed.

Lemma at_most_with_connection {A} (body : conn -> M W A) (n : nat) :
  (forall c, connects_at_most n (body c)) ->
  connects_at_most (S n) (with_connection body).
Proof.
  intros Hb w. destruct (with_connection_counts body n w Hb) as [[_ Hle] Hcl].
  split; assumption.
Qed.


Lemma get_table_columns_at_most (table : string) :
  connects_at_most 1 (get_table_columns table : M W _).
Proof.
  apply at_most_with_connection. intros c. apply quiet_at_most. quiet.
Qed.

Lemma at_most_mono {A} (m : M W A) (a b : nat) :
  a <= b -> connects_at_most a m -> connects_at_most b m.
Proof. intros Hab Hm w. destruct (Hm w). split; [lia|assumption]. Qed.

Lemma get_record_by_id_at_most (table : string) (record_id : value) :
  connects_at_most 2 (get_record_by_id table record_id : M W _).
Proof.
  unfold get_record_by_id.
  apply at_most_try_except; [|intros e; quiet].
  apply at_most_with_connection. intros c.
  apply (at_most_bind _ _ 0 1); [apply quiet_at_most; quiet|]. intros _.
  apply (at_most_bind _ _ 0 1); [apply quiet_at_most; quiet|]. intros pk_result.
  apply (at_most_bind _ _ 0 1); [apply quiet_at_most; quiet|]. intros pk_column.
  apply (at_most_bind _ _ 0 1); [apply quiet_at_most; quiet|]. intros _.
  apply (at_most_bind _ _ 0 1); [apply quiet_at_most; quiet|]. intros record.
  destruct record as [[|v record]|];
    try solve [apply (at_most_mono _ 0 1); [lia|apply quiet_at_most; quiet]].
  apply (at_most_bind _ _ 1 0); [apply get_table_columns_at_most|].
  intros columns. apply quiet_at_most. quiet.
Qed.

Lemma archive_table_at_most (archive_subdir table : string) :
  connects_at_most 2 (archive_table archive_subdir table : M W _).
Proof.
  unfold archive_table.
  apply (at_most_bind _ _ 1 1);
    [apply at_most_with_connection; intros c; apply quiet_at_most; quiet|].
  intros data.
  apply (at_most_bind _ _ 0 1); [apply quiet_at_most; quiet|]. intros _.
  apply (at_most_bind _ _ 0 1); [apply quiet_at_most; quiet|]. intros _.
  apply (at_most_bind _ _ 0 1); [apply quiet_at_most; quiet|]. intros db_host.
  apply (at_most_bind _ _ 0 1); [apply quiet_at_most; quiet|]. intros db_port.
  apply (at_most_bind _ _ 0 1); [apply quiet_at_most; quiet|]. intros db_user.
  apply (at_most_bind _ _ 0 1); [apply quiet_at_most; quiet|]. intros db_name.
  apply (at_most_bind _ _ 0 1); [apply quiet_at_most; quiet|]. intros password.
  apply (at_most_bind _ _ 0 1); [apply quiet_at_most; quiet|]. intros _.
  apply (at_most_bind _ _ 1 0); [|intros _; apply quiet_at_most; quiet].
  apply at_most_with_connection. intros c. apply quiet_at_most. quiet.
Qed.

Lemma archive_loop_at_most (archive_subdir : string) (tables : list string) :
  forall report,
    connects_at_most (2 * length tables)
      (archive_loop archive_subdir tables report : M W _).
Proof.
  induction tables as [|table tables IH]; intros report.
  - apply quiet_at_most. cbn. quiet.
  - cbn [archive_loop length].
    apply (at_most_mono _ (2 + 2 * length tables)); [lia|].
    apply at_most_bind; [|intros e; apply IH].
    unfold archive_step. apply at_most_try_except; [apply archive_table_at_most|].
    intros e. quiet.
Qed.

(** The handler of an outer [try] makes no call that counts. *)
Ltac through_handler :=
  match goal with
  | |- context [snd (try_except ?m ?h ?w)] =>
      let Ec := fresh in let Eo := fresh in let Ex := fresh in
      destruct (try_except_counts m h w) as (Ec & Eo & Ex);
      [intros ?; quiet | rewrite ?Ec, ?Eo, ?Ex; clear Ec Eo Ex]
  end.

(** C6, amended. In every world: the operations built on
    [Database.get_connection_context] call [connect] exactly once and call
    [close] exactly when the connection was opened; the operations that
    use the driver's connection as their context manager call [connect]
    exactly once and never call [close]; [get_record_by_id] is one of
    these but may call [connect] a second time, through
    [get_table_columns]; [create_backup] and [restore_backup] open no
    connection, and [archive_tables] at most two per table without calling
    [close]. *)
Theorem connections_per_operation (w : W) :
  (forall t, context_trace w t -> connect_calls t = 1 /\ close_calls t = opened t)
  /\ (forall t, driver_trace w t -> connect_calls t = 1 /\ close_calls t = 0)
  /\ (forall table record_id,
        1 <= connect_calls (snd (get_record_by_id table record_id w)) <= 2
        /\ close_calls (snd (get_record_by_id table record_id w)) = 0)
  /\ (forall backup_name tables,
        connect_calls (snd (create_backup backup_name tables w)) = 0)
  /\ (forall backup_path, connect_calls (snd (restore_backup backup_path w)) = 0)
  /\ (forall tables reason,
        connect_calls (snd (archive_tables tables reason w)) <= 2 * length tables
        /\ close_calls (snd (archive_tables tables reason w)) = 0).
Proof.
  repeat apply conj.
  - intros t [| table record_id data | table record_id | table page page_size].
    + apply context_counts. intros c. quiet.
    + unfold update_record.
      through_handler.
      apply context_counts. intros c. quiet.
    + unfold delete_record.
      through_handler.
      apply context_counts. intros c. quiet.
    + unfold get_table_data. apply context_counts. intros c. quiet.
  - assert (Hone : forall A (body : conn -> M W A),
               (forall c, emits quiet_call (body c)) ->
               connect_calls (snd (with_connection body w)) = 1
               /\ close_calls (snd (with_connection body w)) = 0).
    { intros A body Hb.
      destruct (with_connection_counts body 0 w (fun c => quiet_at_most _ (Hb c)))
        as [[Hlo Hhi] Hcl].
      split; [lia|assumption]. }
    intros t [table | table | query params | table data | table data condition
             | table condition].
    + apply Hone. intros c. quiet.
    + unfold get_primary_key.
      through_handler.
      apply Hone. intros c. quiet.
    + apply Hone. intros c. quiet.
    + apply Hone. intros c. quiet.
    + apply Hone. intros c. quiet.
    + apply Hone. intros c. quiet.
  - intros table record_id. split; [split|].
    + unfold get_record_by_id.
      through_handler.
      rewrite with_connection_run.
      destruct (db_connect _ w) as [[c|e] w1]; [|count_calls; lia].
      match goal with |- context [match ?x with _ => _ end] => destruct x as [[r w2] t] end.
      count_calls. lia.
    + apply get_record_by_id_at_most.
    + apply get_record_by_id_at_most.
  - intros backup_name tables.
    assert (Hq : emits quiet_call (create_backup backup_name tables : M W _)).
    { unfold create_backup. quiet. }
    apply (quiet_counts _ (Hq w)).
  - intros backup_path.
    assert (Hq : emits quiet_call (restore_backup backup_path : M W _)).
    { unfold restore_backup. quiet. }
    apply (quiet_counts _ (Hq w)).
  - intros tables reason.
    assert (Hm : connects_at_most (2 * length tables)
                   (archive_tables tables reason : M W _)).
    { unfold archive_tables.
      apply (at_most_bind _ _ 0 (2 * length tables));
        [apply quiet_at_most; quiet|]. intros archive_dir.
      apply (at_most_bind _ _ 0 (2 * length tables));
        [apply quiet_at_most; quiet|]. intros timestamp.
      apply (at_most_bind _ _ 0 (2 * length tables));
        [apply quiet_at_most; quiet|]. intros _.
      apply (at_most_mono _ (2 * length tables + 0)); [lia|].
      apply at_most_bind; [apply archive_loop_at_most|].
      intros report. apply quiet_at_most. quiet. }
    apply Hm.
Qed.

End Connections.

(** C6 as worded fails: when the record is found, [get_record_by_id]
    opens two connections, its own and that of [get_table_columns], and
    closes neither. *)
Lemma get_record_by_id_opens_two :
  ~ one_connection_closed (snd (get_record_by_id "books" (VInt 1) found_world)).
Proof.
  unfold one_connection_closed. vm_compute. intros [Hopened _]. discriminate Hopened.
Qed.

Example get_record_by_id_found :
  get_record_by_id "books" (VInt 1) found_world =
    (Ret (Record_found [(VStr "book_id", VInt 1); (VStr "title", VStr "Dune")]),
     Script.play [] [] None,
     [(Connect (env_params found_world), true);
      (Execute 0 primary_key_query (Positional [VStr "books"]), true);
      (Fetchone 0, true);
      (Execute 0 "SELECT * FROM books WHERE book_id = %s" (Positional [VInt 1]), true);
      (Fetchone 0, true);
      (Connect (env_params found_world), true);
      (Execute 1 columns_query (Positional [VStr "books"]), true);
      (Fetchall 1, true);
      (ConnExit 1 false, true);
      (ConnExit 0 false, true)]).
Proof. reflexivity. Qed.

Example get_tables_listed :
  get_tables tables_world =
    (Ret [VStr "authors"; VStr "books"], Script.play [] [] None,
     [(Connect (env_params tables_world), true);
      (Execute 0 tables_query NoParams, true);
      (Fetchall 0, true);
      (Close 0, true)]).
Proof. reflexivity. Qed.

Example connections_per_operation_witness :
  (connect_calls (snd (get_tables tables_world)) = 1
   /\ close_calls (snd (get_tables tables_world))
      = opened (snd (get_tables tables_world)))
  /\ (connect_calls (snd (get_table_columns "books" found_world)) = 1
      /\ close_calls (snd (get_table_columns "books" found_world)) = 0).
Proof.
  split.
  - apply (proj1 (connections_per_operation tables_world)). constructor.
  - apply (proj1 (proj2 (connections_per_operation found_world))). constructor.
Defined.

End Connections.

(** ** Archiving tables *)

Module Archive.
Import Database CRUD Spec Runs.

Section Archive.
Context {W : Type} `{Driver W}.

Lemma purge_after_exports (table : string) :
  emits (fun e => is_export_step e = false)
    (with_connection (fun conn => purge conn table) : M W unit).
Proof.
  apply emits_with_connection; try reflexivity. intros c. quiet.
Qed.

Lemma archive_table_shape (archive_subdir table : string) (w : W) :
  (statements (snd (archive_table archive_subdir table w)) = []
   /\ exists e, fst (fst (archive_table archive_subdir table w)) = Raise e)
  \/ (exists c cmd pgpassword rest,
        snd (archive_table archive_subdir table w)
          = export_prefix archive_subdir table w c cmd pgpassword ++ rest
        /\ is_dump_of table cmd
        /\ Forall (fun e => is_export_step e = false) rest
        /\ match fst (fst (archive_table archive_subdir table w)) with
           | Ret e => entry_name e = table
           | Raise _ => True
           end).
Proof.
  destruct (archive_table archive_subdir table w) as [[result w'] t] eqn:Erun.
  cbn [fst snd]. revert Erun. unfold archive_table.
  unfold bind at 1. rewrite with_connection_run.
  destruct (db_connect (env_params w) w) as [[c|e] w1];
    [|intros [= <- <- <-]; left; cbn; eauto].
  unfold ext at 1.
  destruct (pd_read_sql_query c _ w1) as [[data|e] w2];
    [|intros [= <- <- <-]; left; cbn; eauto].
  cbn [raised negb].
  unfold bind at 1, ext at 1.
  destruct (df_to_excel data _ _) as [[u|e] w3];
    [|intros [= <- <- <-]; left; cbn; eauto].
  unfold bind at 1, ext at 1.
  destruct (df_to_json data _ _) as [[u'|e] w4];
    [|intros [= <- <- <-]; left; cbn; eauto].
  rewrite (bind_silent (getenv "DB_HOST" "localhost") _ w4 _ eq_refl).
  rewrite (bind_silent (getenv "DB_PORT" "5432") _ w4 _ eq_refl).
  rewrite (bind_silent (getenv "DB_USER" "lib_admin") _ w4 _ eq_refl).
  rewrite (bind_silent (getenv "DB_NAME" "library_management") _ w4 _ eq_refl).
  rewrite (bind_silent (getenv "DB_PASSWORD" "securepass123") _ w4 _ eq_refl).
  unfold bind at 1, subprocess_run, ext at 1.
  destruct (proc_spawn _ _ w4) as [[r|e] w5];
    [|intros [= <- <- <-]; left; cbn; eauto].
  cbn [andb]. destruct (negb (returncode r =? 0)%Z);
    [intros [= <- <- <-]; left; cbn; eauto|].
  cbn [raised negb]. unfold bind at 1.
  pose proof (purge_after_exports table w5) as Hrest.
  destruct (with_connection _ w5) as [[[u''|e] w6] rest]; cbn [snd] in Hrest;
    intros [= <- <- <-]; right.
  - eexists c, _, _, (rest ++ []).
    split; [reflexivity|]. split; [do 5 eexists; reflexivity|].
    split; [rewrite app_nil_r; exact Hrest|reflexivity].
  - eexists c, _, _, rest.
    split; [reflexivity|]. split; [do 5 eexists; reflexivity|].
    split; [exact Hrest|exact I].
Qed.


Lemma archive_step_run (archive_subdir table : string) (w : W) :
  archive_step archive_subdir table w =
    match archive_table archive_subdir table w with
    | (Ret e, w1, t) => (Ret e, w1, t)
    | (Raise e, w1, t) =>
        (Ret (NotArchived table (str_exn e)), w1,
         t ++ [(Print ("Ошибка архивации таблицы " +:+ table +:+ ": " +:+ str_exn e),
                true)])
    end.
Proof.
  unfold archive_step, try_except.
  destruct (archive_table archive_subdir table w) as [[[e|e] w1] t]; reflexivity.
Qed.




End Archive.


Example archive_world_statements :
  statements
    (snd (archive_tables ["books"; "book_loans"] "yearly cleanup" archive_world))
  = [ "DELETE FROM book_loans WHERE book_id IN (SELECT book_id FROM books)";
      "DELETE FROM book_authors";
      "DELETE FROM book_genres";
      "DELETE FROM books";
      "DELETE FROM book_loans" ].
Proof. vm_compute. reflexivity. Qed.


Example archive_step_failed_export :
  archive_step "archives/20240101_000000" "fines" disk_full_world =
    (Ret (NotArchived "fines" "No space left on device"),
     Script.play [] [] None,
     [(Connect (env_params disk_full_world), true);
      (ReadSql 0 "SELECT * FROM fines", true);
      (ConnExit 0 false, true);
      (ToExcel "archives/20240101_000000/fines.xlsx", false);
      (Print "Ошибка архивации таблицы fines: No space left on device", true)]).
Proof. reflexivity. Qed.

End Archive.

(** ** The connection context manager *)

Module Bracket.
Import Database CRUD Spec Runs Notions.

Section Bracket.
Context {W : Type} `{Driver W}.

(** X1. [Database.get_connection_context] brackets its body. When the
    connection cannot be opened the exception goes through and neither
    [rollback] nor [close] is called. On an open connection [close] is
    always the last call; after a body that returned nothing else is
    called, and after a body that raised, [rollback] comes first and the
    exception of the body is raised again; when that [rollback] itself
    raises, [close] still runs and the exception of the [rollback] is the
    one raised. *)
Theorem get_connection_context_always_closes {A} (body : conn -> M W A) (w : W) :
  (forall e w1,
     db_connect (env_params w) w = (Raise e, w1) ->
     get_connection_context body w = (Raise e, w1, connect_failed w e))
  /\ (forall c w1 r w2 t,
        db_connect (env_params w) w = (Ret c, w1) ->
        body c w1 = (r, w2, t) ->
        (exists ok, last (snd (get_connection_context body w)) = Some (Close c, ok))
        /\ (forall a w3,
              r = Ret a -> db_close c w2 = (Ret tt, w3) ->
              get_connection_context body w =
                (Ret a, w3, (Connect (env_params w), true) :: t ++ [(Close c, true)]))
        /\ (forall e w3 w4,
              r = Raise e -> db_rollback c w2 = (Ret tt, w3) ->
              db_close c w3 = (Ret tt, w4) ->
              get_connection_context body w =
                (Raise e, w4,
                 (Connect (env_params w), true) :: t
                 ++ [(Rollback c, true); (Close c, true)]))
        /\ (forall e e' w3 w4,
              r = Raise e -> db_rollback c w2 = (Raise e', w3) ->
              db_close c w3 = (Ret tt, w4) ->
              get_connection_context body w =
                (Raise e', w4,
                 (Connect (env_params w), true) :: t
                 ++ [(Rollback c, false); (Close c, true)]))).
Proof.
  split.
  - intros e w1 Hc. rewrite get_connection_context_run, Hc. reflexivity.
  - intros c w1 r w2 t Hc Hb. rewrite get_connection_context_run, Hc.
    unfold finally, try_except, bind, ext, raise. rewrite Hb.
    repeat apply conj.
    + destruct r as [a|e].
      * destruct (db_close c w2) as [[u|e] w3]; cbn; eexists;
          rewrite app_comm_cons, last_snoc; reflexivity.
      * destruct (db_rollback c w2) as [[u|e'] w3]; cbn;
          destruct (db_close c w3) as [[u'|e''] w4]; cbn; eexists;
          rewrite ?app_assoc, app_comm_cons, last_snoc; reflexivity.
    + intros a w3 -> Hx. rewrite Hx. reflexivity.
    + intros e w3 w4 -> Hr Hx. rewrite Hr. cbn. rewrite Hx. cbn.
      rewrite <- app_assoc. reflexivity.
    + intros e e' w3 w4 -> Hr Hx. rewrite Hr. cbn. rewrite Hx. cbn.
      rewrite <- app_assoc. reflexivity.
Qed.

End Bracket.

(** A statement the server rejects: rolled back, closed, raised again. *)
Example get_connection_context_always_closes_witness :
  get_connection_context (fun c => execute c "SELECT * FROM nowhere" NoParams)
    rejecting_world =
    (Raise (OtherException "UndefinedTable" "relation does not exist"),
     Script.play [] [] None,
     [(Connect (env_params rejecting_world), true);
      (Execute 0 "SELECT * FROM nowhere" NoParams, false);
      (Rollback 0, true);
      (Close 0, true)]).
Proof.
  exact (proj1 (proj2 (proj2 (proj2 (get_connection_context_always_closes
                                       (fun c => execute c "SELECT * FROM nowhere" NoParams)
                                       rejecting_world)
                                      0 _ _ _ _ eq_refl eq_refl)))
           _ _ _ eq_refl eq_refl eq_refl).
Defined.

End Bracket.

(** ** Listing tables and pages *)

Module Listing.
Import Database CRUD Spec Runs Notions.

Section Listing.
Context {W : Type} `{Driver W}.

Lemma for_each_first (rows : list row) (firsts : list value) (w : W) :
  Forall2 (fun r v => r !! 0 = Some v) rows firsts ->
  for_each (fun r : row => item r 0) rows w = (Ret firsts, w, []).
Proof.
  induction 1 as [|r v rows firsts Hr _ IH]; [reflexivity|].
  cbn [for_each]. unfold bind at 1, item at 1. unfold row in *. rewrite Hr. cbn [ret].
  rewrite (bind_silent _ _ w _ IH). reflexivity.
Qed.

Lemma row_to_dict_zip {K} `{EqDecision K} (columns : list K) (r : row) (w : W) :
  forall i d,
    i + length r <= length columns ->
    row_to_dict columns i r d w =
      (Ret (fold_left (fun d kv => dict_set (fst kv) (snd kv) d)
              (zip (drop i columns) (map iso_value r)) d), w, []).
Proof.
  induction r as [|v r IH]; intros i d Hlen; cbn [row_to_dict map length] in *.
  - destruct (drop i columns); reflexivity.
  - destruct (lookup_lt_is_Some_2 columns i ltac:(lia)) as [k Hk].
    unfold item. rewrite Hk.
    rewrite (bind_silent _ _ w k eq_refl).
    rewrite IH by lia.
    rewrite (drop_S _ _ _ Hk). reflexivity.
Qed.

Lemma rows_to_page_dicts (names : list string) (rows : list row) (w : W) :
  Forall (fun r => length r <= length names) rows ->
  for_each (fun r => row_to_dict (map VStr names) 0 r []) rows w =
    (Ret (map (page_dict names) rows), w, []).
Proof.
  induction 1 as [|r rows Hr _ IH]; [reflexivity|].
  cbn [for_each map].
  rewrite (bind_silent _ _ w _ (row_to_dict_zip (map VStr names) r w 0 []
                                  ltac:(rewrite length_map; exact Hr))).
  rewrite (bind_silent _ _ w _ IH). reflexivity.
Qed.




(** X2. [get_tables] sends the catalog query and returns the first field
    of every row the catalog answers with, in the order of the rows, and
    the connection is closed before it returns; it has no handler of its
    own, so a failure to connect is raised to the caller. *)
Theorem get_tables_lists_catalog (w : W) :
  (forall e w1,
     db_connect (env_params w) w = (Raise e, w1) ->
     get_tables w = (Raise e, w1, connect_failed w e))
  /\ (forall c w1 w2 w3 w4 rows names,
        db_connect (env_params w) w = (Ret c, w1) ->
        db_execute c tables_query NoParams w1 = (Ret tt, w2) ->
        db_fetchall c w2 = (Ret rows, w3) ->
        Forall2 (fun r name => r !! 0 = Some name) rows names ->
        db_close c w3 = (Ret tt, w4) ->
        get_tables w =
          (Ret names, w4,
           [(Connect (env_params w), true);
            (Execute c tables_query NoParams, true);
            (Fetchall c, true);
            (Close c, true)])).
Proof.
  split.
  - intros e w1 Hc. unfold get_tables. rewrite get_connection_context_run, Hc.
    reflexivity.
  - intros c w1 w2 w3 w4 rows names Hc He Hf Hrows Hx.
    unfold get_tables. rewrite get_connection_context_run, Hc.
    unfold finally, try_except.
    rewrite (bind_ok _ _ _ _ _ _ (execute_ok _ _ _ _ _ He)).
    rewrite (bind_ok _ _ _ _ _ _ (fetchall_ok _ _ _ _ Hf)).
    rewrite (for_each_first _ _ _ Hrows). cbn. unfold ext. rewrite Hx. reflexivity.
Qed.


(** X24. [get_table_data] does not guard against a page size of zero:
    it sends its three statements, the last of them with [LIMIT 0], and
    then raises a [ZeroDivisionError] on the division for [total_pages];
    the transaction is rolled back and the connection closed on the way
    out. *)
Theorem get_table_data_zero_page_size
    (table : string) (page : Z) (w : W) (c : conn)
    (w1 w2 w3 w4 w5 w6 w7 w8 w9 : W) (total : Z) (more : row)
    (names : list string) (rows : list row) :
  db_connect (env_params w) w = (Ret c, w1) ->
  db_execute c ("SELECT COUNT(*) FROM " +:+ table +:+ ";") NoParams w1 = (Ret tt, w2) ->
  db_fetchone c w2 = (Ret (Some (VInt total :: more)), w3) ->
  db_execute c column_names_query (Positional [VStr table]) w3 = (Ret tt, w4) ->
  db_fetchall c w4 = (Ret (map (fun n => [VStr n]) names), w5) ->
  db_execute c (data_query table (VStr (sort_column names)))
    (Positional [VInt 0; VInt 0]) w5 = (Ret tt, w6) ->
  db_fetchall c w6 = (Ret rows, w7) ->
  Forall (fun r => length r <= length names) rows ->
  db_rollback c w7 = (Ret tt, w8) ->
  db_close c w8 = (Ret tt, w9) ->
  exists msg,
    get_table_data table page 0 w =
      (Raise (OtherException "ZeroDivisionError" msg), w9,
       [(Connect (env_params w), true);
        (Execute c ("SELECT COUNT(*) FROM " +:+ table +:+ ";") NoParams, true);
        (Fetchone c, true);
        (Execute c column_names_query (Positional [VStr table]), true);
        (Fetchall c, true);
        (Execute c (data_query table (VStr (sort_column names)))
           (Positional [VInt 0; VInt 0]), true);
        (Fetchall c, true);
        (Rollback c, true);
        (Close c, true)]).
Proof.
  intros Hc H1 H2 H3 H4 H5 H6 Hrows Hr Hx. eexists.
  unfold get_table_data. rewrite get_connection_context_run, Hc.
  unfold finally, try_except.
  rewrite (bind_ok _ _ _ _ _ _ (execute_ok _ _ _ _ _ H1)).
  rewrite (bind_ok _ _ _ _ _ _ (fetchone_0_ok _ _ _ _ _ H2)).
  rewrite (bind_ok _ _ _ _ _ _ (execute_ok _ _ _ _ _ H3)).
  rewrite (bind_ok _ _ _ _ _ _ (fetchall_ok _ _ _ _ H4)).
  rewrite (bind_silent _ _ w5 _ (for_each_first_field names w5)).
  rewrite (bind_silent _ _ w5 _ (choose_sort_column_names names w5)).
  replace ((page - 1) * 0)%Z with 0%Z by lia.
  rewrite (bind_ok _ _ _ _ _ _ (execute_ok _ _ _ _ _ H5)).
  rewrite (bind_ok _ _ _ _ _ _ (fetchall_ok _ _ _ _ H6)).
  rewrite (bind_silent _ _ w7 _ (rows_to_page_dicts names rows w7 Hrows)).
  cbn [int_of]. rewrite (bind_silent (ret total) _ w7 _ eq_refl).
  unfold floordiv. cbn [Z.eqb]. unfold bind at 1, raise at 1. cbn [app].
  unfold bind, ext, raise. rewrite Hr. cbn. rewrite Hx. reflexivity.
Qed.

End Listing.

Example get_tables_lists_catalog_witness :
  get_tables tables_world =
    (Ret [VStr "authors"; VStr "books"], Script.play [] [] None,
     [(Connect (env_params tables_world), true);
      (Execute 0 tables_query NoParams, true);
      (Fetchall 0, true);
      (Close 0, true)]).
Proof.
  exact (proj2 (get_tables_lists_catalog tables_world) 0 _ _ _ _
           [[VStr "authors"]; [VStr "books"]] [VStr "authors"; VStr "books"]
           eq_refl eq_refl eq_refl ltac:(repeat constructor) eq_refl).
Defined.


Example get_table_data_zero_page_size_witness :
  exists msg,
    get_table_data "book_loans" 1 0 empty_page_world =
      (Raise (OtherException "ZeroDivisionError" msg), later 9 empty_page_world,
       [(Connect (env_params empty_page_world), true);
        (Execute 0 ("SELECT COUNT(*) FROM " +:+ "book_loans" +:+ ";") NoParams, true);
        (Fetchone 0, true);
        (Execute 0 column_names_query (Positional [VStr "book_loans"]), true);
        (Fetchall 0, true);
        (Execute 0 (data_query "book_loans" (VStr (sort_column ["loan_id"; "due_date"])))
           (Positional [VInt 0; VInt 0]), true);
        (Fetchall 0, true);
        (Rollback 0, true);
        (Close 0, true)]).
Proof.
  refine (get_table_data_zero_page_size "book_loans" 1 empty_page_world 0
            (later 1 empty_page_world) (later 2 empty_page_world)
            (later 3 empty_page_world) (later 4 empty_page_world)
            (later 5 empty_page_world) (later 6 empty_page_world)
            (later 7 empty_page_world) (later 8 empty_page_world)
            (later 9 empty_page_world) 3 [] ["loan_id"; "due_date"] []
            _ _ _ _ _ _ _ _ _ _);
    first [constructor | vm_compute; reflexivity].
Defined.

End Listing.

(** ** Records: lookup, update, delete *)

Module Lookup.
Import Database CRUD Spec Runs Notions.

Section Lookup.
Context {W : Type} `{Driver W}.

(** *** Runs that return *)

Lemma ext_returns {A} (c : call) (f : W -> outcome A * W) (w w' : W) (a : A) (t : trace) :
  ext c f w = (Ret a, w', t) -> f w = (Ret a, w') /\ t = [(c, true)].
Proof.
  unfold ext. destruct (f w) as [[a0|e] w1]; intros [= <- <- <-]; auto.
Qed.

Lemma bind_returns {A B} (m : M W A) (f : A -> M W B) (w w' : W) (b : B) (t : trace) :
  bind m f w = (Ret b, w', t) ->
  exists a w1 t1 t2,
    m w = (Ret a, w1, t1) /\ f a w1 = (Ret b, w', t2) /\ t = t1 ++ t2.
Proof.
  unfold bind. destruct (m w) as [[[a|e] w1] t1]; [|discriminate].
  destruct (f a w1) as [[r w2] t2] eqn:Ef. intros [= -> <- <-].
  exists a, w1, t1, t2. auto.
Qed.

Lemma try_except_returns {A} (m : M W A) (h : exn -> A) (w w' : W) (a : A) (t : trace) :
  try_except m (fun e => ret (h e)) w = (Ret a, w', t) ->
  m w = (Ret a, w', t) \/ exists e, a = h e.
Proof.
  unfold try_except. destruct (m w) as [[[a0|e] w1] t1]; [auto|].
  cbn. intros [= <- <- <-]. eauto.
Qed.

Lemma context_returns {A} (body : conn -> M W A) (w w' : W) (a : A) (t : trace) :
  get_connection_context body w = (Ret a, w', t) ->
  exists c w1 w2 tb,
    db_connect (env_params w) w = (Ret c, w1)
    /\ body c w1 = (Ret a, w2, tb)
    /\ db_close c w2 = (Ret tt, w')
    /\ t = (Connect (env_params w), true) :: tb ++ [(Close c, true)].
Proof.
  rewrite get_connection_context_run.
  destruct (db_connect _ w) as [[c|e] w1] eqn:Hc; [|discriminate].
  unfold finally, try_except, bind, ext, raise.
  destruct (body c w1) as [[[a0|e] w2] tb] eqn:Hb.
  - destruct (db_close c w2) as [[[]|e] w3] eqn:Hx; intros [= <- <- <-].
    exists c, w1, w2, tb. auto.
  - destruct (db_rollback c w2) as [[u|e'] w3]; cbn;
      destruct (db_close c w3) as [[u'|e''] w4]; discriminate.
Qed.

Lemma handled_never_raises {A} (m : M W A) (h : exn -> A) :
  never_raises (try_except m (fun e => ret (h e))).
Proof.
  intros w. unfold try_except. destruct (m w) as [[[a|e] w1] t1]; cbn; eauto.
Qed.

(** *** Dictionaries built from pairs *)

Lemma dict_get_set {K V} `{EqDecision K} (k k' : K) (v : V) (d : dict K V) :
  dict_get k (dict_set k' v d) = if decide (k = k') then Some v else dict_get k d.
Proof.
  induction d as [|[k0 v0] d IH]; cbn.
  - destruct (decide (k = k')); reflexivity.
  - destruct (decide (k' = k0)) as [->|Hne]; cbn.
    + destruct (decide (k = k0)); reflexivity.
    + destruct (decide (k = k0)) as [->|Hne'].
      * destruct (decide (k0 = k')); [congruence|reflexivity].
      * exact IH.
Qed.

Lemma dict_get_fold {K V} `{EqDecision K} (k : K) (v : V) (pairs : list (K * V)) :
  NoDup (map fst pairs) -> In (k, v) pairs ->
  forall d, dict_get k (fold_left (fun d kv => dict_set (fst kv) (snd kv) d) pairs d)
            = Some v.
Proof.
  induction pairs as [|[k0 v0] pairs IH]; [intros _ []|].
  cbn [map fst]. intros Hnd Hin d. apply NoDup_cons in Hnd as [Hfresh Hnd].
  destruct Hin as [[= -> ->]|Hin].
  - cbn [fold_left fst snd]. clear IH.
    assert (Hkeep : forall d', dict_get k d' = Some v ->
              dict_get k (fold_left (fun d kv => dict_set (fst kv) (snd kv) d) pairs d')
              = Some v).
    { revert Hfresh. clear. induction pairs as [|[k1 v1] pairs IH]; intros Hfresh d' Hd';
        [exact Hd'|].
      cbn [fold_left fst snd]. apply IH.
      - intros Hin. apply Hfresh. cbn. right. exact Hin.
      - rewrite dict_get_set. destruct (decide (k = k1)) as [->|_]; [|exact Hd'].
        exfalso. apply Hfresh. cbn. left. }
    apply Hkeep. rewrite dict_get_set. destruct (decide (k = k)); congruence.
  - cbn [fold_left]. apply IH; assumption.
Qed.

Lemma dict_of_zip_lookup {K V} `{EqDecision K} (ks : list K) (vs : list V)
    (i : nat) (k : K) (v : V) :
  NoDup ks -> ks !! i = Some k -> vs !! i = Some v ->
  dict_get k (dict_of (zip ks vs)) = Some v.
Proof.
  intros Hnd Hk Hv. unfold dict_of. apply dict_get_fold.
  - clear Hk Hv. revert vs. induction Hnd as [|k0 ks Hfresh _ IH]; intros [|v0 vs];
      cbn; try constructor.
    + intros Hin. apply Hfresh. apply list_elem_of_fmap in Hin as ([k1 v1] & -> & Hin).
      apply elem_of_zip_l in Hin. exact Hin.
    + apply IH.
  - apply list_elem_of_In, list_elem_of_lookup. exists i.
    apply lookup_zip_with_Some. eauto.
Qed.

(** X4. When the record exists, [get_record_by_id] reads the columns of
    the table through [get_table_columns], on a second connection, and
    returns the record as the dictionary that pairs the column names, in
    catalog order, with the fields of the row; for distinct column names
    every column is found with the field of its position. *)
Theorem get_record_by_id_pairs_columns
    (table : string) (record_id : value) (w : W) (c c' : conn)
    (w1 w2 w3 w4 w5 w6 w7 w8 : W) (pk_result : option row)
    (field : value) (fields : row) (ccs : list catalog_column) :
  db_connect (env_params w) w = (Ret c, w1) ->
  db_execute c primary_key_query (Positional [VStr table]) w1 = (Ret tt, w2) ->
  db_fetchone c w2 = (Ret pk_result, w3) ->
  db_execute c
    ("SELECT * FROM " +:+ table +:+ " WHERE " +:+ str_value (pk_column_of pk_result)
     +:+ " = %s") (Positional [record_id]) w3 = (Ret tt, w4) ->
  db_fetchone c w4 = (Ret (Some (field :: fields)), w5) ->
  db_connect (env_params w5) w5 = (Ret c', w6) ->
  db_execute c' columns_query (Positional [VStr table]) w6 = (Ret tt, w7) ->
  db_fetchall c' w7 = (Ret (map catalog_row ccs), w8) ->
  let names := map column_name ccs in
  let record := dict_of (zip names (field :: fields)) in
  get_record_by_id table record_id w =
    (Ret (Record_found record),
     db_conn_exit c false (db_conn_exit c' false w8),
     [(Connect (env_params w), true);
      (Execute c primary_key_query (Positional [VStr table]), true);
      (Fetchone c, true);
      (Execute c
         ("SELECT * FROM " +:+ table +:+ " WHERE " +:+ str_value (pk_column_of pk_result)
          +:+ " = %s") (Positional [record_id]), true);
      (Fetchone c, true);
      (Connect (env_params w5), true);
      (Execute c' columns_query (Positional [VStr table]), true);
      (Fetchall c', true);
      (ConnExit c' false, true);
      (ConnExit c false, true)])
  /\ (NoDup names ->
      forall i name v,
        names !! i = Some name -> (field :: fields) !! i = Some v ->
        dict_get name record = Some v).
Proof.
  intros Hc H1 H2 H3 H4 Hc' H5 H6 names record. split.
  - unfold get_record_by_id, try_except. rewrite with_connection_run, Hc.
    rewrite (bind_ok _ _ _ _ _ _ (execute_ok _ _ _ _ _ H1)).
    rewrite (bind_ok _ _ _ _ _ _ (fetchone_ok _ _ _ _ H2)).
    rewrite (bind_silent _ _ w3 _ (Records.first_or_id_run pk_result w3)).
    rewrite (bind_ok _ _ _ _ _ _ (execute_ok _ _ _ _ _ H3)).
    rewrite (bind_ok _ _ _ _ _ _ (fetchone_ok _ _ _ _ H4)).
    assert (Hcols : get_table_columns table w5 =
              (Ret (map mirror ccs), db_conn_exit c' false w8,
               [(Connect (env_params w5), true);
                (Execute c' columns_query (Positional [VStr table]), true);
                (Fetchall c', true);
                (ConnExit c' false, true)])).
    { unfold get_table_columns. rewrite with_connection_run, Hc'.
      rewrite (bind_ok _ _ _ _ _ _ (execute_ok _ _ _ _ _ H5)).
      rewrite (bind_ok _ _ _ _ _ _ (fetchall_ok _ _ _ _ H6)).
      rewrite for_each_column_of_row. reflexivity. }
    rewrite (bind_ok _ _ _ _ _ _ Hcols). cbn [ret app raised].
    unfold record, names. rewrite List.map_map. reflexivity.
  - intros Hnd i name v Hname Hv. exact (dict_of_zip_lookup _ _ i _ _ Hnd Hname Hv).
Qed.

(** X5. [get_record_by_id], [update_record] and [delete_record] never
    raise: whatever a call to the database does, they return; and when the
    connection cannot be opened they return the failure that carries the
    text of the exception. *)
Theorem record_operations_never_raise
    (table : string) (record_id : value) (data : dict string value) :
  never_raises (get_record_by_id table record_id : M W _)
  /\ never_raises (update_record table record_id data : M W _)
  /\ never_raises (delete_record table record_id : M W _)
  /\ (forall w e w1,
        db_connect (env_params w) w = (Raise e, w1) ->
        get_record_by_id table record_id w
          = (Ret (Record_failed (str_exn e)), w1, connect_failed w e)
        /\ update_record table record_id data w
           = (Ret (Failure (str_exn e)), w1, connect_failed w e)
        /\ delete_record table record_id w
           = (Ret (Failure (str_exn e)), w1, connect_failed w e)).
Proof.
  repeat apply conj; try apply handled_never_raises.
  intros w e w1 Hc. repeat apply conj.
  - unfold get_record_by_id, try_except. rewrite with_connection_run, Hc. cbn.
    rewrite ?app_nil_r. reflexivity.
  - unfold update_record, try_except. rewrite get_connection_context_run, Hc. cbn.
    rewrite ?app_nil_r. reflexivity.
  - unfold delete_record, try_except. rewrite get_connection_context_run, Hc. cbn.
    rewrite ?app_nil_r. reflexivity.
Qed.

(** X6. [update_record] and [delete_record] report success only after
    everything has completed: the connection was opened, the key column
    read, the statement executed with its parameters (the written values
    followed by the record id; the record id alone), the transaction
    committed and the connection closed, in this order and with no other
    call. *)
Theorem record_changes_succeed_committed
    (table : string) (record_id : value) (data : dict string value)
    (w w' : W) (message : string) (t : trace) :
  (update_record table record_id data w = (Ret (Success message), w', t) ->
   exists c pk_result,
     let pk := pk_column_of pk_result in
     t = [(Connect (env_params w), true);
          (Execute c primary_key_query (Positional [VStr table]), true);
          (Fetchone c, true);
          (Execute c (update_statement table pk (map fst (updatable pk data)))
             (Positional (map snd (updatable pk data) ++ [record_id])), true);
          (Commit c, true);
          (Close c, true)]
     /\ updatable pk data <> [])
  /\ (delete_record table record_id w = (Ret (Success message), w', t) ->
      exists c pk_result,
        t = [(Connect (env_params w), true);
             (Execute c primary_key_query (Positional [VStr table]), true);
             (Fetchone c, true);
             (Execute c (delete_statement table (pk_column_of pk_result))
                (Positional [record_id]), true);
             (Commit c, true);
             (Close c, true)]).
Proof.
  split.
  - unfold update_record. intros Hrun.
    apply try_except_returns in Hrun as [Hrun|[e He]]; [|discriminate He].
    apply context_returns in Hrun as (c & w1 & w2 & tb & Hc & Hbody & Hx & ->).
    apply bind_returns in Hbody as ([] & w3 & t1 & t2 & He1 & Hbody & ->).
    apply ext_returns in He1 as [He1 ->].
    apply bind_returns in Hbody as (pk_result & w4 & t1 & t3 & Hf & Hbody & ->).
    apply ext_returns in Hf as [Hf ->].
    rewrite (bind_silent _ _ w4 _ (Records.first_or_id_run pk_result w4)) in Hbody.
    rewrite Records.set_clause_updatable in Hbody. cbn [app] in Hbody.
    exists c, pk_result. cbn zeta.
    destruct (updatable (pk_column_of pk_result) data) as [|[k v] kept] eqn:Hkept;
      [discriminate Hbody|].
    cbn [map] in Hbody.
    apply bind_returns in Hbody as ([] & w5 & t1 & t4 & He2 & Hbody & ->).
    apply ext_returns in He2 as [He2 ->].
    apply bind_returns in Hbody as ([] & w6 & t1 & t5 & Hcm & Hbody & ->).
    apply ext_returns in Hcm as [Hcm ->].
    injection Hbody as _ _ <-.
    split; [|discriminate].
    unfold update_statement. cbn [map fst snd app]. rewrite List.map_map. reflexivity.
  - unfold delete_record. intros Hrun.
    apply try_except_returns in Hrun as [Hrun|[e He]]; [|discriminate He].
    apply context_returns in Hrun as (c & w1 & w2 & tb & Hc & Hbody & Hx & ->).
    apply bind_returns in Hbody as ([] & w3 & t1 & t2 & He1 & Hbody & ->).
    apply ext_returns in He1 as [He1 ->].
    apply bind_returns in Hbody as (pk_result & w4 & t1 & t3 & Hf & Hbody & ->).
    apply ext_returns in Hf as [Hf ->].
    rewrite (bind_silent _ _ w4 _ (Records.first_or_id_run pk_result w4)) in Hbody.
    apply bind_returns in Hbody as ([] & w5 & t1 & t4 & He2 & Hbody & ->).
    apply ext_returns in He2 as [He2 ->].
    apply bind_returns in Hbody as ([] & w6 & t1 & t5 & Hcm & Hbody & ->).
    apply ext_returns in Hcm as [Hcm ->].
    injection Hbody as _ _ <-.
    exists c, pk_result. reflexivity.
Qed.

(** X7. When the server rejects the [DELETE] of [delete_record], the
    transaction is rolled back, the connection closed, and the operation
    returns the failure with the text of the exception; [commit] is not
    called. *)
Theorem delete_record_rolls_back
    (table : string) (record_id : value) (w : W) (c : conn)
    (w1 w2 w3 w4 w5 w6 : W) (pk_result : option row) (e : exn) :
  db_connect (env_params w) w = (Ret c, w1) ->
  db_execute c primary_key_query (Positional [VStr table]) w1 = (Ret tt, w2) ->
  db_fetchone c w2 = (Ret pk_result, w3) ->
  db_execute c (delete_statement table (pk_column_of pk_result))
    (Positional [record_id]) w3 = (Raise e, w4) ->
  db_rollback c w4 = (Ret tt, w5) ->
  db_close c w5 = (Ret tt, w6) ->
  delete_record table record_id w =
    (Ret (Failure (str_exn e)), w6,
     [(Connect (env_params w), true);
      (Execute c primary_key_query (Positional [VStr table]), true);
      (Fetchone c, true);
      (Execute c (delete_statement table (pk_column_of pk_result))
         (Positional [record_id]), false);
      (Rollback c, true);
      (Close c, true)]).
Proof.
  intros Hc H1 H2 H3 Hr Hx.
  unfold delete_record. unfold try_except at 1.
  rewrite get_connection_context_run, Hc. unfold finally, try_except.
  rewrite (bind_ok _ _ _ _ _ _ (execute_ok _ _ _ _ _ H1)).
  rewrite (bind_ok _ _ _ _ _ _ (fetchone_ok _ _ _ _ H2)).
  rewrite (bind_silent _ _ w3 _ (Records.first_or_id_run pk_result w3)).
  fold (delete_statement table (pk_column_of pk_result)).
  rewrite (bind_fail _ _ _ _ _ _ (Sql.execute_fail _ _ _ _ _ _ H3)).
  cbn. unfold bind, ext. rewrite Hr. cbn. rewrite Hx. reflexivity.
Qed.

(** X23. When the query for the record answers with no row,
    [get_record_by_id] returns [None]: it does not read the columns of the
    table, and the connection of the lookup is the only one it opens. *)
Theorem get_record_by_id_not_found
    (table : string) (record_id : value) (w : W) (c : conn)
    (w1 w2 w3 w4 w5 : W) (pk_result : option row) :
  db_connect (env_params w) w = (Ret c, w1) ->
  db_execute c primary_key_query (Positional [VStr table]) w1 = (Ret tt, w2) ->
  db_fetchone c w2 = (Ret pk_result, w3) ->
  db_execute c
    ("SELECT * FROM " +:+ table +:+ " WHERE " +:+ str_value (pk_column_of pk_result)
     +:+ " = %s") (Positional [record_id]) w3 = (Ret tt, w4) ->
  db_fetchone c w4 = (Ret None, w5) ->
  get_record_by_id table record_id w =
    (Ret Record_none, db_conn_exit c false w5,
     [(Connect (env_params w), true);
      (Execute c primary_key_query (Positional [VStr table]), true);
      (Fetchone c, true);
      (Execute c
         ("SELECT * FROM " +:+ table +:+ " WHERE " +:+ str_value (pk_column_of pk_result)
          +:+ " = %s") (Positional [record_id]), true);
      (Fetchone c, true);
      (ConnExit c false, true)]).
Proof.
  intros Hc H1 H2 H3 H4.
  unfold get_record_by_id, try_except. rewrite with_connection_run, Hc.
  rewrite (bind_ok _ _ _ _ _ _ (execute_ok _ _ _ _ _ H1)).
  rewrite (bind_ok _ _ _ _ _ _ (fetchone_ok _ _ _ _ H2)).
  rewrite (bind_silent _ _ w3 _ (Records.first_or_id_run pk_result w3)).
  rewrite (bind_ok _ _ _ _ _ _ (execute_ok _ _ _ _ _ H3)).
  rewrite (bind_ok _ _ _ _ _ _ (fetchone_ok _ _ _ _ H4)).
  reflexivity.
Qed.

End Lookup.

(** The book with key 1, found and paired with the two columns of its
    table. *)
Example get_record_by_id_pairs_columns_witness :
  get_record_by_id "books" (VInt 1) found_world =
    (Ret (Record_found [(VStr "book_id", VInt 1); (VStr "title", VStr "Dune")]),
     Script.play [] [] None,
     [(Connect (env_params found_world), true);
      (Execute 0 primary_key_query (Positional [VStr "books"]), true);
      (Fetchone 0, true);
      (Execute 0 "SELECT * FROM books WHERE book_id = %s" (Positional [VInt 1]), true);
      (Fetchone 0, true);
      (Connect (env_params found_world), true);
      (Execute 1 columns_query (Positional [VStr "books"]), true);
      (Fetchall 1, true);
      (ConnExit 1 false, true);
      (ConnExit 0 false, true)]).
Proof.
  refine (proj1 (get_record_by_id_pairs_columns "books" (VInt 1) found_world 0 1
                   (later 1 found_world) (later 2 found_world) (later 3 found_world)
                   (later 4 found_world) (later 5 found_world) (later 6 found_world)
                   (later 7 found_world) (later 8 found_world)
                   (Some [VStr "book_id"]) (VInt 1) [VStr "Dune"]
                   [ {| column_name := VStr "book_id"; data_type := VStr "integer";
                        is_nullable := VStr "NO"; column_default := VNone |};
                     {| column_name := VStr "title"; data_type := VStr "text";
                        is_nullable := VStr "NO"; column_default := VNone |} ]
                   _ _ _ _ _ _ _ _));
    vm_compute; reflexivity.
Defined.

(** The server cannot be reached: the three operations return the
    failure. *)
Example record_operations_never_raise_witness :
  get_record_by_id "books" (VInt 1) unreachable
    = (Ret (Record_failed "connection refused"), later 1 unreachable,
       connect_failed unreachable (OtherException "OperationalError" "connection refused"))
  /\ update_record "books" (VInt 1) [("title", VStr "Dune")] unreachable
     = (Ret (Failure "connection refused"), later 1 unreachable,
        connect_failed unreachable (OtherException "OperationalError" "connection refused"))
  /\ delete_record "books" (VInt 1) unreachable
     = (Ret (Failure "connection refused"), later 1 unreachable,
        connect_failed unreachable (OtherException "OperationalError" "connection refused")).
Proof.
  refine (proj2 (proj2 (proj2 (record_operations_never_raise "books" (VInt 1)
                                 [("title", VStr "Dune")])))
            unreachable (OtherException "OperationalError" "connection refused")
            (later 1 unreachable) _).
  vm_compute. reflexivity.
Defined.

(** The loan with key 12 is deleted: six calls, all of them completed. *)
Example record_changes_succeed_committed_witness :
  exists c pk_result,
    [(Connect (env_params loan_world), true);
     (Execute 0 primary_key_query (Positional [VStr "book_loans"]), true);
     (Fetchone 0, true);
     (Execute 0 "DELETE FROM book_loans WHERE loan_id = %s" (Positional [VInt 12]), true);
     (Commit 0, true);
     (Close 0, true)]
    = [(Connect (env_params loan_world), true);
       (Execute c primary_key_query (Positional [VStr "book_loans"]), true);
       (Fetchone c, true);
       (Execute c (delete_statement "book_loans" (pk_column_of pk_result))
          (Positional [VInt 12]), true);
       (Commit c, true);
       (Close c, true)].
Proof.
  refine (proj2 (record_changes_succeed_committed "book_loans" (VInt 12) []
                   loan_world (later 6 loan_world) "Запись успешно удалена" _) _).
  vm_compute. reflexivity.
Defined.

Example delete_record_rolls_back_witness :
  delete_record "book_loans" (VInt 12) referenced_world =
    (Ret (Failure "update or delete on table book_loans violates foreign key constraint"),
     Script.play [] [] None,
     [(Connect (env_params referenced_world), true);
      (Execute 0 primary_key_query (Positional [VStr "book_loans"]), true);
      (Fetchone 0, true);
      (Execute 0 "DELETE FROM book_loans WHERE loan_id = %s" (Positional [VInt 12]), false);
      (Rollback 0, true);
      (Close 0, true)]).
Proof.
  refine (delete_record_rolls_back "book_loans" (VInt 12) referenced_world 0
            (later 1 referenced_world) (later 2 referenced_world)
            (later 3 referenced_world) (later 4 referenced_world)
            (later 5 referenced_world) (later 6 referenced_world)
            (Some [VStr "loan_id"])
            (OtherException "ForeignKeyViolation"
               "update or delete on table book_loans violates foreign key constraint")
            _ _ _ _ _ _);
    vm_compute; reflexivity.
Defined.

(** No loan has the key 99. *)
Example get_record_by_id_not_found_witness :
  get_record_by_id "book_loans" (VInt 99) missing_loan_world =
    (Ret Record_none, later 5 missing_loan_world,
     [(Connect (env_params missing_loan_world), true);
      (Execute 0 primary_key_query (Positional [VStr "book_loans"]), true);
      (Fetchone 0, true);
      (Execute 0 "SELECT * FROM book_loans WHERE loan_id = %s" (Positional [VInt 99]),
       true);
      (Fetchone 0, true);
      (ConnExit 0 false, true)]).
Proof.
  refine (get_record_by_id_not_found "book_loans" (VInt 99) missing_loan_world 0
            (later 1 missing_loan_world) (later 2 missing_loan_world)
            (later 3 missing_loan_world) (later 4 missing_loan_world)
            (later 5 missing_loan_world) (Some [VStr "loan_id"]) _ _ _ _ _);
    vm_compute; reflexivity.
Defined.

End Lookup.

(** ** Changing rows by condition *)

Module Changes.
Import Database CRUD Spec Runs Notions.

Section Changes.
Context {W : Type} `{Driver W}.

Lemma filled_spec (data : dict string value) (k : string) (v : value) :
  In (k, v) (filled data) <-> In (k, v) data /\ v <> VStr "" /\ v <> VNone.
Proof.
  unfold filled. rewrite <- !list_elem_of_In, list_elem_of_filter. cbn.
  rewrite Records.has_content_decide.
  split.
  - intros [Hb Hin]. apply andb_prop in Hb as [H1 H2].
    apply negb_true_iff, bool_decide_eq_false in H1, H2. auto.
  - intros (Hin & H1 & H2). split; [|exact Hin].
    apply andb_true_intro. split; apply negb_true_iff, bool_decide_eq_false; assumption.
Qed.

Lemma insert_data_run (table : string) (data : dict string value) (w : W) :
  filled data <> [] ->
  insert_data table data w =
    with_connection (fun conn =>
      try_except
        (execute conn (insert_statement table (filled data))
           (Positional (map snd (filled data)));;
         let! result := fetchone conn in
         commit conn;;
         let! description := ask (db_description conn) in
         let! d := zip_description description result in
         ret (Inserted d))
        (fun e =>
           rollback conn;;
           print ("Ошибка вставки данных: " +:+ str_exn e);;
           ret (Change_failed (str_exn e) None))) w.
Proof.
  intros Hne. unfold insert_data, insert_statement.
  destruct (filled data) as [|[k v] rest]; [contradiction|].
  cbn [map length]. rewrite length_map. reflexivity.
Qed.

Lemma update_data_run (table : string) (data condition : dict string value) (w : W) :
  filled data <> [] -> condition <> [] ->
  update_data table data condition w =
    with_connection (fun conn =>
      try_except
        (execute conn (update_where_statement table (filled data) condition)
           (Positional (map snd (filled data) ++ map snd condition));;
         let! result := fetchall conn in
         commit conn;;
         let! description := ask (db_description conn) in
         let! updated_data := rows_to_dicts description result in
         let! rowcount := ask (db_rowcount conn) in
         ret (Updated rowcount updated_data))
        (fun e =>
           rollback conn;;
           print ("Ошибка обновления данных: " +:+ str_exn e);;
           ret (Change_failed (str_exn e) None))) w.
Proof.
  intros Hd Hc. unfold update_data, update_where_statement, assignments.
  destruct (filled data) as [|[k v] rest]; [contradiction|].
  destruct condition as [|[k' v'] condition]; [contradiction|].
  reflexivity.
Qed.

Lemma delete_where_run (c : conn) (table : string) (condition : dict string value) :
  condition <> [] ->
  delete_where c table condition =
    (execute c (delete_where_statement table condition) (Positional (map snd condition));;
     let! result := fetchall c in
     commit c;;
     let! description := ask (db_description c) in
     let! deleted_data := rows_to_dicts description result in
     let! rowcount := ask (db_rowcount c) in
     ret (Deleted rowcount deleted_data) : M W change_result).
Proof.
  intros Hc. unfold delete_where, delete_where_statement, assignments.
  destruct condition as [|[k' v'] condition]; [contradiction|]. reflexivity.
Qed.

Lemma commit_ok (c : conn) (w w1 : W) :
  db_commit c w = (Ret tt, w1) -> commit c w = (Ret tt, w1, [(Commit c, true)]).
Proof. apply ext_ok. Qed.

Lemma rollback_ok (c : conn) (w w1 : W) :
  db_rollback c w = (Ret tt, w1) -> rollback c w = (Ret tt, w1, [(Rollback c, true)]).
Proof. apply ext_ok. Qed.

(** X8. [insert_data] inserts the entries of [data] whose value is
    neither the empty string nor [None]: the statement names their keys,
    has one placeholder for each, and is sent with their values, in the
    order of [data]. When every call completes, the transaction is
    committed and the row the statement returned comes back as a
    dictionary from the column names of the cursor to its fields. *)
Theorem insert_data_inserts_filled
    (table : string) (data : dict string value) (w : W) (c : conn)
    (w1 w2 w3 w4 : W) (names : list string) (r : row) :
  filled data <> [] ->
  db_connect (env_params w) w = (Ret c, w1) ->
  db_execute c (insert_statement table (filled data))
    (Positional (map snd (filled data))) w1 = (Ret tt, w2) ->
  db_fetchone c w2 = (Ret (Some r), w3) ->
  db_commit c w3 = (Ret tt, w4) ->
  db_description c w4 = Some names ->
  insert_data table data w =
    (Ret (Inserted (plain_dict names r)), db_conn_exit c false w4,
     [(Connect (env_params w), true);
      (Execute c (insert_statement table (filled data))
         (Positional (map snd (filled data))), true);
      (Fetchone c, true);
      (Commit c, true);
      (ConnExit c false, true)])
  /\ (forall k v, In (k, v) (filled data) <-> In (k, v) data /\ v <> VStr "" /\ v <> VNone).
Proof.
  intros Hne Hc He Hf Hcm Hd. split; [|apply filled_spec].
  rewrite (insert_data_run _ _ _ Hne), with_connection_run, Hc. unfold try_except.
  rewrite (bind_ok _ _ _ _ _ _ (execute_ok _ _ _ _ _ He)).
  rewrite (bind_ok _ _ _ _ _ _ (fetchone_ok _ _ _ _ Hf)).
  rewrite (bind_ok _ _ _ _ _ _ (commit_ok _ _ _ Hcm)).
  rewrite (bind_silent (ask (db_description c)) _ w4 _ eq_refl), Hd.
  reflexivity.
Qed.

(** X9. When the server rejects the [INSERT], [insert_data] rolls the
    transaction back, prints the error and returns the failure with the
    text of the exception; it neither fetches nor commits. *)
Theorem insert_data_rolls_back
    (table : string) (data : dict string value) (w : W) (c : conn)
    (w1 w2 w3 : W) (e : exn) :
  filled data <> [] ->
  db_connect (env_params w) w = (Ret c, w1) ->
  db_execute c (insert_statement table (filled data))
    (Positional (map snd (filled data))) w1 = (Raise e, w2) ->
  db_rollback c w2 = (Ret tt, w3) ->
  insert_data table data w =
    (Ret (Change_failed (str_exn e) None), db_conn_exit c false w3,
     [(Connect (env_params w), true);
      (Execute c (insert_statement table (filled data))
         (Positional (map snd (filled data))), false);
      (Rollback c, true);
      (Print ("Ошибка вставки данных: " +:+ str_exn e), true);
      (ConnExit c false, true)]).
Proof.
  intros Hne Hc He Hr.
  rewrite (insert_data_run _ _ _ Hne), with_connection_run, Hc. unfold try_except.
  rewrite (bind_fail _ _ _ _ _ _ (Sql.execute_fail _ _ _ _ _ _ He)).
  rewrite (bind_ok _ _ _ _ _ _ (rollback_ok _ _ _ Hr)). reflexivity.
Qed.

(** X10. [update_data] sets the entries of [data] whose value is neither
    the empty string nor [None] on the rows that match every entry of
    [condition]: the parameters are the written values followed by the
    values of the condition. When every call completes, the transaction
    is committed and the operation returns the row count of the cursor
    and the rows the statement returned, as dictionaries. *)
Theorem update_data_updates_where
    (table : string) (data condition : dict string value) (w : W) (c : conn)
    (w1 w2 w3 w4 : W) (names : list string) (rows : list row) :
  filled data <> [] -> condition <> [] ->
  db_connect (env_params w) w = (Ret c, w1) ->
  db_execute c (update_where_statement table (filled data) condition)
    (Positional (map snd (filled data) ++ map snd condition)) w1 = (Ret tt, w2) ->
  db_fetchall c w2 = (Ret rows, w3) ->
  db_commit c w3 = (Ret tt, w4) ->
  db_description c w4 = Some names ->
  update_data table data condition w =
    (Ret (Updated (db_rowcount c w4) (map (plain_dict names) rows)),
     db_conn_exit c false w4,
     [(Connect (env_params w), true);
      (Execute c (update_where_statement table (filled data) condition)
         (Positional (map snd (filled data) ++ map snd condition)), true);
      (Fetchall c, true);
      (Commit c, true);
      (ConnExit c false, true)]).
Proof.
  intros Hne Hcond Hc He Hf Hcm Hd.
  rewrite (update_data_run _ _ _ _ Hne Hcond), with_connection_run, Hc.
  unfold try_except.
  rewrite (bind_ok _ _ _ _ _ _ (execute_ok _ _ _ _ _ He)).
  rewrite (bind_ok _ _ _ _ _ _ (fetchall_ok _ _ _ _ Hf)).
  rewrite (bind_ok _ _ _ _ _ _ (commit_ok _ _ _ Hcm)).
  rewrite (bind_silent (ask (db_description c)) _ w4 _ eq_refl), Hd.
  reflexivity.
Qed.

Lemma no_delete_statements (t : trace) :
  Forall (fun e => no_delete e = true) t ->
  Forall (fun q => Py.contains "DELETE" q = false) (statements t).
Proof.
  induction 1 as [|[x ok] t Hx _ IH]; [constructor|].
  destruct x; cbn [statements]; try exact IH.
  constructor; [|exact IH]. cbn in Hx. apply negb_true_iff in Hx. exact Hx.
Qed.

(** X11. In every world, the change operations send nothing they cannot
    qualify: without a value to write, [insert_data] and [update_data]
    send no statement at all; without a condition, [update_data] sends no
    statement and [delete_data] sends no [DELETE] (at most the query that
    counts dependent records). *)
Theorem changes_need_values_and_conditions
    (table : string) (data condition : dict string value) (w : W) :
  (filled data = [] ->
   statements (snd (insert_data table data w)) = []
   /\ statements (snd (update_data table data condition w)) = [])
  /\ statements (snd (update_data table data [] w)) = []
  /\ Forall (fun q => Py.contains "DELETE" q = false)
       (statements (snd (delete_data table [] w))).
Proof.
  assert (Hquiet : forall A (body : conn -> M W A),
            (forall c, emits (fun e => is_execute e = false) (body c)) ->
            statements (snd (with_connection body w)) = []).
  { intros A body Hb. apply statements_none.
    apply (emits_with_connection (fun e => is_execute e = false)); auto. }
  repeat apply conj.
  - intros Hnone. split.
    + unfold insert_data. rewrite Hnone. apply Hquiet. intros c. cbn [map]. quiet.
    + unfold update_data. rewrite Hnone. apply Hquiet. intros c. cbn [map]. quiet.
  - unfold update_data. apply Hquiet. intros c. cbn [map]. quiet.
  - apply no_delete_statements.
    apply (emits_with_connection (fun e => no_delete e = true)); auto.
    intros c.
    assert (Hwhere : delete_where c table [] =
                       (ret (Change_failed "Не указаны условия для удаления" None)
                        : M W change_result)) by reflexivity.
    rewrite Hwhere. quiet.
Qed.

Lemma unguarded (table : string) :
  dependency_of table = None -> bool_decide (table ∈ guarded_tables) = false.
Proof.
  unfold dependency_of, guarded_tables. intros Hd.
  apply bool_decide_eq_false. rewrite list_elem_of_In. cbn.
  intros [<-|[<-|[<-|[<-|[]]]]]; discriminate Hd.
Qed.

(** X12. [delete_data] deletes the rows that match every entry of a
    non-empty [condition] when nothing stands against it: at once for a
    table without dependency check, and after the count for [authors],
    [genres], [publishers] and [readers] when the count is not positive.
    When every call completes, the transaction is committed and the
    operation returns the row count of the cursor and the deleted rows as
    dictionaries. *)
Theorem delete_data_deletes_where
    (table : string) (condition : dict string value) (w : W) (c : conn)
    (w1 w2 w3 w4 w5 w6 : W) (names : list string) (rows : list row) :
  condition <> [] ->
  db_connect (env_params w) w = (Ret c, w1) ->
  db_execute c (delete_where_statement table condition)
    (Positional (map snd condition)) w3 = (Ret tt, w4) ->
  db_fetchall c w4 = (Ret rows, w5) ->
  db_commit c w5 = (Ret tt, w6) ->
  db_description c w6 = Some names ->
  let deleted := Deleted (db_rowcount c w6) (map (plain_dict names) rows) in
  let deletion :=
    [(Execute c (delete_where_statement table condition)
        (Positional (map snd condition)), true);
     (Fetchall c, true);
     (Commit c, true);
     (ConnExit c false, true)] in
  (dependency_of table = None -> w3 = w1 ->
   delete_data table condition w =
     (Ret deleted, db_conn_exit c false w6,
      (Connect (env_params w), true) :: deletion))
  /\ (forall d n more,
        dependency_of table = Some d ->
        db_execute c (dep_query d) (Positional [condition_get condition (dep_key d)]) w1
          = (Ret tt, w2) ->
        db_fetchone c w2 = (Ret (Some (VInt n :: more)), w3) ->
        (n <= 0)%Z ->
        delete_data table condition w =
          (Ret deleted, db_conn_exit c false w6,
           (Connect (env_params w), true)
           :: (Execute c (dep_query d)
                 (Positional [condition_get condition (dep_key d)]), true)
           :: (Fetchone c, true) :: deletion)).
Proof.
  intros Hcond Hc He Hf Hcm Hd deleted deletion.
  assert (Hdel : delete_where c table condition w3 =
                   (Ret deleted, w6,
                    [(Execute c (delete_where_statement table condition)
                        (Positional (map snd condition)), true);
                     (Fetchall c, true);
                     (Commit c, true)])).
  { rewrite (delete_where_run _ _ _ Hcond).
    rewrite (bind_ok _ _ _ _ _ _ (execute_ok _ _ _ _ _ He)).
    rewrite (bind_ok _ _ _ _ _ _ (fetchall_ok _ _ _ _ Hf)).
    rewrite (bind_ok _ _ _ _ _ _ (commit_ok _ _ _ Hcm)).
    rewrite (bind_silent (ask (db_description c)) _ w6 _ eq_refl), Hd.
    reflexivity. }
  split.
  - intros Hnone ->. unfold delete_data. rewrite with_connection_run, Hc.
    unfold try_except. rewrite (unguarded _ Hnone), Hdel. reflexivity.
  - intros d n more Hsome Hq Hcount Hn.
    unfold delete_data. rewrite with_connection_run, Hc. unfold try_except.
    rewrite (bool_decide_eq_true_2 _ (Records.guarded_dependency _ _ Hsome)).
    rewrite (bind_ok _ _ _ _ _ _
               (Records.count_dependencies_run _ _ _ _ _ _ _ _ _ Hsome Hq Hcount)).
    assert (Hany : any_positive (map snd [(dep_name d, VInt n)]) w3
                   = (Ret false, w3, [])).
    { cbn. unfold bind. cbn.
      assert ((0 <? n)%Z = false) as -> by (apply Z.ltb_ge; exact Hn).
      reflexivity. }
    rewrite (bind_silent _ _ w3 _ Hany), Hdel. reflexivity.
Qed.

End Changes.

(** Of the three fields of the form only [last_name] is inserted. *)
Example insert_data_inserts_filled_witness :
  insert_data "authors" author_form author_world =
    (Ret (Inserted [("author_id", VInt 5); ("last_name", VStr "Le Guin")]),
     later 4 author_world,
     [(Connect (env_params author_world), true);
      (Execute 0 (insert_statement "authors" [("last_name", VStr "Le Guin")])
         (Positional [VStr "Le Guin"]), true);
      (Fetchone 0, true);
      (Commit 0, true);
      (ConnExit 0 false, true)]).
Proof.
  refine (proj1 (insert_data_inserts_filled "authors" author_form author_world 0
                   (later 1 author_world) (later 2 author_world)
                   (later 3 author_world) (later 4 author_world)
                   ["author_id"; "last_name"] [VInt 5; VStr "Le Guin"]
                   _ _ _ _ _ _));
    first [discriminate | vm_compute; reflexivity].
Defined.

Example insert_data_rolls_back_witness :
  insert_data "authors" author_form unnamed_author_world =
    (Ret (Change_failed "null value in column first_name violates not-null constraint"
            None),
     later 3 unnamed_author_world,
     [(Connect (env_params unnamed_author_world), true);
      (Execute 0 (insert_statement "authors" [("last_name", VStr "Le Guin")])
         (Positional [VStr "Le Guin"]), false);
      (Rollback 0, true);
      (Print ("Ошибка вставки данных: "
              +:+ "null value in column first_name violates not-null constraint"), true);
      (ConnExit 0 false, true)]).
Proof.
  refine (insert_data_rolls_back "authors" author_form unnamed_author_world 0
            (later 1 unnamed_author_world) (later 2 unnamed_author_world)
            (later 3 unnamed_author_world)
            (OtherException "NotNullViolation"
               "null value in column first_name violates not-null constraint")
            _ _ _ _);
    first [discriminate | vm_compute; reflexivity].
Defined.

Example update_data_updates_where_witness :
  update_data "authors" [("first_name", VStr "Ursula"); ("biography", VStr "")]
    [("author_id", VInt 5)] renamed_world =
    (Ret (Updated 0 [[("author_id", VInt 5); ("first_name", VStr "Ursula")]]),
     later 4 renamed_world,
     [(Connect (env_params renamed_world), true);
      (Execute 0
         (update_where_statement "authors" [("first_name", VStr "Ursula")]
            [("author_id", VInt 5)])
         (Positional [VStr "Ursula"; VInt 5]), true);
      (Fetchall 0, true);
      (Commit 0, true);
      (ConnExit 0 false, true)]).
Proof.
  refine (update_data_updates_where "authors"
            [("first_name", VStr "Ursula"); ("biography", VStr "")]
            [("author_id", VInt 5)] renamed_world 0
            (later 1 renamed_world) (later 2 renamed_world)
            (later 3 renamed_world) (later 4 renamed_world)
            ["author_id"; "first_name"] [[VInt 5; VStr "Ursula"]]
            _ _ _ _ _ _ _);
    first [discriminate | vm_compute; reflexivity].
Defined.

(** With everything empty, nothing is sent. *)
Example changes_need_values_and_conditions_witness :
  statements (snd (insert_data "authors" [("biography", VStr "")] author_world)) = []
  /\ statements (snd (update_data "authors" [("biography", VStr "")]
                        [("author_id", VInt 5)] author_world)) = [].
Proof.
  exact (proj1 (changes_need_values_and_conditions "authors" [("biography", VStr "")]
                  [("author_id", VInt 5)] author_world) eq_refl).
Defined.

(** [fines] has no dependency check: the fine is deleted at once. *)
Example delete_data_deletes_where_witness :
  delete_data "fines" [("fine_id", VInt 3)] fine_world =
    (Ret (Deleted 0 [[("fine_id", VInt 3)]]), later 4 fine_world,
     [(Connect (env_params fine_world), true);
      (Execute 0 (delete_where_statement "fines" [("fine_id", VInt 3)])
         (Positional [VInt 3]), true);
      (Fetchall 0, true);
      (Commit 0, true);
      (ConnExit 0 false, true)]).
Proof.
  refine (proj1 (delete_data_deletes_where "fines" [("fine_id", VInt 3)] fine_world 0
                   (later 1 fine_world) (later 1 fine_world) (later 1 fine_world)
                   (later 2 fine_world) (later 3 fine_world) (later 4 fine_world)
                   ["fine_id"] [[VInt 3]] _ _ _ _ _ _) eq_refl eq_refl);
    first [discriminate | vm_compute; reflexivity].
Defined.

End Changes.

(** ** Backups: creating and restoring *)

Module Dumps.
Import Database CRUD Spec Runs Notions.

Section Dumps.
Context {W : Type} `{Driver W}.

(** *** Suffixes *)

Lemma rev_app_append (s t : string) :
  String.rev_app s t = String.rev_app s "" +:+ t.
Proof.
  revert t. induction s as [|x s IH]; intros t; [reflexivity|].
  cbn [String.rev_app]. rewrite IH, (IH (String x "")), append_assoc. reflexivity.
Qed.

Lemma rev_append (a s : string) : String.rev (a +:+ s) = String.rev s +:+ String.rev a.
Proof.
  unfold String.rev. generalize "" at 1 3. induction a as [|x a IH]; intros t.
  - cbn. apply rev_app_append.
  - change (String x a +:+ s) with (String x (a +:+ s)). cbn [String.rev_app].
    apply IH.
Qed.

Lemma prefix_append (p s t : string) :
  String.prefix p s = true -> String.prefix p (s +:+ t) = true.
Proof.
  revert s. induction p as [|x p IH]; intros s.
  - intros _. destruct (s +:+ t); reflexivity.
  - destruct s as [|y s]; [discriminate|].
    change (String y s +:+ t) with (String y (s +:+ t)). cbn [String.prefix].
    destruct (ascii_dec x y); [apply IH|discriminate].
Qed.

Lemma endswith_self (a s : string) : Py.endswith (a +:+ s) s = true.
Proof. unfold Py.endswith. rewrite rev_append. apply prefix_app. Qed.

Lemma endswith_append (a s p : string) :
  Py.endswith s p = true -> Py.endswith (a +:+ s) p = true.
Proof. unfold Py.endswith. rewrite rev_append. apply prefix_append. Qed.

Lemma endswith_path_join (a b p : string) :
  Py.endswith b p = true -> Py.endswith (Py.path_join a b) p = true.
Proof.
  intros Hb. unfold Py.path_join.
  destruct (Py.startswith b "/"); [exact Hb|].
  destruct (negb (Py.truthy a) || Py.endswith a "/").
  - apply endswith_append, Hb.
  - apply endswith_append, (endswith_append "/"), Hb.
Qed.

Lemma backup_file_suffix (backup_name : option string) (w : W) :
  Py.endswith (backup_file backup_name w) ".backup" = true.
Proof.
  unfold backup_file. destruct backup_name as [[|x name]|].
  - apply (endswith_self ("library_backup_" +:+ now_stamp w)).
  - destruct (Py.endswith (String x name) ".backup") eqn:E; [exact E|].
    apply endswith_self.
  - apply (endswith_self ("library_backup_" +:+ now_stamp w)).
Qed.

(** *** [create_backup] *)

Lemma create_backup_run (backup_name : option string) (tables : option (list string))
    (w : W) :
  create_backup backup_name tables w =
    match os_makedirs (backup_dir w) w with
    | (Raise e, w1) => (Raise e, w1, [(Makedirs (backup_dir w), false)])
    | (Ret _, w1) =>
        let path := Py.path_join (backup_dir w) (backup_file backup_name w1) in
        let cmd := backup_cmd w1 path (dumped_tables tables) in
        match
          try_except
            (subprocess_run cmd (pg_password w1) true true;;
             let! file_size := ext (Getsize path) (os_path_getsize path) in
             let! timestamp := ask now_iso in
             ret (Backup_created path file_size (dumped_tables tables) timestamp))
            (backup_handlers cmd) w1
        with
        | (r, w2, t) => (r, w2, (Makedirs (backup_dir w), true) :: t)
        end
    end.
Proof.
  unfold create_backup.
  rewrite (bind_silent (getenv "BACKUP_DIR" "backups") _ w (backup_dir w) eq_refl).
  unfold bind at 1, ext at 1.
  destruct (os_makedirs (backup_dir w) w) as [[u|e] w1]; [|reflexivity].
  cbn [raised negb].
  assert (Hname :
    (match backup_name with
     | Some (String _ _ as name) =>
         if Py.endswith name ".backup" then ret name else ret (name +:+ ".backup")
     | _ => let! timestamp := ask now_stamp in
            ret ("library_backup_" +:+ timestamp +:+ ".backup")
     end : M W string) w1 = (Ret (backup_file backup_name w1), w1, [])).
  { unfold backup_file. destruct backup_name as [[|x name]|]; try reflexivity.
    destruct (Py.endswith (String x name) ".backup"); reflexivity. }
  rewrite (bind_silent _ _ w1 _ Hname).
  rewrite (bind_silent (getenv "DB_HOST" "localhost") _ w1 _ eq_refl).
  rewrite (bind_silent (getenv "DB_PORT" "5432") _ w1 _ eq_refl).
  rewrite (bind_silent (getenv "DB_USER" "admin") _ w1 _ eq_refl).
  rewrite (bind_silent (getenv "DB_NAME" "library_management") _ w1 _ eq_refl).
  rewrite (bind_silent (getenv "DB_PASSWORD" "123") _ w1 _ eq_refl).
  destruct (try_except _ _ w1) as [[r w2] t]. reflexivity.
Qed.

(** X13. In every world, whatever [pg_dump] command [create_backup]
    starts writes to a file whose name ends in [.backup]: the name given
    with the extension added when it is missing, or a time-stamped name
    when none is given; and the command dumps the whole database when no
    table, or an empty list of tables, is given. *)
Theorem create_backup_dumps_to_backup_file
    (backup_name : option string) (tables : option (list string)) (w : W)
    (cmd : list string) (pgpassword : string) (ok : bool) :
  In (Spawn cmd pgpassword, ok) (snd (create_backup backup_name tables w)) ->
  exists w1 path,
    cmd = backup_cmd w1 path (dumped_tables tables)
    /\ Py.endswith path ".backup" = true
    /\ (tables = None \/ tables = Some [] -> cmd = backup_cmd w1 path None).
Proof.
  rewrite create_backup_run.
  destruct (os_makedirs (backup_dir w) w) as [[u|e] w1];
    [|cbn; intros [[=]|[]]].
  cbn zeta. unfold try_except, bind, subprocess_run, ext, backup_handlers, print.
  remember (Py.path_join (backup_dir w) (backup_file backup_name w1)) as path
    eqn:Hpath.
  remember (backup_cmd w1 path (dumped_tables tables)) as command eqn:Hcommand.
  assert (Hgoal : forall o,
            (Spawn command (pg_password w1), o) = (Spawn cmd pgpassword, ok) ->
            exists w1 path,
              cmd = backup_cmd w1 path (dumped_tables tables)
              /\ Py.endswith path ".backup" = true
              /\ (tables = None \/ tables = Some [] -> cmd = backup_cmd w1 path None)).
  { intros o [= <- _ _]. exists w1, path. split; [exact Hcommand|].
    split; [subst path; apply endswith_path_join, backup_file_suffix|].
    subst command. intros [->| ->]; reflexivity. }
  destruct (proc_spawn command (pg_password w1) w1) as [[r|e] w2]; cbn;
    [destruct (negb (returncode r =? 0)%Z); cbn;
     [|destruct (os_path_getsize path w2) as [[n|e] w3]; cbn; [|destruct e; cbn]]
    |destruct e; cbn];
    intros Hin;
    repeat (destruct Hin as [Hin|Hin];
            [first [discriminate Hin | exact (Hgoal _ Hin)]|]);
    destruct Hin.
Qed.

(** X14. After the backup directory has been made, [create_backup] runs
    [pg_dump]. When [pg_dump] exits with code 0 the operation
    returns the path of the dump, its size, the tables dumped and the
    time; when it exits with another code, the size is not asked for and
    the operation prints and returns what [pg_dump] wrote to stderr, with
    the command line. *)
Theorem create_backup_reports_dump
    (backup_name : option string) (tables : option (list string))
    (w w1 w2 : W) (result : completed) :
  os_makedirs (backup_dir w) w = (Ret tt, w1) ->
  let path := Py.path_join (backup_dir w) (backup_file backup_name w1) in
  let cmd := backup_cmd w1 path (dumped_tables tables) in
  proc_spawn cmd (pg_password w1) w1 = (Ret result, w2) ->
  (forall size w3,
     returncode result = 0%Z ->
     os_path_getsize path w2 = (Ret size, w3) ->
     create_backup backup_name tables w =
       (Ret (Backup_created path size (dumped_tables tables) (now_iso w3)), w3,
        [(Makedirs (backup_dir w), true);
         (Spawn cmd (pg_password w1), true);
         (Getsize path, true)]))
  /\ (returncode result <> 0%Z ->
      create_backup backup_name tables w =
        (Ret (Backup_failed (Some (stderr result)) (Some (Py.join " " cmd))), w2,
         [(Makedirs (backup_dir w), true);
          (Spawn cmd (pg_password w1), false);
          (Print ("Ошибка создания бэкапа: " +:+ stderr result), true)])).
Proof.
  intros Hmk path cmd Hspawn. split.
  - intros size w3 Hrc Hsize. rewrite create_backup_run, Hmk. cbn zeta.
    fold path. fold cmd. unfold try_except, bind, subprocess_run, ext.
    rewrite Hspawn, Hrc. cbn. rewrite Hsize. reflexivity.
  - intros Hrc. rewrite create_backup_run, Hmk. cbn zeta.
    fold path. fold cmd. unfold try_except, bind, subprocess_run, ext.
    rewrite Hspawn. apply Z.eqb_neq in Hrc. rewrite Hrc. reflexivity.
Qed.

(** X15. [create_backup] raises only when the backup directory cannot be
    made: that exception goes to the caller, before any program is
    started; once the directory is there the operation returns, whatever
    [pg_dump] and the file system do. *)
Theorem create_backup_raises_only_from_makedirs
    (backup_name : option string) (tables : option (list string)) (w : W) :
  (forall e w1,
     os_makedirs (backup_dir w) w = (Raise e, w1) ->
     create_backup backup_name tables w
       = (Raise e, w1, [(Makedirs (backup_dir w), false)]))
  /\ (forall u w1,
        os_makedirs (backup_dir w) w = (Ret u, w1) ->
        exists r w' t, create_backup backup_name tables w = (Ret r, w', t)).
Proof.
  split.
  - intros e w1 Hmk. rewrite create_backup_run, Hmk. reflexivity.
  - intros u w1 Hmk. rewrite create_backup_run, Hmk. cbn zeta.
    unfold try_except, bind, subprocess_run, ext, backup_handlers, print.
    destruct (proc_spawn _ _ w1) as [[r|e] w2]; cbn.
    + destruct (negb (returncode r =? 0)%Z); cbn; [eauto|].
      destruct (os_path_getsize _ w2) as [[n|e] w3]; cbn; [eauto|].
      destruct e; cbn; eauto.
    + destruct e; cbn; eauto.
Qed.

(** *** [restore_backup] *)

Lemma restore_backup_runs (backup_path : string) (w : W) :
  (exists a w' t, restore_backup backup_path w = (Ret a, w', t))
  /\ exists k,
       programs (snd (restore_backup backup_path w)) = take k restore_programs.
Proof.
  destruct (os_path_exists backup_path w) eqn:Hex.
  - rewrite (Backup.restore_prelude _ _ Hex).
    unfold try_except, bind, subprocess_run, ext, restore_handlers, print.
    destruct (proc_spawn (psql_cmd w) (pg_password w) w) as [[r|e] w1]; cbn.
    + destruct (negb (returncode r =? 0)%Z); cbn.
      * split; [eauto|]. exists 1. reflexivity.
      * destruct (proc_spawn (restore_cmd w backup_path) (pg_password w) w1)
          as [[r2|e2] w2]; cbn.
        -- destruct (sort_lines _ _ _) as [warnings errors].
           destruct (negb (returncode r2 =? 0)%Z && nonempty errors); cbn;
             (split; [eauto|exists 2; reflexivity]).
        -- destruct e2; cbn; (split; [eauto|exists 2; reflexivity]).
    + destruct e; cbn; (split; [eauto|exists 1; reflexivity]).
  - unfold restore_backup.
    rewrite (bind_silent _ _ w false) by (unfold ask; rewrite Hex; reflexivity).
    cbn. split; [eauto|]. exists 0. reflexivity.
Qed.

(** X16. [restore_backup] never raises. In every world the programs it
    starts are an initial part of [psql], [pg_restore]; and when the
    backup file does not exist it starts none and makes no other call: it
    returns the failure that names the path. *)
Theorem restore_backup_never_raises (backup_path : string) :
  never_raises (restore_backup backup_path : M W _)
  /\ (forall w,
        exists k,
          programs (snd (restore_backup backup_path w)) = take k restore_programs)
  /\ (forall w,
        os_path_exists backup_path w = false ->
        restore_backup backup_path w =
          (Ret (Restore_failed (Some ("Файл бэкапа не существует: " +:+ backup_path))
                  None None), w, [])).
Proof.
  repeat apply conj.
  - intros w. apply restore_backup_runs.
  - intros w. apply restore_backup_runs.
  - intros w Hex. unfold restore_backup.
    rewrite (bind_silent _ _ w false) by (unfold ask; rewrite Hex; reflexivity).
    reflexivity.
Qed.

(** X17. When a program [restore_backup] needs cannot be found, the
    operation returns the failure that asks for the PostgreSQL client to
    be installed, without a command line. For [psql] nothing has happened
    by then; for [pg_restore] the clean step has already completed, so the
    public schema has been dropped and recreated and is left empty. *)
Theorem restore_backup_missing_tool (backup_path : string) (w : W) :
  os_path_exists backup_path w = true ->
  (forall msg w1,
     proc_spawn (psql_cmd w) (pg_password w) w = (Raise (FileNotFoundError msg), w1) ->
     restore_backup backup_path w =
       (Ret (Restore_failed (Some (missing_tool msg)) None None), w1,
        [(Spawn (psql_cmd w) (pg_password w), false)]))
  /\ (forall psql_result w1 msg w2,
        proc_spawn (psql_cmd w) (pg_password w) w = (Ret psql_result, w1) ->
        returncode psql_result = 0%Z ->
        proc_spawn (restore_cmd w backup_path) (pg_password w) w1
          = (Raise (FileNotFoundError msg), w2) ->
        restore_backup backup_path w =
          (Ret (Restore_failed (Some (missing_tool msg)) None None), w2,
           [(Spawn (psql_cmd w) (pg_password w), true);
            (Spawn (restore_cmd w backup_path) (pg_password w), false)])).
Proof.
  intros Hex. split.
  - intros msg w1 Hpsql. rewrite (Backup.restore_prelude _ _ Hex).
    unfold try_except, bind, subprocess_run, ext. rewrite Hpsql. reflexivity.
  - intros psql_result w1 msg w2 Hpsql Hrc Hrestore.
    rewrite (Backup.restore_prelude _ _ Hex).
    unfold try_except, bind, subprocess_run, ext. rewrite Hpsql. cbn.
    rewrite Hrc. cbn. rewrite Hrestore. reflexivity.
Qed.

End Dumps.

(** A backup named [friday] of the table [books]. *)
Example create_backup_dumps_to_backup_file_witness :
  exists w1 path,
    backup_cmd (later 1 friday_world) "backups/friday.backup" (Some ["books"])
      = backup_cmd w1 path (dumped_tables (Some ["books"]))
    /\ Py.endswith path ".backup" = true
    /\ (Some ["books"] = None \/ Some ["books"] = Some [] ->
        backup_cmd (later 1 friday_world) "backups/friday.backup" (Some ["books"])
        = backup_cmd w1 path None).
Proof.
  refine (create_backup_dumps_to_backup_file (Some "friday") (Some ["books"])
            friday_world
            (backup_cmd (later 1 friday_world) "backups/friday.backup" (Some ["books"]))
            "123" true _).
  let t := eval vm_compute in
    (snd (create_backup (Some "friday") (Some ["books"]) friday_world)) in
  assert (Htrace : snd (create_backup (Some "friday") (Some ["books"]) friday_world) = t)
    by (vm_compute; reflexivity).
  rewrite Htrace. right. left. vm_compute. reflexivity.
Defined.

Example create_backup_reports_dump_witness :
  create_backup (Some "friday") (Some ["books"]) friday_world =
    (Ret (Backup_created "backups/friday.backup" 2048 (Some ["books"])
            "20240101_000000"),
     later 3 friday_world,
     [(Makedirs "backups", true);
      (Spawn ["pg_dump"; "-h"; "localhost"; "-p"; "5432"; "-U"; "admin";
              "-d"; "library_management"; "-F"; "c"; "-f"; "backups/friday.backup";
              "-t"; "books"] "123", true);
      (Getsize "backups/friday.backup", true)]).
Proof.
  refine (proj1 (create_backup_reports_dump (Some "friday") (Some ["books"])
                   friday_world (later 1 friday_world) (later 2 friday_world)
                   {| returncode := 0; stdout := ""; stderr := "" |} _ _)
            2048%Z (later 3 friday_world) _ _);
    vm_compute; reflexivity.
Defined.

Example restore_backup_missing_tool_witness :
  restore_backup "backups/library.backup" no_client_world =
    (Ret (Restore_failed
            (Some (missing_tool "[Errno 2] No such file or directory: 'psql'"))
            None None),
     later 1 no_client_world,
     [(Spawn (psql_cmd no_client_world) (pg_password no_client_world), false)]).
Proof.
  refine (proj1 (restore_backup_missing_tool "backups/library.backup" no_client_world _)
            "[Errno 2] No such file or directory: 'psql'" (later 1 no_client_world) _);
    vm_compute; reflexivity.
Defined.

End Dumps.

(** ** The archive report *)

Module Reports.
Import Database CRUD Spec Runs Notions.

Section Reports.
Context {W : Type} `{Driver W}.

Lemma archive_step_returns (subdir table : string) (w : W) :
  exists e w1 t,
    archive_step subdir table w = (Ret e, w1, t) /\ entry_name e = table.
Proof.
  rewrite Archive.archive_step_run.
  destruct (Archive.archive_table_shape subdir table w)
    as [[_ [e He]] | (c & cmd & pw & rest & _ & _ & _ & Hname)];
    destruct (archive_table subdir table w) as [[[e'|e'] w1] t]; cbn in *;
    try discriminate; eauto 6.
Qed.

Lemma rows_archived_in_snoc (entries : list table_entry) (e : table_entry) :
  rows_archived_in (entries ++ [e]) = rows_archived_in entries + rows_of_entry e.
Proof.
  unfold rows_archived_in. rewrite map_app, list_sum_app. cbn. lia.
Qed.

Lemma archive_loop_report (subdir : string) (tables : list string) :
  forall report (w : W),
    ar_total_rows_archived report = rows_archived_in (ar_tables report) ->
    exists report' w' t,
      archive_loop subdir tables report w = (Ret report', w', t)
      /\ map entry_name (ar_tables report') = map entry_name (ar_tables report) ++ tables
      /\ ar_total_rows_archived report' = rows_archived_in (ar_tables report')
      /\ ar_reason report' = ar_reason report
      /\ ar_timestamp report' = ar_timestamp report.
Proof.
  induction tables as [|table tables IH]; intros report w Htotal.
  - exists report, w, []. rewrite app_nil_r. auto.
  - cbn [archive_loop].
    destruct (archive_step_returns subdir table w) as (e & w1 & t1 & Hstep & Hname).
    rewrite (bind_ok _ _ _ _ _ _ Hstep).
    destruct (IH (add_entry report e) w1) as (report' & w' & t & -> & Hnames & Hsum & Hr & Hts).
    { cbn [add_entry ar_total_rows_archived ar_tables].
      rewrite rows_archived_in_snoc, Htotal. reflexivity. }
    exists report', w', (t1 ++ t). split; [reflexivity|].
    rewrite Hnames. cbn [add_entry ar_tables] in *. rewrite map_app. cbn [map].
    rewrite Hname, <- app_assoc. auto.
Qed.

(** X18. Once its directory has been made, [archive_tables] goes
    through all the tables without raising, whatever happens to each of
    them, and then writes the report. The report has one entry per
    requested table, in the order asked, and its total is the sum of the
    rows of the archived entries; the operation returns this report with
    the path it was written to, and raises only when writing it fails. *)
Theorem archive_tables_reports_every_table
    (tables : list string) (reason : string) (w w1 : W) :
  os_makedirs (archive_subdir w) w = (Ret tt, w1) ->
  exists report w2 t,
    map entry_name (ar_tables report) = tables
    /\ ar_total_rows_archived report = rows_archived_in (ar_tables report)
    /\ ar_reason report = reason
    /\ ar_timestamp report = now_stamp w
    /\ archive_tables tables reason w =
         match fs_write_report (report_path w) report w2 with
         | (Ret _, w3) =>
             (Ret (with_report_path report (report_path w)), w3,
              (Makedirs (archive_subdir w), true) :: t
              ++ [(WriteReport (report_path w), true)])
         | (Raise e, w3) =>
             (Raise e, w3,
              (Makedirs (archive_subdir w), true) :: t
              ++ [(WriteReport (report_path w), false)])
         end.
Proof.
  intros Hmk.
  destruct (archive_loop_report (archive_subdir w) tables
              (empty_report (now_stamp w) reason) w1 eq_refl)
    as (report & w2 & t & Hloop & Hnames & Hsum & Hreason & Hts).
  exists report, w2, t. repeat (split; [assumption|]).
  unfold archive_tables.
  rewrite (bind_silent (getenv "ARCHIVE_DIR" "archives") _ w _ eq_refl).
  rewrite (bind_silent (ask now_stamp) _ w _ eq_refl).
  fold (env_or "ARCHIVE_DIR" "archives" w). fold (archive_subdir w).
  rewrite (bind_ok _ _ _ _ _ _ (ext_ok _ _ _ _ _ Hmk)).
  fold (empty_report (now_stamp w) reason).
  rewrite (bind_ok _ _ _ _ _ _ Hloop).
  fold (report_path w). unfold bind, ext.
  destruct (fs_write_report (report_path w) report w2) as [[u|e] w3]; reflexivity.
Qed.

Lemma archive_table_dump (subdir table : string) (w : W)
    (cmd : list string) (pgpassword : string) (ok : bool) :
  In (Spawn cmd pgpassword, ok) (snd (archive_table subdir table w)) ->
  exists w4, cmd = archive_dump_cmd w4 subdir table /\ pgpassword = archive_password w4.
Proof.
  unfold archive_table.
  unfold bind at 1. rewrite with_connection_run.
  destruct (db_connect (env_params w) w) as [[c|e] w1];
    [|cbn; intros [[=]|[[=]|[]]]].
  unfold ext at 1.
  destruct (pd_read_sql_query c _ w1) as [[data|e] w2];
    [|cbn; intros [[=]|[[=]|[[=]|[]]]]].
  cbn [raised negb].
  unfold bind at 1, ext at 1.
  destruct (df_to_excel data _ _) as [[u|e] w3];
    [|cbn; intros [[=]|[[=]|[[=]|[[=]|[]]]]]].
  unfold bind at 1, ext at 1.
  destruct (df_to_json data _ _) as [[u'|e] w4];
    [|cbn; intros [[=]|[[=]|[[=]|[[=]|[[=]|[]]]]]]].
  rewrite (bind_silent (getenv "DB_HOST" "localhost") _ w4 _ eq_refl).
  rewrite (bind_silent (getenv "DB_PORT" "5432") _ w4 _ eq_refl).
  rewrite (bind_silent (getenv "DB_USER" "lib_admin") _ w4 _ eq_refl).
  rewrite (bind_silent (getenv "DB_NAME" "library_management") _ w4 _ eq_refl).
  rewrite (bind_silent (getenv "DB_PASSWORD" "securepass123") _ w4 _ eq_refl).
  fold (env_or "DB_HOST" "localhost" w4). fold (env_or "DB_PORT" "5432" w4).
  fold (env_or "DB_USER" "lib_admin" w4).
  fold (env_or "DB_NAME" "library_management" w4).
  fold (env_or "DB_PASSWORD" "securepass123" w4).
  fold (archive_dump_cmd w4 subdir table). fold (archive_password w4).
  assert (Hhere : forall o,
            (Spawn (archive_dump_cmd w4 subdir table) (archive_password w4), o)
            = (Spawn cmd pgpassword, ok) ->
            exists w4, cmd = archive_dump_cmd w4 subdir table
                       /\ pgpassword = archive_password w4).
  { intros o [= <- <- _]. eauto. }
  unfold bind at 1, subprocess_run, ext at 1.
  destruct (proc_spawn _ _ w4) as [[r|e] w5];
    [|cbn -[archive_dump_cmd];
      intros [[=]|[[=]|[[=]|[[=]|[[=]|[Hin|[]]]]]]]; exact (Hhere _ Hin)].
  cbn [andb]. destruct (negb (returncode r =? 0)%Z);
    [cbn -[archive_dump_cmd];
     intros [[=]|[[=]|[[=]|[[=]|[[=]|[Hin|[]]]]]]]; exact (Hhere _ Hin)|].
  cbn [raised negb]. unfold bind at 1.
  pose proof (Archive.purge_after_exports table w5) as Hrest.
  destruct (with_connection _ w5) as [[[u''|e] w6] rest]; cbn [snd] in Hrest;
    cbn -[archive_dump_cmd In];
    rewrite ?app_nil_r;
    (intros [[=]|[[=]|[[=]|[[=]|[[=]|[Hin|Hin]]]]]]; [exact (Hhere _ Hin)|]);
    rewrite Forall_forall in Hrest; apply list_elem_of_In, Hrest in Hin;
    discriminate Hin.
Qed.

(** X19. In every world, what [archive_tables] starts for a table is
    [pg_dump] of that table into the archive directory, as the user
    [DB_USER] with the password [DB_PASSWORD]; when these are not set it
    runs as [lib_admin] with [securepass123], which are not the defaults
    the connection is opened with ([admin] and [123]). *)
Theorem archive_dump_credentials
    (subdir table : string) (w : W)
    (cmd : list string) (pgpassword : string) (ok : bool) :
  In (Spawn cmd pgpassword, ok) (snd (archive_step subdir table w)) ->
  exists w4,
    cmd = archive_dump_cmd w4 subdir table
    /\ pgpassword = archive_password w4
    /\ (os_getenv "DB_USER" w4 = None ->
        cmd !! 6 = Some "lib_admin" /\ cp_user (env_params w4) = "admin")
    /\ (os_getenv "DB_PASSWORD" w4 = None ->
        pgpassword = "securepass123" /\ cp_password (env_params w4) = "123").
Proof.
  rewrite Archive.archive_step_run. intros Hin.
  assert (Hdump : exists w4, cmd = archive_dump_cmd w4 subdir table
                             /\ pgpassword = archive_password w4).
  { pose proof (archive_table_dump subdir table w cmd pgpassword ok) as Hat.
    destruct (archive_table subdir table w) as [[[e|e] w1] t]; cbn [snd] in *;
      [exact (Hat Hin)|].
    apply in_app_or in Hin as [Hin|[[=]|[]]]. exact (Hat Hin). }
  destruct Hdump as (w4 & -> & ->). exists w4.
  split; [reflexivity|]. split; [reflexivity|]. split.
  - intros Hnone. unfold archive_dump_cmd, dump_command, env_params, env_or.
    cbn. rewrite Hnone. split; reflexivity.
  - intros Hnone. unfold archive_password, env_params, env_or.
    cbn. rewrite Hnone. split; reflexivity.
Qed.

End Reports.

(** Archiving [books] and [book_loans]: two entries, one row in all. *)
Example archive_tables_reports_every_table_witness :
  exists report w2 t,
    map entry_name (ar_tables report) = ["books"; "book_loans"]
    /\ ar_total_rows_archived report = rows_archived_in (ar_tables report)
    /\ ar_reason report = "yearly cleanup"
    /\ ar_timestamp report = now_stamp archive_world
    /\ archive_tables ["books"; "book_loans"] "yearly cleanup" archive_world =
         match fs_write_report (report_path archive_world) report w2 with
         | (Ret _, w3) =>
             (Ret (with_report_path report (report_path archive_world)), w3,
              (Makedirs (archive_subdir archive_world), true) :: t
              ++ [(WriteReport (report_path archive_world), true)])
         | (Raise e, w3) =>
             (Raise e, w3,
              (Makedirs (archive_subdir archive_world), true) :: t
              ++ [(WriteReport (report_path archive_world), false)])
         end.
Proof.
  refine (archive_tables_reports_every_table ["books"; "book_loans"] "yearly cleanup"
            archive_world (later 1 archive_world) _).
  vm_compute. reflexivity.
Defined.

(** The dump of [fines], with no variable set in the environment. *)
Example archive_dump_credentials_witness :
  exists w4,
    ["pg_dump"; "-h"; "localhost"; "-p"; "5432"; "-U"; "lib_admin";
     "-d"; "library_management"; "-t"; "fines"; "-F"; "c";
     "-f"; "archives/20240101_000000/fines.backup"]
    = archive_dump_cmd w4 "archives/20240101_000000" "fines"
    /\ "securepass123" = archive_password w4
    /\ (os_getenv "DB_USER" w4 = None ->
        ["pg_dump"; "-h"; "localhost"; "-p"; "5432"; "-U"; "lib_admin";
         "-d"; "library_management"; "-t"; "fines"; "-F"; "c";
         "-f"; "archives/20240101_000000/fines.backup"] !! 6 = Some "lib_admin"
        /\ cp_user (env_params w4) = "admin")
    /\ (os_getenv "DB_PASSWORD" w4 = None ->
        "securepass123" = "securepass123" /\ cp_password (env_params w4) = "123").
Proof.
  refine (archive_dump_credentials "archives/20240101_000000" "fines" fines_world
            ["pg_dump"; "-h"; "localhost"; "-p"; "5432"; "-U"; "lib_admin";
             "-d"; "library_management"; "-t"; "fines"; "-F"; "c";
             "-f"; "archives/20240101_000000/fines.backup"]
            "securepass123" true _).
  let t := eval vm_compute in
    (snd (archive_step "archives/20240101_000000" "fines" fines_world)) in
  assert (Htrace : snd (archive_step "archives/20240101_000000" "fines" fines_world) = t)
    by (vm_compute; reflexivity).
  rewrite Htrace. do 5 right. left. reflexivity.
Defined.

End Reports.

(** ** The endpoints *)

Module Endpoints.
Import Database CRUD Spec Runs Notions.
Import Main (Host, log_error, http_exception_str, template_response,
             logger_error, TemplateResponse, HTTPException, view_table,
             Answered, Refused, Table_view, Error_page).

Section Endpoints.
Context {W : Type} `{Driver W} `{Host W}.

Lemma logged_never_raises {A} (m : M W A) (what : exn -> string) (h : exn -> A) :
  never_raises (try_except m (fun e => logger_error (what e);; ret (h e))).
Proof.
  intros w. unfold try_except. destruct (m w) as [[[a|e] w1] t1]; cbn; eauto.
Qed.

Lemma try_except_through {A} (m : M W A) (h : exn -> M W A) (w : W) :
  (exists a w' t, m w = (Ret a, w', t)) -> try_except m h w = m w.
Proof. intros (a & w' & t & E). unfold try_except. rewrite E. reflexivity. Qed.

Lemma bind_ret_same {A} (m : M W A) (w : W) :
  (let! result := m in ret result) w = m w.
Proof.
  unfold bind. destruct (m w) as [[[a|e] w1] t]; cbn; rewrite ?app_nil_r; reflexivity.
Qed.

(** X20. The JSON endpoints never raise: whatever the operation behind
    them does, [get_tables_api], [get_table_columns_api], [execute_sql],
    [create_backup], [restore_backup] and [archive_tables] return. In
    particular, when the connection cannot be opened the [execute_sql]
    endpoint logs the exception and returns the failure with its text,
    which is where the exception [CRUD.execute_sql] raises ends. *)
Theorem json_endpoints_never_raise :
  never_raises (Main.get_tables_api : M W _)
  /\ (forall table_name, never_raises (Main.get_table_columns_api table_name : M W _))
  /\ (forall query, never_raises (Main.execute_sql query : M W _))
  /\ (forall request, never_raises (Main.create_backup request : M W _))
  /\ (forall backup_path, never_raises (Main.restore_backup backup_path : M W _))
  /\ (forall request, never_raises (Main.archive_tables request : M W _))
  /\ (forall query w e w1,
        db_connect (env_params w) w = (Raise e, w1) ->
        Main.execute_sql query w =
          (Ret (Refused (str_exn e)),
           log_error ("Ошибка выполнения SQL запроса: " +:+ str_exn e) w1,
           connect_failed w e)).
Proof.
  repeat apply conj; try (intros; apply logged_never_raises).
  intros query w e w1 Hc. unfold Main.execute_sql, try_except.
  unfold bind at 1. unfold CRUD.execute_sql. rewrite with_connection_run, Hc.
  cbn. rewrite ?app_nil_r. reflexivity.
Qed.

(** X21. The [restore_backup] endpoint joins the path it is given to the
    backup directory and answers with a failure, starting no program,
    when there is no such file; otherwise it answers with what
    [CRUD.restore_backup] returns for the joined path. A path that starts
    with [/] is joined to itself: the backup directory does not confine
    what the endpoint restores from. *)
Theorem restore_backup_endpoint_joins_path (backup_path : string) (w : W) :
  let full_path := Py.path_join (backup_dir w) backup_path in
  (os_path_exists full_path w = false ->
   Main.restore_backup backup_path w =
     (Ret (Restore_failed (Some ("Файл бэкапа не найден: " +:+ backup_path)) None None),
      w, []))
  /\ (os_path_exists full_path w = true ->
      Main.restore_backup backup_path w = CRUD.restore_backup full_path w)
  /\ (Py.startswith backup_path "/" = true -> full_path = backup_path).
Proof.
  intros full_path. repeat apply conj.
  - intros Hex. unfold Main.restore_backup, try_except.
    rewrite (bind_silent (getenv "BACKUP_DIR" "backups") _ w (backup_dir w) eq_refl).
    fold full_path.
    rewrite (bind_silent _ _ w false) by (unfold ask; rewrite Hex; reflexivity).
    reflexivity.
  - intros Hex. unfold Main.restore_backup.
    assert (Hbody :
      (let! backup_dir := getenv "BACKUP_DIR" "backups" in
       let full_path := Py.path_join backup_dir backup_path in
       let! found := ask (os_path_exists full_path) in
       if negb found then
         ret (Restore_failed (Some ("Файл бэкапа не найден: " +:+ backup_path))
                None None)
       else
         let! result := CRUD.restore_backup full_path in
         ret result) w = CRUD.restore_backup full_path w).
    { rewrite (bind_silent (getenv "BACKUP_DIR" "backups") _ w (backup_dir w) eq_refl).
      fold full_path.
      rewrite (bind_silent _ _ w true) by (unfold ask; rewrite Hex; reflexivity).
      apply bind_ret_same. }
    rewrite try_except_through; [exact Hbody|].
    destruct (Dumps.restore_backup_runs full_path w) as [(a & w' & t & Hr) _].
    exists a, w', t. transitivity (CRUD.restore_backup full_path w);
      [exact Hbody|exact Hr].
  - intros Habs. unfold full_path, Py.path_join. rewrite Habs. reflexivity.
Qed.

Lemma get_tables_statements (w : W) :
  statements (snd (get_tables w)) = [tables_query]
  \/ statements (snd (get_tables w)) = [].
Proof.
  unfold get_tables. rewrite get_connection_context_run.
  destruct (db_connect (env_params w) w) as [[c|e] w1] eqn:Hc; [|right; reflexivity].
  left.
  pose proof (statements_get_connection_context
                (fun conn =>
                   execute conn tables_query NoParams;;
                   let! rows := fetchall conn in
                   for_each (fun r : row => item r 0) rows) w w1 c Hc) as Hst.
  rewrite get_connection_context_run, Hc in Hst. rewrite Hst.
  rewrite statements_bind_quiet, statements_execute; [reflexivity|].
  intros _. quiet.
Qed.

(** X22. [view_table] checks the table name against the catalog before
    anything else: in every world, the catalog query apart, it sends a
    statement only when [get_tables] has returned and lists the table. For
    a name that is not listed the calls are those of [get_tables], and the
    answer is the error page, with the text of the [HTTPException], after
    the error has been logged. *)
Theorem view_table_checks_catalog (table_name : string) (page : Z) (w : W) :
  (forall q,
     In q (statements (snd (view_table table_name page w))) ->
     q <> tables_query ->
     exists tables w1 t,
       get_tables w = (Ret tables, w1, t) /\ VStr table_name ∈ tables)
  /\ (forall tables w1 t,
        get_tables w = (Ret tables, w1, t) ->
        VStr table_name ∉ tables ->
        view_table table_name page w =
          (error_answer ("Ошибка просмотра таблицы " +:+ table_name +:+ ": ")
             (HTTPException 404 "Таблица не найдена") w1, t)).
Proof.
  split.
  - intros q Hq Hne. unfold view_table, try_except, bind in Hq.
    pose proof (get_tables_statements w) as Hst.
    destruct (get_tables w) as [[[tables|e] w1] t] eqn:Hrun; cbn [snd] in Hst.
    + destruct (bool_decide (VStr table_name ∈ tables)) eqn:Hin.
      * apply bool_decide_eq_true in Hin. eauto.
      * exfalso. cbn in Hq.
        unfold Main.error_page, logger_error, TemplateResponse, bind in Hq.
        destruct (template_response _ _) as [[body|e'] w2]; cbn in Hq;
          rewrite !app_nil_r in Hq;
          (destruct Hst as [Hst|Hst]; rewrite Hst in Hq;
           [destruct Hq as [<-|[]]; contradiction|destruct Hq]).
    + exfalso. unfold Main.error_page, logger_error, TemplateResponse, bind in Hq.
      destruct (template_response _ _) as [[body|e'] w2]; cbn in Hq;
        rewrite !app_nil_r in Hq;
        (destruct Hst as [Hst|Hst]; rewrite Hst in Hq;
         [destruct Hq as [<-|[]]; contradiction|destruct Hq]).
  - intros tables w1 t Hrun Hout. unfold view_table, try_except.
    rewrite (bind_ok _ _ _ _ _ _ Hrun).
    rewrite (bool_decide_eq_false_2 _ Hout). cbn.
    unfold error_answer, Main.error_page, logger_error, TemplateResponse, bind.
    destruct (template_response _ _) as [[body|e'] w2]; cbn; rewrite !app_nil_r;
      reflexivity.
Qed.

End Endpoints.

(** With the server unreachable, the [execute_sql] endpoint answers with
    the failure. *)
Example json_endpoints_never_raise_witness :
  Main.execute_sql {| Main.sq_query := "SELECT 1"; Main.sq_params := None |} unreachable
  = (Ret (Refused "connection refused"), later 1 unreachable,
     connect_failed unreachable (OtherException "OperationalError" "connection refused")).
Proof.
  refine (proj2 (proj2 (proj2 (proj2 (proj2 (proj2 json_endpoints_never_raise)))))
            {| Main.sq_query := "SELECT 1"; Main.sq_params := None |} unreachable
            (OtherException "OperationalError" "connection refused")
            (later 1 unreachable) _).
  vm_compute. reflexivity.
Defined.

(** The backup [library.backup] of the backup directory. *)
Example restore_backup_endpoint_joins_path_witness :
  Main.restore_backup "library.backup" timeout_world
  = CRUD.restore_backup "backups/library.backup" timeout_world.
Proof.
  refine (proj1 (proj2 (restore_backup_endpoint_joins_path "library.backup"
                          timeout_world)) _).
  vm_compute. reflexivity.
Defined.

(** [fines] is not among the two tables of the catalog. *)
Example view_table_checks_catalog_witness :
  view_table "fines" 1 tables_world =
    (Ret (Main.Page "error.html"), later 4 tables_world,
     [(Connect (env_params tables_world), true);
      (Execute 0 tables_query NoParams, true);
      (Fetchall 0, true);
      (Close 0, true)]).
Proof.
  refine (proj2 (view_table_checks_catalog "fines" 1 tables_world)
            [VStr "authors"; VStr "books"] (later 4 tables_world) _ _ _).
  - vm_compute. reflexivity.
  - apply not_elem_of_cons. split; [discriminate|].
    apply not_elem_of_cons. split; [discriminate|]. apply not_elem_of_nil.
Defined.

End Endpoints.

(** ** Submitted forms *)

Module Forms.
Import Database CRUD Spec Runs Notions.
Import Main (Host, log_error, http_exception_str, template_response, py_int, py_float,
             logger_error, TemplateResponse, HTTPException, error_page,
             Page, RedirectResponse, Delete_record_page, Error_page,
             filled_in, str_from, typed_field, int_or_text, float_or_text, store,
             add_fields, update_fields, delete_fields, positive_counts).

Section Forms.
Context {W : Type} `{Driver W} `{Host W}.

Lemma dict_set_all {K V} `{EqDecision K} (P : K * V -> Prop) (k : K) (v : V)
    (d : dict K V) :
  P (k, v) -> Forall P d -> Forall P (dict_set k v d).
Proof.
  intros Hkv. induction 1 as [|[k' v'] d Hx Hd IH]; cbn.
  - repeat constructor. exact Hkv.
  - destruct (decide (k = k')); constructor; auto.
Qed.

Lemma filled_in_content (text : string) :
  filled_in text = true -> has_content (VStr text) = true.
Proof. destruct text; [discriminate|reflexivity]. Qed.

Lemma int_or_text_content (text : string) :
  filled_in text = true -> has_content (int_or_text text) = true.
Proof.
  intros Hf. unfold int_or_text. destruct (py_int text); [reflexivity|].
  apply filled_in_content, Hf.
Qed.

Lemma typed_field_content (key text : string) (v : value) :
  filled_in text = true -> typed_field key text = Some v -> has_content v = true.
Proof.
  intros Hf. unfold typed_field.
  destruct (_ || _); [intros [= <-]; apply int_or_text_content, Hf|].
  destruct (bool_decide (key ∈ Main.float_fields)).
  { intros [= <-]. unfold float_or_text. destruct (py_float text); [reflexivity|].
    apply filled_in_content, Hf. }
  destruct (bool_decide (key ∈ Main.date_fields)).
  { destruct (Py.truthy text); [|discriminate].
    intros [= <-]. apply filled_in_content, Hf. }
  destruct (bool_decide (key ∈ Main.bool_fields)); intros [= <-];
    [reflexivity|apply filled_in_content, Hf].
Qed.

Lemma store_all (P : string * value -> Prop) (key : string) (v : option value)
    (d : dict string value) :
  (forall x, v = Some x -> P (key, x)) -> Forall P d -> Forall P (store key v d).
Proof.
  intros Hv Hd. destruct v as [x|]; cbn; [|exact Hd].
  apply dict_set_all; auto.
Qed.

Lemma add_fields_content (form_data : list (string * string)) :
  forall data,
    Forall (fun kv => has_content (snd kv) = true) data ->
    Forall (fun kv => has_content (snd kv) = true) (add_fields form_data data).
Proof.
  induction form_data as [|[key text] rest IH]; intros data Hd; cbn; [exact Hd|].
  destruct (filled_in text) eqn:Hf; [|apply IH, Hd].
  apply IH, store_all; [|exact Hd].
  intros x Hx. exact (typed_field_content _ _ _ Hf Hx).
Qed.

Lemma update_fields_content (form_data : list (string * string)) :
  forall update_data where_condition,
    Forall (fun kv => has_content (snd kv) = true
                      /\ Py.startswith (fst kv) "where_" = false) update_data ->
    Forall (fun kv => has_content (snd kv) = true) where_condition ->
    Forall (fun kv => has_content (snd kv) = true
                      /\ Py.startswith (fst kv) "where_" = false)
      (fst (update_fields form_data update_data where_condition))
    /\ Forall (fun kv => has_content (snd kv) = true)
         (snd (update_fields form_data update_data where_condition)).
Proof.
  induction form_data as [|[key text] rest IH]; intros u c Hu Hc; cbn; [auto|].
  destruct (Py.startswith key "where_") eqn:Hk; cbn [andb].
  - destruct (filled_in text) eqn:Hf; [|apply IH; assumption].
    apply IH; [exact Hu|].
    apply (dict_set_all (fun kv => has_content (snd kv) = true)); [|exact Hc].
    apply filled_in_content, Hf.
  - destruct (filled_in text) eqn:Hf; [|apply IH; assumption].
    apply IH; [|exact Hc]. apply store_all; [|exact Hu].
    intros x Hx. split; [exact (typed_field_content _ _ _ Hf Hx)|exact Hk].
Qed.

Lemma delete_fields_content (form_data : list (string * string)) :
  forall where_condition,
    Forall (fun kv => has_content (snd kv) = true) where_condition ->
    Forall (fun kv => has_content (snd kv) = true)
      (delete_fields form_data where_condition).
Proof.
  induction form_data as [|[key text] rest IH]; intros c Hc; cbn; [exact Hc|].
  destruct (filled_in text) eqn:Hf; [|apply IH, Hc].
  destruct (_ || _); apply IH;
    apply (dict_set_all (fun kv => has_content (snd kv) = true)); try exact Hc.
  - apply int_or_text_content, Hf.
  - apply filled_in_content, Hf.
Qed.

Lemma filled_all (data : dict string value) :
  Forall (fun kv => has_content (snd kv) = true) data -> filled data = data.
Proof.
  unfold filled, dict. induction 1 as [|kv data Hkv _ IH]; [reflexivity|].
  rewrite filter_cons_True by exact Hkv. rewrite IH. reflexivity.
Qed.

(** X25. Whatever is submitted, the three form handlers pass on only
    what was filled in: every value that [add_record], [update_record]
    and [delete_record] hand to [CRUD] is neither the empty string nor
    [None], so [insert_data] and [update_data] drop none of them; and no
    field whose name starts with [where_] is ever written by
    [update_record]. *)
Theorem forms_pass_filled_values (form_data : list (string * string)) :
  let data := add_fields form_data [] in
  let updates := update_fields form_data [] [] in
  let condition := delete_fields form_data [] in
  (Forall (fun kv => has_content (snd kv) = true) data /\ filled data = data)
  /\ (Forall (fun kv => has_content (snd kv) = true) (fst updates)
      /\ filled (fst updates) = fst updates
      /\ Forall (fun kv => Py.startswith (fst kv) "where_" = false) (fst updates)
      /\ Forall (fun kv => has_content (snd kv) = true) (snd updates))
  /\ Forall (fun kv => has_content (snd kv) = true) condition.
Proof.
  intros data updates condition.
  pose proof (add_fields_content form_data [] ltac:(constructor)) as Hadd.
  destruct (update_fields_content form_data [] [] ltac:(constructor) ltac:(constructor))
    as [Hupd Hwhere].
  assert (Hupd1 : Forall (fun kv => has_content (snd kv) = true) (fst updates))
    by (eapply Forall_impl; [exact Hupd|]; intros kv [Hc _]; exact Hc).
  assert (Hupd2 : Forall (fun kv => Py.startswith (fst kv) "where_" = false)
                    (fst updates))
    by (eapply Forall_impl; [exact Hupd|]; intros kv [_ Hk]; exact Hk).
  repeat apply conj; try assumption.
  - apply filled_all, Hadd.
  - apply filled_all, Hupd1.
  - apply delete_fields_content. constructor.
Qed.





Lemma positive_counts_one (name : string) (n : Z) (w : W) :
  (0 < n)%Z ->
  positive_counts [(name, VInt n)] w = (Ret [name +:+ ": " +:+ pretty n], w, []).
Proof.
  intros Hn. cbn. unfold bind. cbn.
  apply Z.ltb_lt in Hn. rewrite Hn. reflexivity.
Qed.

(** X27. When [delete_data] refuses a delete because of dependent
    records, [delete_record] answers with the delete form again: the
    error is followed by the dependencies with a positive count, and the
    columns of the table and the list of tables are read anew, so that the
    request has opened three connections. *)
Theorem delete_record_shows_dependents
    (table_name : string) (form_data : list (string * string)) (w w1 w2 w3 w4 : W)
    (error name : string) (n : Z) (t1 t2 t3 : trace)
    (columns : list column) (all_tables : list value) (body : string) :
  let where_condition := delete_fields form_data [] in
  where_condition <> [] ->
  delete_data table_name where_condition w =
    (Ret (Change_failed error (Some [(name, VInt n)])), w1, t1) ->
  (0 < n)%Z ->
  get_table_columns table_name w1 = (Ret columns, w2, t2) ->
  get_tables w2 = (Ret all_tables, w3, t3) ->
  template_response
    (Delete_record_page table_name columns all_tables
       (error +:+ ". Зависимые данные: " +:+ name +:+ ": " +:+ pretty n)
       where_condition) w3 = (Ret body, w4) ->
  Main.delete_record table_name form_data w = (Ret (Page body), w4, t1 ++ t2 ++ t3)
  /\ connect_calls (t1 ++ t2 ++ t3) = 3.
Proof.
  intros where_condition Hne Hdel Hn Hcols Htabs Hpage. split.
  - unfold Main.delete_record, try_except. fold where_condition.
    destruct where_condition as [|kv rest] eqn:Hw; [contradiction|].
    rewrite (bind_ok _ _ _ _ _ _ Hdel).
    assert (Hmsg :
      (let! counts := positive_counts [(name, VInt n)] in
       ret (error +:+ ". Зависимые данные: " +:+ Py.join ", " counts)) w1 =
      (Ret (error +:+ ". Зависимые данные: " +:+ name +:+ ": " +:+ pretty n), w1, [])).
    { rewrite (bind_silent _ _ w1 _ (positive_counts_one name n w1 Hn)).
      unfold ret, Py.join. cbn [String.concat]. reflexivity. }
    rewrite (bind_silent _ _ w1 _ Hmsg).
    rewrite (bind_ok _ _ _ _ _ _ Hcols).
    rewrite (bind_ok _ _ _ _ _ _ Htabs).
    unfold TemplateResponse. rewrite Hpage. rewrite !app_nil_r. reflexivity.
  - rewrite !Connections.connect_calls_app.
    assert (H1 : connect_calls t1 = 1).
    { change t1 with (snd (Ret (Change_failed error (Some [(name, VInt n)])), w1, t1)).
      rewrite <- Hdel. unfold delete_data.
      destruct (Connections.with_connection_counts
                  (fun conn =>
                     try_except
                       (if bool_decide (table_name ∈ guarded_tables) then
                          let! dependencies :=
                            count_dependencies conn table_name where_condition in
                          let! has_dependencies :=
                            any_positive (map snd dependencies) in
                          if has_dependencies then
                            ret (Change_failed
                                   "Невозможно удалить запись из-за наличия зависимых данных"
                                   (Some dependencies))
                          else delete_where conn table_name where_condition
                        else delete_where conn table_name where_condition)
                       (fun e =>
                          rollback conn;;
                          print ("Ошибка удаления данных: " +:+ str_exn e);;
                          ret (Change_failed (str_exn e) None))) 0 w) as [[Hlo Hhi] _].
      { intros c. apply Connections.quiet_at_most. quiet. }
      lia. }
    assert (H2 : connect_calls t2 = 1).
    { change t2 with (snd (Ret columns, w2, t2)). rewrite <- Hcols.
      unfold get_table_columns.
      destruct (Connections.with_connection_counts
                  (fun conn =>
                     execute conn columns_query (Positional [VStr table_name]);;
                     let! columns := fetchall conn in
                     for_each column_of_row columns) 0 w1) as [[Hlo Hhi] _].
      { intros c. apply Connections.quiet_at_most. quiet. }
      lia. }
    assert (H3 : connect_calls t3 = 1).
    { change t3 with (snd (Ret all_tables, w3, t3)). rewrite <- Htabs.
      unfold get_tables. apply Connections.context_counts. intros c. quiet. }
    lia.
Qed.

End Forms.


(** The author with key 4 has two books. *)
Example delete_record_shows_dependents_witness :
  fst (Main.delete_record "authors" author_delete_form refused_world) =
    (Ret (Page "delete_record.html"), later 10 refused_world)
  /\ connect_calls
       (snd (Main.delete_record "authors" author_delete_form refused_world)) = 3.
Proof.
  destruct (delete_record_shows_dependents "authors" author_delete_form
              refused_world (later 3 refused_world) (later 6 refused_world)
              (later 10 refused_world) (later 10 refused_world)
              "Невозможно удалить запись из-за наличия зависимых данных"
              "books" 2
              (snd (delete_data "authors" [("author_id", VInt 4)] refused_world))
              (snd (get_table_columns "authors" (later 3 refused_world)))
              (snd (get_tables (later 6 refused_world)))
              [{| col_name := VStr "author_id"; col_type := VStr "integer";
                  col_nullable := false; col_default := VNone |}]
              [VStr "authors"; VStr "books"] "delete_record.html")
    as [Hrun Hcount];
    try first [vm_compute; reflexivity
              | match goal with |- _ <> _ => discriminate end].
  rewrite Hrun. split; [reflexivity|exact Hcount].
Defined.

End Forms.
